(** * Navigation tree builder, renderer, merger and pruner

    A shallow embedding of the navigation logic of the documentation
    scripts [organize_modules.py], [build_api_docs.py] and
    [fix_mintlify_errors.py], and the properties of it.

    Conventions of the embedding.
    - A Python [str] is a [string]; a character is a code point below 256,
      compared by its number, which is the order Python uses for [str].
    - The module tree is the nested dictionary of the scripts: a node has a
      list [pages] and a dictionary [submodules].  The dictionary is only
      read by key, tested for membership and iterated through [sorted], so
      it is a [gmap].
    - A value read by [json.load] is a [json]: an object is an association
      list in the order of its keys, as a Python [dict] keeps them, and a
      number is an integer.
    - A Python exception is the [Raise] outcome of a [result]. *)

From Stdlib Require Import String Ascii List ZArith Bool Lia Permutation Sorted OrdersEx DecimalString.
From stdpp Require Import gmap strings list fin_maps.
Import ListNotations.

Set Warnings "-register-all".
Open Scope string_scope.
Open Scope list_scope.

(** ** Python strings *)

Module Py.

(** [s.split(sep)] for a one-character separator: never empty, and
    [''.split('.') = ['']]. *)
Fixpoint split (sep : ascii) (s : string) : list string :=
  match s with
  | EmptyString => [EmptyString]
  | String c r =>
      if Ascii.eqb c sep then EmptyString :: split sep r
      else match split sep r with
           | h :: t => String c h :: t
           | [] => [String c EmptyString]
           end
  end.

(** [s.rfind(c)], with [None] for Python's [-1]. *)
Fixpoint rfind (c : ascii) (s : string) : option nat :=
  match s with
  | EmptyString => None
  | String a r =>
      match rfind c r with
      | Some i => Some (S i)
      | None => if Ascii.eqb a c then Some 0 else None
      end
  end.

(** [s.startswith(p)]. *)
Definition startswith (p s : string) : bool := String.prefix p s.

(** [l[-1]] of a list of strings that is known not to be empty. *)
Definition last_part (l : list string) : string := List.last l EmptyString.

(** [l[:-1]]. *)
Definition but_last (l : list string) : list string := List.removelast l.

(** [PurePath.name] of a path written with ['/']: the text after the last
    ['/'].  It is pathlib's answer whenever that text is neither empty nor
    ["."], which holds for every ["reference/" +:+ m] with [m] a file stem. *)
Definition path_name (p : string) : string :=
  match rfind "/" p with
  | Some i => substring (S i) (String.length p - S i) p
  | None => p
  end.

(** [PurePath.stem] on the final component [name]:
    [i = name.rfind('.')], and [name[:i]] if [0 < i < len(name) - 1],
    else [name]. *)
Definition name_stem (name : string) : string :=
  match rfind "." name with
  | Some i =>
      if (0 <? i)%nat && (i <? String.length name - 1)%nat
      then substring 0 i name else name
  | None => name
  end.

(** [Path(p).stem]. *)
Definition path_stem (p : string) : string := name_stem (path_name p).

(** [sorted(l)] on strings: insertion into a sorted list.  Python's sort is
    stable; on a total order every sort returns the same list
    ([sorted_unique] below). *)
Fixpoint insert_sorted (x : string) (l : list string) : list string :=
  match l with
  | [] => [x]
  | y :: r => if String.leb x y then x :: l else y :: insert_sorted x r
  end.

Definition sorted (l : list string) : list string :=
  List.fold_right insert_sorted [] l.

(** [sorted(d.items())] for a dictionary with string keys: the keys are
    distinct, so the pairs are ordered by key alone. *)
Fixpoint insert_item {A} (x : string * A) (l : list (string * A)) : list (string * A) :=
  match l with
  | [] => [x]
  | y :: r => if String.leb (fst x) (fst y) then x :: l else y :: insert_item x r
  end.

Definition sorted_items {A} (l : list (string * A)) : list (string * A) :=
  List.fold_right insert_item [] l.

(** [s.replace(a, b)] for single characters. *)
Fixpoint replace_char (a b : ascii) (s : string) : string :=
  match s with
  | EmptyString => EmptyString
  | String c r => String (if Ascii.eqb c a then b else c) (replace_char a b r)
  end.

Definition is_lower (c : ascii) : bool :=
  let n := nat_of_ascii c in (97 <=? n)%nat && (n <=? 122)%nat.
Definition is_upper (c : ascii) : bool :=
  let n := nat_of_ascii c in (65 <=? n)%nat && (n <=? 90)%nat.
Definition to_upper (c : ascii) : ascii :=
  if is_lower c then ascii_of_nat (nat_of_ascii c - 32) else c.
Definition to_lower (c : ascii) : ascii :=
  if is_upper c then ascii_of_nat (nat_of_ascii c + 32) else c.

(** [s.title()] on ASCII text: the letters [a-z] and [A-Z] are the cased
    characters.  Python also cases letters outside ASCII (["é"] and the
    like), which are uncased here; the function is only reached for a
    module name that is not a key of [MODULE_NAME_DISPLAY]. *)
Fixpoint title_from (previous_is_cased : bool) (s : string) : string :=
  match s with
  | EmptyString => EmptyString
  | String c r =>
      if is_lower c then
        String (if previous_is_cased then c else to_upper c) (title_from true r)
      else if is_upper c then
        String (if previous_is_cased then to_lower c else c) (title_from true r)
      else String c (title_from false r)
  end.

Definition title (s : string) : string := title_from false s.

(** A dictionary literal read by key. *)
Fixpoint assoc {A} (k : string) (d : list (string * A)) : option A :=
  match d with
  | [] => None
  | (k', v) :: r => if String.eqb k' k then Some v else assoc k r
  end.

End Py.

(** ** JSON values *)

Inductive json : Type :=
| JNull
| JBool (b : bool)
| JNum (n : Z)
| JStr (s : string)
| JArr (items : list json)
| JObj (fields : list (string * json)).

(** ** Python operations on JSON values *)

Inductive exn : Type := AttributeError | TypeError | KeyError.

Inductive result (A : Type) : Type :=
| Ok (a : A)
| Raise (e : exn).
Arguments Ok {A} a.
Arguments Raise {A} e.

Definition bind {A B} (r : result A) (k : A -> result B) : result B :=
  match r with
  | Ok a => k a
  | Raise e => Raise e
  end.

Notation "'let*' x := r 'in' k" := (bind r (fun x => k))
  (at level 10, x pattern, r at level 200, k at level 200).

Module Dict.

(** [d.get(k)], with [None] for a missing key. *)
Fixpoint get (k : string) (d : list (string * json)) : option json :=
  match d with
  | [] => None
  | (k', v) :: r => if String.eqb k' k then Some v else get k r
  end.

(** [k in d]. *)
Definition has (k : string) (d : list (string * json)) : bool :=
  match get k d with Some _ => true | None => false end.

(** [d[k] = v]: a key that is present keeps its place, a new key goes last. *)
Fixpoint set (k : string) (v : json) (d : list (string * json))
    : list (string * json) :=
  match d with
  | [] => [(k, v)]
  | (k', v') :: r => if String.eqb k' k then (k, v) :: r else (k', v') :: set k v r
  end.

(** [f(d[k])] when [k in d], for an [f] that can raise. *)
Fixpoint apply {R} (f : json -> result R) (k : string) (d : list (string * json))
    : result (option R) :=
  match d with
  | [] => Ok None
  | (k', v) :: r =>
      if String.eqb k' k then let* x := f v in Ok (Some x) else apply f k r
  end.

(** [f(d[k])] when [k in d], and [z] otherwise. *)
Fixpoint on {R} (f : json -> R) (z : R) (k : string) (d : list (string * json)) : R :=
  match d with
  | [] => z
  | (k', v) :: r => if String.eqb k' k then f v else on f z k r
  end.

End Dict.

(** The truth value of a JSON value in a condition. *)
Definition truthy (v : json) : bool :=
  match v with
  | JNull => false
  | JBool b => b
  | JNum n => negb (n =? 0)%Z
  | JStr s => negb (String.eqb s EmptyString)
  | JArr l => match l with [] => false | _ => true end
  | JObj d => match d with [] => false | _ => true end
  end.

(** [len(v)]. *)
Definition py_len (v : json) : result nat :=
  match v with
  | JStr s => Ok (String.length s)
  | JArr l => Ok (List.length l)
  | JObj d => Ok (List.length d)
  | _ => Raise TypeError
  end.

(** [v == s] for a string [s]. *)
Definition is_str (s : string) (v : json) : bool :=
  match v with
  | JStr s' => String.eqb s' s
  | _ => false
  end.

(** Is [p] a substring of [s]? *)
Fixpoint is_substring (p s : string) : bool :=
  String.prefix p s ||
  match s with
  | EmptyString => false
  | String _ r => is_substring p r
  end.

(** [k in v] for a string [k]. *)
Definition py_contains (k : string) (v : json) : result bool :=
  match v with
  | JObj d => Ok (Dict.has k d)
  | JArr l => Ok (List.existsb (is_str k) l)
  | JStr s => Ok (is_substring k s)
  | _ => Raise TypeError
  end.

(** [v[k]] for a string [k]. *)
Definition py_getitem (k : string) (v : json) : result json :=
  match v with
  | JObj d => match Dict.get k d with Some x => Ok x | None => Raise KeyError end
  | _ => Raise TypeError
  end.

Fixpoint chars (s : string) : list json :=
  match s with
  | EmptyString => []
  | String c r => JStr (String c EmptyString) :: chars r
  end.

(** The values that [for x in v] goes through. *)
Definition py_iter (v : json) : result (list json) :=
  match v with
  | JArr l => Ok l
  | JObj d => Ok (List.map (fun kv => JStr (fst kv)) d)
  | JStr s => Ok (chars s)
  | _ => Raise TypeError
  end.

(** [v.get(k)], an attribute that only a [dict] has. *)
Definition py_get (k : string) (v : json) : result (option json) :=
  match v with
  | JObj d => Ok (Dict.get k d)
  | _ => Raise AttributeError
  end.

(** ** Writing a document: [json.dump(v, f, indent=2, ensure_ascii=...)] *)

Module Json.

Definition quote : ascii := ascii_of_nat 34.
Definition backslash : ascii := ascii_of_nat 92.
Definition newline : ascii := ascii_of_nat 10.

Definition hex_digit (n : nat) : ascii :=
  if (n <? 10)%nat then ascii_of_nat (48 + n) else ascii_of_nat (87 + n).

(** ['\\u{0:04x}'.format(n)] for [n < 65536]. *)
Definition u_escape (n : nat) : string :=
  String backslash (String "u"
    (String (hex_digit (n / 4096 mod 16)) (String (hex_digit (n / 256 mod 16))
      (String (hex_digit (n / 16 mod 16)) (String (hex_digit (n mod 16))
        EmptyString))))).

(** The replacement of one character by [encode_basestring_ascii] when
    [ensure_ascii] holds and by [encode_basestring] otherwise. *)
Definition escape_char (ensure_ascii : bool) (c : ascii) : string :=
  let n := nat_of_ascii c in
  if (n =? 34)%nat then String backslash (String quote EmptyString)
  else if (n =? 92)%nat then String backslash (String backslash EmptyString)
  else if (n =? 10)%nat then String backslash "n"
  else if (n =? 13)%nat then String backslash "r"
  else if (n =? 9)%nat then String backslash "t"
  else if (n =? 8)%nat then String backslash "b"
  else if (n =? 12)%nat then String backslash "f"
  else if (n <? 32)%nat then u_escape n
  else if ensure_ascii && (126 <? n)%nat then u_escape n
  else String c EmptyString.

Fixpoint escape (ensure_ascii : bool) (s : string) : string :=
  match s with
  | EmptyString => EmptyString
  | String c r => escape_char ensure_ascii c +:+ escape ensure_ascii r
  end.

Definition encode_string (ensure_ascii : bool) (s : string) : string :=
  String quote (escape ensure_ascii s +:+ String quote EmptyString).

Fixpoint spaces (n : nat) : string :=
  match n with
  | O => EmptyString
  | S k => String " " (spaces k)
  end.

(** ['\n' + ' ' * (2 * level)] *)
Definition newline_indent (level : nat) : string :=
  String newline (spaces (2 * level)).

Fixpoint join (sep : string) (l : list string) : string :=
  match l with
  | [] => EmptyString
  | [x] => x
  | x :: r => x +:+ sep +:+ join sep r
  end.

Definition int_repr (n : Z) : string :=
  DecimalString.NilZero.string_of_int (Z.to_int n).

Fixpoint dumps (ensure_ascii : bool) (level : nat) (v : json) : string :=
  match v with
  | JNull => "null"
  | JBool true => "true"
  | JBool false => "false"
  | JNum n => int_repr n
  | JStr s => encode_string ensure_ascii s
  | JArr [] => "[]"
  | JArr items =>
      "[" +:+ newline_indent (S level) +:+
      join ("," +:+ newline_indent (S level))
        (List.map (dumps ensure_ascii (S level)) items) +:+
      newline_indent level +:+ "]"
  | JObj [] => "{}"
  | JObj d =>
      "{" +:+ newline_indent (S level) +:+
      join ("," +:+ newline_indent (S level))
        (List.map (fun kv => encode_string ensure_ascii (fst kv) +:+ ": " +:+
                             dumps ensure_ascii (S level) (snd kv)) d) +:+
      newline_indent level +:+ "}"
  end.

End Json.

(** ** The outcome of [update_mint_json] *)

(** What a call of [update_mint_json] did: the value it returned and the
    text it wrote to the file, [None] when the file was not written.  A
    call that raises has not opened the file for writing. *)
Record merge_outcome : Type := MergeOutcome {
  returned : bool;
  written : option string
}.

Definition is_api_reference (name : option json) : bool :=
  match name with
  | Some v => is_str "API Reference" v
  | None => false
  end.

(** ** The module tree *)

(** [{"pages": [...], "submodules": defaultdict(new_module_dict)}] *)
Inductive module_dict : Type :=
| ModuleDict (pages : list string) (submodules : gmap string module_dict).

Definition pages (t : module_dict) : list string :=
  let 'ModuleDict p _ := t in p.

Definition submodules (t : module_dict) : gmap string module_dict :=
  let 'ModuleDict _ s := t in s.

Definition new_module_dict : module_dict := ModuleDict [] ∅.

(** The walk [current = current["submodules"][part]] along [path], where a
    missing key is created by the [defaultdict], followed by a change of
    the reached node's [pages] in place. *)
Fixpoint tree_update (path : list string) (upd : list string -> list string)
    (t : module_dict) : module_dict :=
  match path with
  | [] => ModuleDict (upd (pages t)) (submodules t)
  | part :: rest =>
      ModuleDict (pages t)
        (<[part := tree_update rest upd
                     (default new_module_dict (submodules t !! part))]>
           (submodules t))
  end.

(** One round of the loop [for file in mdx_files] of [build_module_tree];
    [file] is the file's name, [file.stem] its module path. *)
Definition add_file (module_tree : module_dict) (file : string) : module_dict :=
  let module_path := Py.name_stem file in
  if negb (Py.startswith "camel." module_path) then module_tree
  else
    let parts := Py.split "." module_path in
    let reference_path := "reference/" +:+ module_path in
    if (List.length parts =? 1)%nat then
      ModuleDict (pages module_tree ++ [reference_path]) (submodules module_tree)
    else
      (* parts[:-1] without its first element, the root package *)
      let path := List.tl (Py.but_last parts) in
      if String.eqb (Py.last_part parts) (Py.last_part (Py.but_last parts)) then
        tree_update path (fun pgs => reference_path :: pgs) module_tree
      else
        tree_update path (fun pgs => pgs ++ [reference_path]) module_tree.

(** [build_module_tree], the same text in [organize_modules.py] and in
    [build_api_docs.py]. *)
Definition build_module_tree (mdx_files : list string) : module_dict :=
  List.fold_left add_file mdx_files new_module_dict.

Definition MODULE_NAME_DISPLAY : list (string * string) :=
  [ ("agents", "Agents"); ("configs", "Configs"); ("datagen", "Data Generation");
    ("datasets", "Datasets"); ("data_collector", "Data Collector");
    ("embeddings", "Embeddings"); ("environments", "Environments");
    ("interpreters", "Interpreters"); ("loaders", "Loaders");
    ("memories", "Memory"); ("messages", "Messages"); ("models", "Models");
    ("prompts", "Prompts"); ("responses", "Responses");
    ("retrievers", "Retrievers"); ("runtime", "Runtime"); ("schemas", "Schemas");
    ("societies", "Societies"); ("storages", "Storage"); ("tasks", "Tasks");
    ("terminators", "Terminators"); ("toolkits", "Toolkits"); ("types", "Types");
    ("utils", "Utilities"); ("verifiers", "Verifiers");
    ("benchmarks", "Benchmarks"); ("bots", "Bots"); ("personas", "Personas");
    ("extractors", "Extractors") ].

Definition get_module_display_name (module_name : string) : string :=
  match Py.assoc module_name MODULE_NAME_DISPLAY with
  | Some d => d
  | None => Py.title (Py.replace_char "_" " " module_name)
  end.

(** The test of the renderer's first step:
    ["camel" in [Path(p).stem.split('.')[-1] for p in module_tree["pages"]]]. *)
Definition has_camel_page (pgs : list string) : bool :=
  List.existsb
    (fun p => String.eqb (Py.last_part (Py.split "." (Py.path_stem p))) "camel")
    pgs.

(** The pages of one navigation group: the node's own pages sorted, then
    for each sub-module in the order of [sorted(... .items())] its pages
    sorted, when it has any. *)
Definition group_pages (submodule : module_dict) : list string :=
  Py.sorted (pages submodule) ++
  List.flat_map
    (fun item : string * module_dict =>
       match pages (snd item) with
       | [] => []
       | _ :: _ => Py.sorted (pages (snd item))
       end)
    (Py.sorted_items (map_to_list (submodules submodule))).

(** [{"group": display_name, "pages": [...]}] *)
Definition nav_group (display_name : string) (pgs : list string) : json :=
  JObj [("group", JStr display_name); ("pages", JArr (List.map JStr pgs))].

(** ** [organize_modules.py] *)

Module organize_modules.

Definition MODULE_ORDER : list string :=
  [ "camel"; "agents"; "configs"; "datagen"; "datasets"; "embeddings"; "models";
    "interpreters"; "memories"; "messages"; "prompts"; "responses";
    "retrievers"; "societies"; "storages"; "tasks"; "terminators"; "toolkits";
    "types"; "verifiers"; "bots"; "runtime"; "utils"; "environments";
    "extractors"; "personas" ].

(** The body of [for module_name in MODULE_ORDER].  Both branches of the
    test [len(sub_data["pages"]) > 1] extend the group with the sorted
    pages; the sub-group built in the first one is never used. *)
Definition render_module (module_tree : module_dict) (module_name : string)
    : list json :=
  if String.eqb module_name "camel" then []
  else
    match submodules module_tree !! module_name with
    | None => []
    | Some submodule =>
        match group_pages submodule with
        | [] => []
        | pgs => [nav_group (get_module_display_name module_name) pgs]
        end
    end.

Definition convert_tree_to_navigation (module_tree : module_dict) : list json :=
  (if has_camel_page (pages module_tree) then [JStr "reference/camel"] else [])
  ++ List.flat_map (render_module module_tree) MODULE_ORDER.

(** The loop over [enumerate(mint_data.get("navigation", []))]: the list
    after [mint_data["navigation"][i]["pages"] = navigation], or [None]
    when no group is named "API Reference". *)
Fixpoint update_groups (navigation : list json) (groups : list json)
    : result (option (list json)) :=
  match groups with
  | [] => Ok None
  | group :: rest =>
      let* name := py_get "group" group in
      if is_api_reference name then
        match group with
        | JObj d => Ok (Some (JObj (Dict.set "pages" (JArr navigation) d) :: rest))
        | _ => Raise TypeError
        end
      else
        let* r := update_groups navigation rest in
        Ok (option_map (cons group) r)
  end.

(** [mint_data] when the loop is over. *)
Definition merged (mint_data : json) (navigation : list json) : result json :=
  let* section := py_get "navigation" mint_data in
  let* groups := py_iter (default (JArr []) section) in
  let* updated := update_groups navigation groups in
  match updated, mint_data with
  | Some groups', JObj d => Ok (JObj (Dict.set "navigation" (JArr groups') d))
  | _, _ => Ok mint_data
  end.

(** [mint_json] is what [json.load] reads from the file, [None] when the
    path does not exist.  The dump leaves [ensure_ascii] at its default. *)
Definition update_mint_json (mint_json : option json) (navigation : list json)
    : result merge_outcome :=
  match mint_json with
  | None => Ok (MergeOutcome false None)
  | Some mint_data =>
      let* mint_data' := merged mint_data navigation in
      Ok (MergeOutcome true (Some (Json.dumps true 0 mint_data')))
  end.

End organize_modules.

(** ** [build_api_docs.py] *)

Module build_api_docs.

Definition MODULE_ORDER : list string :=
  [ "agents"; "configs"; "datagen"; "datasets"; "embeddings"; "models";
    "interpreters"; "memories"; "messages"; "prompts"; "responses";
    "retrievers"; "societies"; "storages"; "tasks"; "terminators"; "toolkits";
    "types"; "verifiers"; "bots"; "runtime"; "utils"; "environments";
    "extractors"; "personas" ].

Definition render_module (module_tree : module_dict) (module_name : string)
    : list json :=
  match submodules module_tree !! module_name with
  | None => []
  | Some submodule =>
      match group_pages submodule with
      | [] => []
      | pgs => [nav_group (get_module_display_name module_name) pgs]
      end
  end.

Definition convert_tree_to_navigation (module_tree : module_dict) : list json :=
  (if has_camel_page (pages module_tree) then [JStr "reference/camel"] else [])
  ++ List.flat_map (render_module module_tree) MODULE_ORDER.

(** The loop [for tab in tabs]: the list after [tab["groups"] = navigation],
    or [None] when no tab is named "API Reference". *)
Fixpoint update_tabs (navigation : list json) (tabs : list json)
    : result (option (list json)) :=
  match tabs with
  | [] => Ok None
  | tab :: rest =>
      let* name := py_get "tab" tab in
      if is_api_reference name then
        match tab with
        | JObj d => Ok (Some (JObj (Dict.set "groups" (JArr navigation) d) :: rest))
        | _ => Raise TypeError
        end
      else
        let* r := update_tabs navigation rest in
        Ok (option_map (cons tab) r)
  end.

Definition merged (mint_data : json) (navigation : list json) : result json :=
  let* section := py_get "navigation" mint_data in
  let* tabs_value := py_get "tabs" (default (JObj []) section) in
  let* tabs := py_iter (default (JArr []) tabs_value) in
  let* updated := update_tabs navigation tabs in
  match updated, mint_data, section with
  | Some tabs', JObj d, Some (JObj nav) =>
      Ok (JObj (Dict.set "navigation" (JObj (Dict.set "tabs" (JArr tabs') nav)) d))
  | _, _, _ => Ok mint_data
  end.

(** The dump is made with [ensure_ascii=False]. *)
Definition update_mint_json (mint_json : option json) (navigation : list json)
    : result merge_outcome :=
  match mint_json with
  | None => Ok (MergeOutcome false None)
  | Some mint_data =>
      let* mint_data' := merged mint_data navigation in
      Ok (MergeOutcome true (Some (Json.dumps false 0 mint_data')))
  end.

End build_api_docs.

(** ** [fix_mintlify_errors.py] *)

Module fix_mintlify_errors.

(** [s.replace(pat, '')] for a pattern that is not empty; [skip] counts the
    characters of a match that are still to be dropped. *)
Fixpoint remove_all (pat : string) (skip : nat) (s : string) : string :=
  match s with
  | EmptyString => EmptyString
  | String c r =>
      match skip with
      | S k => remove_all pat k r
      | O =>
          if String.prefix pat s then remove_all pat (String.length pat - 1) r
          else String c (remove_all pat 0 r)
      end
  end.

Definition file_path_to_page_path (file_path : string) : string :=
  let page_path := remove_all ".mdx" 0 file_path in
  remove_all "&" 0 page_path.

(** What one call leaves behind: the pages appended to [removed_pages] and
    the lines printed, a line being kept as its kind and the value
    formatted into it. *)
Inductive line : Type :=
| Removed_page (item : string)
| Removed_empty_group (group : json).

Record effects : Type := Effects {
  removed_pages : list string;
  printed : list line
}.

Definition no_effects : effects := Effects [] [].

Definition then_effects (a b : effects) : effects :=
  Effects (removed_pages a ++ removed_pages b) (printed a ++ printed b).

(** [(item.get(k) and len(item[k]) > 0)] *)
Definition non_empty (k : string) (item : list (string * json)) : result bool :=
  match Dict.get k item with
  | None => Ok false
  | Some v => if truthy v then let* n := py_len v in Ok (0 <? n)%nat else Ok false
  end.

(** The nested function [remove_from_groups] for the list
    [error_page_paths]; the result is the returned value with the effects
    of the call. *)
Fixpoint remove_from_groups (error_page_paths : list string) (groups : json)
    : result (json * effects) :=
  match groups with
  | JArr items =>
      let* (new_groups, e) :=
        (fix each (items : list json) : result (list json * effects) :=
           match items with
           | [] => Ok ([], no_effects)
           | item :: rest =>
               let* (kept, e1) :=
                 match item with
                 | JStr s =>
                     if List.existsb (String.eqb s) error_page_paths
                     then Ok ([], Effects [s] [Removed_page s])
                     else Ok ([item], no_effects)
                 | JObj d =>
                     let* pruned_pages :=
                       Dict.apply (remove_from_groups error_page_paths) "pages" d in
                     let d1 := match pruned_pages with
                               | Some (v, _) => Dict.set "pages" v d
                               | None => d
                               end in
                     let e1 := match pruned_pages with
                               | Some (_, e) => e
                               | None => no_effects
                               end in
                     (* item['groups'] is still the value it has in [d] *)
                     let* pruned_groups :=
                       Dict.apply (remove_from_groups error_page_paths) "groups" d in
                     let d2 := match pruned_groups with
                               | Some (v, _) => Dict.set "groups" v d1
                               | None => d1
                               end in
                     let e2 := match pruned_groups with
                               | Some (_, e) => e
                               | None => no_effects
                               end in
                     let* has_pages := non_empty "pages" d2 in
                     let* keep := (if has_pages then Ok true else non_empty "groups" d2) in
                     if keep : bool then Ok ([JObj d2], then_effects e1 e2)
                     else
                       Ok ([], then_effects (then_effects e1 e2)
                                 (Effects [] [Removed_empty_group
                                    (default (JStr "Unknown") (Dict.get "group" d2))]))
                 | _ => Ok ([], no_effects)
                 end in
               let* (others, e2) := each rest in
               Ok (kept ++ others, then_effects e1 e2)
           end) items in
      Ok (JArr new_groups, e)
  | _ => Ok (groups, no_effects)
  end.

(** The loop [for tab in docs_data['navigation']['tabs']]. *)
Fixpoint each_tab (error_page_paths : list string) (tabs : list json)
    : result (list json * effects) :=
  match tabs with
  | [] => Ok ([], no_effects)
  | tab :: rest =>
      let* has_groups := py_contains "groups" tab in
      let* (tab', e1) :=
        (if has_groups : bool then
           let* groups := py_getitem "groups" tab in
           let* (groups', e) := remove_from_groups error_page_paths groups in
           match tab with
           | JObj d => Ok (JObj (Dict.set "groups" groups' d), e)
           | _ => Raise TypeError
           end
         else Ok (tab, no_effects)) in
      let* (rest', e2) := each_tab error_page_paths rest in
      Ok (tab' :: rest', then_effects e1 e2)
  end.

(** [remove_pages_from_navigation(docs_data, error_files)]: the document
    as the call leaves it, the returned [removed_pages] and the lines
    printed. *)
Definition remove_pages_from_navigation (docs_data : json) (error_files : list string)
    : result (json * effects) :=
  let error_page_paths := List.map file_path_to_page_path error_files in
  let* has_navigation := py_contains "navigation" docs_data in
  if has_navigation : bool then
    let* navigation := py_getitem "navigation" docs_data in
    let* has_tabs := py_contains "tabs" navigation in
    if has_tabs : bool then
      let* tabs := py_getitem "tabs" navigation in
      let* tab_list := py_iter tabs in
      let* (tabs', e) := each_tab error_page_paths tab_list in
      match docs_data, navigation, tabs with
      | JObj doc, JObj nav, JArr _ =>
          Ok (JObj (Dict.set "navigation" (JObj (Dict.set "tabs" (JArr tabs') nav)) doc), e)
      | _, _, _ => Ok (docs_data, e)
      end
    else Ok (docs_data, no_effects)
  else Ok (docs_data, no_effects).

End fix_mintlify_errors.

(** ** Observations of a tree *)

(** The node reached from [t] along [path], if the tree has it. *)
Fixpoint node_at (path : list string) (t : module_dict) : option module_dict :=
  match path with
  | [] => Some t
  | part :: rest =>
      match submodules t !! part with
      | Some child => node_at rest child
      | None => None
      end
  end.

Definition pages_at (path : list string) (t : module_dict) : list string :=
  match node_at path t with
  | Some n => pages n
  | None => []
  end.

Definition has_node (path : list string) (t : module_dict) : bool :=
  match node_at path t with
  | Some _ => true
  | None => false
  end.

Fixpoint is_prefix (q p : list string) : bool :=
  match q, p with
  | [], _ => true
  | b :: q', a :: p' => String.eqb b a && is_prefix q' p'
  | _ :: _, [] => false
  end.

(** Two trees that the renderer cannot tell apart: the same nodes, with the
    same pages in some order. *)
Definition tree_equiv (t1 t2 : module_dict) : Prop :=
  forall q, Permutation (pages_at q t1) (pages_at q t2)
            /\ has_node q t1 = has_node q t2.

(** Where [add_file] puts a file: the path of the node, whether the page
    goes to the front, and the page; [None] for a file that is skipped. *)
Definition file_target (file : string) : option (list string * bool * string) :=
  let module_path := Py.name_stem file in
  if negb (Py.startswith "camel." module_path) then None
  else
    let parts := Py.split "." module_path in
    let reference_path := "reference/" +:+ module_path in
    if (List.length parts =? 1)%nat then Some ([], false, reference_path)
    else Some (List.tl (Py.but_last parts),
               String.eqb (Py.last_part parts) (Py.last_part (Py.but_last parts)),
               reference_path).

Definition add_page (front : bool) (page : string) (pgs : list string) : list string :=
  if front then page :: pgs else pgs ++ [page].

(** ** Observations of a navigation *)

(** The page references of a navigation list in the order of the document:
    the strings of the list and, for an object, those of its ["pages"]
    and of its ["groups"]. *)
Fixpoint page_refs (v : json) : list string :=
  match v with
  | JArr items =>
      List.flat_map
        (fun item =>
           match item with
           | JStr s => [s]
           | JObj d => Dict.on page_refs [] "pages" d ++ Dict.on page_refs [] "groups" d
           | _ => []
           end) items
  | _ => []
  end.

(** ** Words of the specification *)

(** [a] is not after [b] in the order of Python strings. *)
Definition str_le (a b : string) : Prop := String.leb a b = true.

(** [l'] is [l] put in lexicographic order. *)
Definition ordered_copy (l l' : list string) : Prop :=
  Permutation l l' /\ StronglySorted str_le l'.

(** The entry [e] read as a group: an object with the keys ["group"] and
    ["pages"] and no other, the name [name] under the first and the bare
    pages [pgs], in that order, under the second. *)
Definition group_of (name : string) (pgs : list string) (e : json) : Prop :=
  exists d,
    e = JObj d
    /\ List.map fst d = ["group"; "pages"]
    /\ Dict.get "group" d = Some (JStr name)
    /\ Dict.get "pages" d = Some (JArr (List.map JStr pgs)).

(** A navigation entry without a group inside a group: a bare page, or a
    group whose pages are all bare pages. *)
Definition flat_entry (e : json) : Prop :=
  (exists p, e = JStr p) \/ (exists name pgs, group_of name pgs e).

(** A navigation as the documents hold it: a list of page paths and of
    objects whose ["pages"] and ["groups"], when present, are navigations
    in turn. *)
Fixpoint is_navigation (v : json) : bool :=
  match v with
  | JArr items =>
      List.forallb
        (fun item =>
           match item with
           | JStr _ => true
           | JObj d =>
               Dict.on is_navigation true "pages" d
               && Dict.on is_navigation true "groups" d
           | _ => false
           end) items
  | _ => false
  end.

(** ** The pruner, one entry at a time

    The steps of [remove_from_groups] under names of their own; they are
    shown below to be the steps of the function. *)

Module prune.
Import fix_mintlify_errors.

(** The two assignments to [item['pages']] and [item['groups']]. *)
Definition pruned_fields (error_page_paths : list string) (d : list (string * json))
    : result (list (string * json) * effects) :=
  let* pruned_pages :=
    match Dict.get "pages" d with
    | Some v => let* x := remove_from_groups error_page_paths v in Ok (Some x)
    | None => Ok None
    end in
  let* pruned_groups :=
    match Dict.get "groups" d with
    | Some v => let* x := remove_from_groups error_page_paths v in Ok (Some x)
    | None => Ok None
    end in
  let d1 := match pruned_pages with Some (v, _) => Dict.set "pages" v d | None => d end in
  let d2 := match pruned_groups with Some (v, _) => Dict.set "groups" v d1 | None => d1 end in
  Ok (d2,
      then_effects
        (match pruned_pages with Some (_, e) => e | None => no_effects end)
        (match pruned_groups with Some (_, e) => e | None => no_effects end)).

(** The test that keeps a group. *)
Definition keeps (d : list (string * json)) : result bool :=
  let* has_pages := non_empty "pages" d in
  if has_pages : bool then Ok true else non_empty "groups" d.

Definition group_line (d : list (string * json)) : line :=
  Removed_empty_group (default (JStr "Unknown") (Dict.get "group" d)).

(** What one entry of the list becomes. *)
Definition entry (error_page_paths : list string) (item : json)
    : result (list json * effects) :=
  match item with
  | JStr s =>
      if List.existsb (String.eqb s) error_page_paths
      then Ok ([], Effects [s] [Removed_page s])
      else Ok ([item], no_effects)
  | JObj d =>
      let* (d2, e) := pruned_fields error_page_paths d in
      let* keep := keeps d2 in
      if keep : bool then Ok ([JObj d2], e)
      else Ok ([], then_effects e (Effects [] [group_line d2]))
  | _ => Ok ([], no_effects)
  end.

Fixpoint entries (error_page_paths : list string) (items : list json)
    : result (list json * effects) :=
  match items with
  | [] => Ok ([], no_effects)
  | item :: rest =>
      let* (kept, e1) := entry error_page_paths item in
      let* (others, e2) := entries error_page_paths rest in
      Ok (kept ++ others, then_effects e1 e2)
  end.

End prune.

(** [item in error_page_paths] *)
Definition broken (error_page_paths : list string) (item : string) : bool :=
  List.existsb (String.eqb item) error_page_paths.

(** ** Documents without the section of the API reference *)

(** Every element of the list is an object that [key] does not name
    "API Reference". *)
Definition none_named (key : string) (l : list json) : bool :=
  List.forallb
    (fun x =>
       match x with
       | JObj d => negb (is_api_reference (Dict.get key d))
       | _ => false
       end) l.

(** A document for [organize_modules.py], whose navigation is a list of
    groups, without a group named "API Reference". *)
Definition lacks_group (doc : json) : bool :=
  match doc with
  | JObj d =>
      match Dict.get "navigation" d with
      | None => true
      | Some (JArr groups) => none_named "group" groups
      | Some _ => false
      end
  | _ => false
  end.

(** A document for [build_api_docs.py], whose navigation holds a list of
    tabs, without a tab named "API Reference". *)
Definition lacks_tab (doc : json) : bool :=
  match doc with
  | JObj d =>
      match Dict.get "navigation" d with
      | None => true
      | Some (JObj nav) =>
          match Dict.get "tabs" nav with
          | None => true
          | Some (JArr tabs) => none_named "tab" tabs
          | Some _ => false
          end
      | Some _ => false
      end
  | _ => false
  end.

(** ** Sample documents *)

(** The text "Cafe" with an acute accent on its last letter, the code
    point 233. *)
Definition cafe : string := "Caf" +:+ String (ascii_of_nat 233) EmptyString.

(** The same text as [json.dump] writes it under [ensure_ascii]: the
    letters "Caf", a backslash and "u00e9". *)
Definition cafe_escaped : string := "Caf" +:+ String (ascii_of_nat 92) "u00e9".

Definition site_without_reference : json :=
  JObj [("name", JStr "Docs");
        ("navigation",
         JArr [JObj [("group", JStr "Get Started"); ("pages", JArr [JStr "intro"])]])].

Definition tabs_without_reference : json :=
  JObj [("name", JStr "Docs");
        ("navigation",
         JObj [("tabs", JArr [JObj [("tab", JStr "Guides"); ("groups", JArr [])]])])].

Definition site_with_reference : json :=
  JObj [("name", JStr cafe);
        ("navigation",
         JArr [JObj [("group", JStr "Get Started"); ("pages", JArr [JStr "intro"])];
               JObj [("group", JStr "API Reference"); ("pages", JArr [])]])].

Definition site_with_reference_merged : json :=
  JObj [("name", JStr cafe);
        ("navigation",
         JArr [JObj [("group", JStr "Get Started"); ("pages", JArr [JStr "intro"])];
               JObj [("group", JStr "API Reference");
                     ("pages", JArr [JStr "reference/camel"])]])].

Definition tabs_with_reference : json :=
  JObj [("name", JStr cafe);
        ("navigation",
         JObj [("tabs", JArr [JObj [("tab", JStr "API Reference"); ("groups", JArr [])]])])].

Definition tabs_with_reference_merged : json :=
  JObj [("name", JStr cafe);
        ("navigation",
         JObj [("tabs", JArr [JObj [("tab", JStr "API Reference");
                                    ("groups", JArr [JStr "reference/camel"])]])])].

(** ** Statements about the pruner *)

Import fix_mintlify_errors.

(** The page references under the key [k] of an object. *)
Definition refs_of (k : string) (d : list (string * json)) : list string :=
  match Dict.get k d with Some v => page_refs v | None => [] end.

(** An entry of a navigation. *)
Definition is_entry (item : json) : bool :=
  match item with
  | JStr _ => true
  | JObj d =>
      Dict.on is_navigation true "pages" d && Dict.on is_navigation true "groups" d
  | _ => false
  end.

(** Pruning [v] a second time changes nothing: as a value, and as an entry
    of a list. *)
Definition prune_fixed (errs : list string) (v : json) : Prop :=
  (forall v' e, remove_from_groups errs v = Ok (v', e) ->
                remove_from_groups errs v' = Ok (v', no_effects))
  /\ (forall kept e, prune.entry errs v = Ok (kept, e) ->
                     prune.entries errs kept = Ok (kept, no_effects)).

(** Pruning [v] keeps the page references that are not broken and returns
    the broken ones: as a value, and as an entry of a list. *)
Definition prune_filters (errs : list string) (v : json) : Prop :=
  (forall v' e, remove_from_groups errs v = Ok (v', e) ->
     page_refs v' = List.filter (fun p => negb (broken errs p)) (page_refs v)
     /\ removed_pages e = List.filter (broken errs) (page_refs v))
  /\ (forall kept e, prune.entry errs v = Ok (kept, e) ->
        page_refs (JArr kept)
        = List.filter (fun p => negb (broken errs p)) (page_refs (JArr [v]))
        /\ removed_pages e = List.filter (broken errs) (page_refs (JArr [v]))).

(** The pruner returns on [v]: as a navigation, and as an entry of one. *)
Definition prune_returns (errs : list string) (v : json) : Prop :=
  (is_navigation v = true ->
   exists l' e, remove_from_groups errs v = Ok (JArr l', e))
  /\ (is_entry v = true -> exists kept e, prune.entry errs v = Ok (kept, e)).

(** ** Observations of a rendered navigation *)

(** The values under ["group"] of the objects of a navigation list, in
    the order of the list. *)
Definition group_names (navigation : list json) : list json :=
  List.flat_map
    (fun entry =>
       match entry with
       | JObj d => match Dict.get "group" d with Some n => [n] | None => [] end
       | _ => []
       end) navigation.

(** The pages of a group, or nothing for a bare page. *)
Definition group_size (entry : json) : option nat :=
  match entry with
  | JObj d => match Dict.get "pages" d with
              | Some (JArr l) => Some (List.length l)
              | _ => None
              end
  | _ => None
  end.

(** Every character of [s] is below 128. *)
Fixpoint ascii_text (s : string) : bool :=
  match s with
  | EmptyString => true
  | String c r => (nat_of_ascii c <? 128)%nat && ascii_text r
  end.

(** ** Navigations without an empty group *)

(** The value under [k] is a list that is not empty. *)
Definition has_entries (k : string) (d : list (string * json)) : bool :=
  match Dict.get k d with
  | Some (JArr (_ :: _)) => true
  | _ => false
  end.

(** No object of the navigation, at any depth, has both its ["pages"] and
    its ["groups"] empty or missing. *)
Fixpoint no_empty_group (v : json) : bool :=
  match v with
  | JArr items =>
      List.forallb
        (fun item =>
           match item with
           | JObj d =>
               (has_entries "pages" d || has_entries "groups" d)
               && Dict.on no_empty_group true "pages" d
               && Dict.on no_empty_group true "groups" d
           | _ => true
           end) items
  | _ => true
  end.

Definition filled_entry (item : json) : bool :=
  match item with
  | JObj d =>
      (has_entries "pages" d || has_entries "groups" d)
      && Dict.on no_empty_group true "pages" d
      && Dict.on no_empty_group true "groups" d
  | _ => true
  end.

(** The pruner leaves a navigation without empty group: as a value, and
    as an entry of a list. *)
Definition prune_fills (errs : list string) (v : json) : Prop :=
  (is_navigation v = true ->
   forall v' e, remove_from_groups errs v = Ok (v', e) ->
                no_empty_group v' = true /\ is_navigation v' = true)
  /\ (is_entry v = true ->
      forall kept e, prune.entry errs v = Ok (kept, e) ->
                     List.forallb filled_entry kept = true
                     /\ List.forallb is_entry kept = true).

(** The pages named by the lines [Removed page] of the output. *)
Definition printed_pages (lines : list line) : list string :=
  List.flat_map
    (fun l => match l with Removed_page p => [p] | Removed_empty_group _ => [] end)
    lines.

(** The lines [Removed page] name the removed pages: as a value, and as an
    entry of a list. *)
Definition prune_prints (errs : list string) (v : json) : Prop :=
  (forall v' e, remove_from_groups errs v = Ok (v', e) ->
                printed_pages (printed e) = removed_pages e)
  /\ (forall kept e, prune.entry errs v = Ok (kept, e) ->
                     printed_pages (printed e) = removed_pages e).

(** A navigation without empty group and without broken page is left as
    it is: as a value, and as an entry of a list. *)
Definition prune_keeps (errs : list string) (v : json) : Prop :=
  (is_navigation v = true -> no_empty_group v = true ->
   List.forallb (fun p => negb (broken errs p)) (page_refs v) = true ->
   remove_from_groups errs v = Ok (v, no_effects))
  /\ (is_entry v = true -> filled_entry v = true ->
      List.forallb (fun p => negb (broken errs p)) (page_refs (JArr [v])) = true ->
      prune.entry errs v = Ok ([v], no_effects)).

(** ** More of Python's strings *)

Module PyText.

(** [c.isspace()] for a code point below 256: tab to carriage return, the
    separators 28 to 31, the space, and the code points 133 and 160. *)
Definition is_space (c : ascii) : bool :=
  let n := nat_of_ascii c in
  ((9 <=? n)%nat && (n <=? 13)%nat) || ((28 <=? n)%nat && (n <=? 32)%nat)
  || (n =? 133)%nat || (n =? 160)%nat.

(** [s.lstrip()] *)
Fixpoint lstrip (s : string) : string :=
  match s with
  | EmptyString => EmptyString
  | String c r => if is_space c then lstrip r else s
  end.

(** [s.rstrip()] *)
Fixpoint rstrip (s : string) : string :=
  match s with
  | EmptyString => EmptyString
  | String c r =>
      match rstrip r with
      | EmptyString => if is_space c then EmptyString else String c EmptyString
      | r' => String c r'
      end
  end.

(** [s.strip()] *)
Definition strip (s : string) : string := lstrip (rstrip s).

(** [s.lstrip(ch)] for one character [ch]. *)
Fixpoint lstrip_char (ch : ascii) (s : string) : string :=
  match s with
  | EmptyString => EmptyString
  | String c r => if Ascii.eqb c ch then lstrip_char ch r else s
  end.

(** [ch * n] *)
Fixpoint repeat_char (ch : ascii) (n : nat) : string :=
  match n with
  | O => EmptyString
  | S k => String ch (repeat_char ch k)
  end.

(** [c.lower()] for a code point below 256: the letters [A-Z], and the
    letters 192 to 222 without the sign 215. *)
Definition lower_char (c : ascii) : ascii :=
  let n := nat_of_ascii c in
  if ((65 <=? n)%nat && (n <=? 90)%nat)
     || ((192 <=? n)%nat && (n <=? 222)%nat && negb (n =? 215)%nat)
  then ascii_of_nat (n + 32) else c.

Fixpoint lower (s : string) : string :=
  match s with
  | EmptyString => EmptyString
  | String c r => String (lower_char c) (lower r)
  end.

(** The line feed, and [s.split('\n')], ['\n'.join(l)]. *)
Definition nl : string := String (ascii_of_nat 10) EmptyString.
Definition lines (s : string) : list string := Py.split (ascii_of_nat 10) s.
Definition unlines (l : list string) : string := Json.join nl l.

End PyText.

(** ** The text functions of [build_api_docs.py] *)

Module build_api_docs_text.

(** The words that make [clean_markdown_content] skip a line. *)
Definition skip_words : list string :=
  [ "navigation"; "breadcrumb"; "sidebar"; "footer";
    "edit on github"; "view source"; "download" ].

(** [any(skip in line.lower() for skip in [...])] *)
Definition skipped (line : string) : bool :=
  List.existsb (fun skip => is_substring skip (PyText.lower line)) skip_words.

(** The loop [for line in lines] of [clean_markdown_content], from the
    value [start_found] has when a line is met. *)
Fixpoint clean_lines (start_found : bool) (lines : list string) : list string :=
  match lines with
  | [] => []
  | raw :: rest =>
      let line := PyText.strip raw in
      if negb start_found && String.eqb line EmptyString then
        clean_lines start_found rest
      else if skipped line then clean_lines start_found rest
      else
        let start_found' :=
          if negb (String.eqb line EmptyString) && negb start_found
          then true else start_found in
        if start_found' then line :: clean_lines start_found' rest
        else clean_lines start_found' rest
  end.

(** [while cleaned_lines and not cleaned_lines[-1]: cleaned_lines.pop()] *)
Fixpoint pop_empty (cleaned_lines : list string) : list string :=
  match cleaned_lines with
  | [] => []
  | line :: rest =>
      match pop_empty rest with
      | [] => if String.eqb line EmptyString then [] else [line]
      | rest' => line :: rest'
      end
  end.

(** [clean_markdown_content]; [None] stands for Python's [None], as an
    argument and as a result. *)
Definition clean_markdown_content (markdown_content : option string) : option string :=
  match markdown_content with
  | None => None
  | Some EmptyString => None
  | Some content =>
      Some (PyText.unlines (pop_empty (clean_lines false (PyText.lines content))))
  end.

(** [f"---\ntitle: {module_name}\n---\n\n"] *)
Definition front_matter (module_name : string) : string :=
  "---" +:+ PyText.nl +:+ "title: " +:+ module_name +:+ PyText.nl +:+
  "---" +:+ PyText.nl +:+ PyText.nl.

(** What the loop of [markdown_to_mdx] appends for one line. *)
Definition mdx_line (line : string) : list string :=
  if Py.startswith "#" line then
    let level := String.length line - String.length (PyText.lstrip_char "#" line) in
    let title := PyText.strip (PyText.lstrip_char "#" line) in
    if String.eqb title EmptyString then []
    else [PyText.repeat_char "#" level +:+ " " +:+ title]
  else [line].

Definition markdown_to_mdx (markdown_content : option string) (module_name : string)
    : option string :=
  match markdown_content with
  | None => None
  | Some EmptyString => None
  | Some content =>
      Some (front_matter module_name +:+
            PyText.unlines (List.flat_map mdx_line (PyText.lines content)))
  end.

(** The lines that [is_content_substantial] counts. *)
Definition substantial (line : string) : bool :=
  negb (Py.startswith "#" line)
  && negb (Py.startswith "<a id=" line)
  && negb (String.eqb line "```" || String.eqb line "```python").

Definition is_content_substantial (content : string) : bool :=
  if String.eqb (PyText.strip content) EmptyString then false
  else
    let lines :=
      List.map PyText.strip
        (List.filter (fun line => negb (String.eqb (PyText.strip line) EmptyString))
           (PyText.lines content)) in
    (3 <=? List.length (List.filter substantial lines))%nat.

End build_api_docs_text.

(** ** Statements about lines *)

(** [s] has no line feed. *)
Definition one_line (s : string) : Prop := Py.rfind (ascii_of_nat 10) s = None.

(** A line that [markdown_to_mdx] leaves as it finds it: it is no
    heading, or it is a heading made of hashes, one space and a title
    that is not empty and has no space around it. *)
Definition settled_line (line : string) : Prop :=
  Py.startswith "#" line = true ->
  exists level title,
    line = PyText.repeat_char "#" (S level) +:+ " " +:+ title
    /\ title <> EmptyString /\ PyText.strip title = title.

(** A line as [clean_markdown_content] keeps it: without a space around
    it and without a word that makes the function skip a line. *)
Definition tidy_line (line : string) : Prop :=
  PyText.strip line = line /\ build_api_docs_text.skipped line = false.

(** A text of white space only: [not s.strip()]. *)
Fixpoint all_space (s : string) : bool :=
  match s with
  | EmptyString => true
  | String c r => PyText.is_space c && all_space r
  end.

(** The number of lines that [is_content_substantial] counts in a text. *)
Definition substantial_lines (content : string) : list string :=
  List.filter build_api_docs_text.substantial
    (List.map PyText.strip
       (List.filter (fun line => negb (String.eqb (PyText.strip line) EmptyString))
          (PyText.lines content))).

(** * Properties *)

(** ** The order of strings *)

Lemma compare_same (a b : string) : String_as_OT.compare a b = String.compare a b.
Proof. reflexivity. Qed.

Lemma leb_refl (a : string) : String.leb a a = true.
Proof.
  destruct (String.leb_total a a); assumption.
Qed.

Lemma leb_trans (a b c : string) :
  String.leb a b = true -> String.leb b c = true -> String.leb a c = true.
Proof.
  unfold String.leb.
  change String.compare with String_as_OT.compare.
  intros Hab Hbc.
  destruct (String_as_OT.compare_spec a b) as [E|L|G]; try discriminate.
  - unfold String_as_OT.eq in E. subst. exact Hbc.
  - destruct (String_as_OT.compare_spec b c) as [E'|L'|G']; try discriminate.
    + unfold String_as_OT.eq in E'. subst.
      unfold String_as_OT.lt in L. now rewrite L.
    + assert (Hac : String_as_OT.lt a c).
      { eapply (@RelationClasses.StrictOrder_Transitive _ _ String_as_OT.lt_strorder); eauto. }
      unfold String_as_OT.lt in Hac. now rewrite Hac.
Qed.

Lemma leb_false_flip (a b : string) :
  String.leb a b = false -> String.leb b a = true.
Proof.
  intros H. destruct (String.leb_total a b) as [E|E]; congruence.
Qed.

(** ** [sorted] returns the ordered rearrangement of its argument *)

Lemma insert_sorted_perm (x : string) (l : list string) :
  Permutation (x :: l) (Py.insert_sorted x l).
Proof.
  induction l as [|y r IH]; simpl.
  - reflexivity.
  - destruct (String.leb x y).
    + reflexivity.
    + rewrite perm_swap. now apply perm_skip.
Qed.

Lemma sorted_perm (l : list string) : Permutation l (Py.sorted l).
Proof.
  induction l as [|x l IH]; simpl.
  - reflexivity.
  - rewrite <- insert_sorted_perm. now apply perm_skip.
Qed.

Lemma insert_sorted_swap (x y : string) (l : list string) :
  Py.insert_sorted x (Py.insert_sorted y l) = Py.insert_sorted y (Py.insert_sorted x l).
Proof.
  induction l as [|z l IH]; simpl.
  - destruct (String.leb x y) eqn:Hxy, (String.leb y x) eqn:Hyx; try reflexivity.
    + now rewrite (String.leb_antisym _ _ Hxy Hyx).
    + apply leb_false_flip in Hxy. congruence.
  - destruct (String.leb y z) eqn:Hyz, (String.leb x z) eqn:Hxz; simpl;
      rewrite ?Hyz, ?Hxz.
    + destruct (String.leb x y) eqn:Hxy, (String.leb y x) eqn:Hyx; try reflexivity.
      * now rewrite (String.leb_antisym _ _ Hxy Hyx).
      * apply leb_false_flip in Hxy. congruence.
    + destruct (String.leb x y) eqn:Hxy; [|reflexivity].
      rewrite (leb_trans _ _ _ Hxy Hyz) in Hxz. discriminate.
    + destruct (String.leb y x) eqn:Hyx; [|reflexivity].
      rewrite (leb_trans _ _ _ Hyx Hxz) in Hyz. discriminate.
    + now rewrite IH.
Qed.

Lemma sorted_of_perm (l1 l2 : list string) :
  Permutation l1 l2 -> Py.sorted l1 = Py.sorted l2.
Proof.
  induction 1; simpl.
  - reflexivity.
  - now f_equal.
  - apply insert_sorted_swap.
  - congruence.
Qed.

Lemma insert_sorted_ordered (x : string) (l : list string) :
  StronglySorted str_le l -> StronglySorted str_le (Py.insert_sorted x l).
Proof.
  induction 1 as [|y r Hr IH Hall]; simpl.
  - repeat constructor.
  - destruct (String.leb x y) eqn:Hxy.
    + constructor; [now constructor|].
      constructor; [exact Hxy|].
      eapply List.Forall_impl; [|exact Hall].
      intros z Hz. eapply leb_trans; eauto.
    + constructor; [exact IH|].
      eapply Permutation_Forall; [apply insert_sorted_perm|].
      constructor; [now apply leb_false_flip|exact Hall].
Qed.

Lemma sorted_ordered (l : list string) : StronglySorted str_le (Py.sorted l).
Proof.
  induction l as [|x l IH]; simpl.
  - constructor.
  - now apply insert_sorted_ordered.
Qed.

(** ** Reading a tree after an update *)

Lemma node_at_new (q : list string) :
  node_at q new_module_dict = match q with [] => Some new_module_dict | _ => None end.
Proof. destruct q; reflexivity. Qed.

Lemma pages_at_new (q : list string) : pages_at q new_module_dict = [].
Proof. unfold pages_at. rewrite node_at_new. now destruct q. Qed.

Lemma pages_at_child (part : string) (rest : list string) (t : module_dict) :
  pages_at rest (default new_module_dict (submodules t !! part))
  = pages_at (part :: rest) t.
Proof.
  unfold pages_at at 2. simpl.
  destruct (submodules t !! part) as [c|]; simpl.
  - reflexivity.
  - apply pages_at_new.
Qed.

Lemma tree_update_pages_at (p : list string) (upd : list string -> list string)
    (q : list string) (t : module_dict) :
  pages_at q (tree_update p upd t)
  = if decide (q = p) then upd (pages_at q t) else pages_at q t.
Proof.
  revert q t. induction p as [|a p IH]; intros q t.
  - destruct q as [|b q]; simpl.
    + reflexivity.
    + destruct t; reflexivity.
  - destruct q as [|b q].
    + destruct t; reflexivity.
    + unfold pages_at at 1. simpl.
      destruct (decide (a = b)) as [->|Hab].
      * rewrite lookup_insert_eq.
        fold (pages_at q (tree_update p upd (default new_module_dict (submodules t !! b)))).
        rewrite IH, pages_at_child.
        destruct (decide (q = p)) as [->|Hq].
        -- now rewrite decide_True.
        -- rewrite decide_False by congruence. reflexivity.
      * rewrite lookup_insert_ne by exact Hab.
        rewrite decide_False by congruence. reflexivity.
Qed.

Lemma has_node_new (q : list string) :
  has_node q new_module_dict = match q with [] => true | _ => false end.
Proof. unfold has_node. rewrite node_at_new. now destruct q. Qed.

Lemma tree_update_has_node (p : list string) (upd : list string -> list string)
    (q : list string) (t : module_dict) :
  has_node q (tree_update p upd t) = has_node q t || is_prefix q p.
Proof.
  revert q t. induction p as [|a p IH]; intros q t.
  - destruct q as [|b q]; simpl.
    + reflexivity.
    + destruct t. unfold has_node. simpl. now rewrite orb_false_r.
  - destruct q as [|b q].
    + reflexivity.
    + unfold has_node at 1 2. simpl.
      destruct (String.eqb_spec b a) as [->|Hba]; simpl.
      * rewrite lookup_insert_eq.
        fold (has_node q (tree_update p upd (default new_module_dict (submodules t !! a)))).
        rewrite IH.
        destruct (submodules t !! a) as [c|]; simpl.
        -- reflexivity.
        -- rewrite has_node_new. now destruct q.
      * rewrite lookup_insert_ne by congruence.
        now rewrite orb_false_r.
Qed.

Lemma add_file_target (t : module_dict) (file : string) :
  add_file t file
  = match file_target file with
    | None => t
    | Some (path, front, page) => tree_update path (add_page front page) t
    end.
Proof.
  unfold add_file, file_target.
  destruct (negb _); [reflexivity|].
  destruct (_ =? 1)%nat; [reflexivity|].
  destruct (String.eqb _ _); reflexivity.
Qed.

Lemma add_file_pages_at (t : module_dict) (file : string) (q : list string) :
  pages_at q (add_file t file)
  = match file_target file with
    | None => pages_at q t
    | Some (path, front, page) =>
        if decide (q = path) then add_page front page (pages_at q t)
        else pages_at q t
    end.
Proof.
  rewrite add_file_target.
  destruct (file_target file) as [[[path front] page]|]; [|reflexivity].
  apply tree_update_pages_at.
Qed.

Lemma add_file_has_node (t : module_dict) (file : string) (q : list string) :
  has_node q (add_file t file)
  = match file_target file with
    | None => has_node q t
    | Some (path, _, _) => has_node q t || is_prefix q path
    end.
Proof.
  rewrite add_file_target.
  destruct (file_target file) as [[[path front] page]|]; [|reflexivity].
  apply tree_update_has_node.
Qed.

(** ** Trees the renderer cannot tell apart *)

Lemma tree_equiv_refl (t : module_dict) : tree_equiv t t.
Proof. intros q. split; reflexivity. Qed.

Lemma tree_equiv_trans (t1 t2 t3 : module_dict) :
  tree_equiv t1 t2 -> tree_equiv t2 t3 -> tree_equiv t1 t3.
Proof.
  intros H12 H23 q. destruct (H12 q) as [P1 N1], (H23 q) as [P2 N2].
  split; [now rewrite P1|congruence].
Qed.

Lemma add_page_perm (front : bool) (page : string) (l1 l2 : list string) :
  Permutation l1 l2 -> Permutation (add_page front page l1) (add_page front page l2).
Proof.
  intros H. destruct front; simpl.
  - now apply perm_skip.
  - now apply Permutation_app_tail.
Qed.

Lemma add_page_cons (front : bool) (page : string) (l : list string) :
  Permutation (add_page front page l) (page :: l).
Proof.
  destruct front; simpl.
  - reflexivity.
  - symmetry. apply Permutation_cons_append.
Qed.

Lemma add_file_equiv (t1 t2 : module_dict) (file : string) :
  tree_equiv t1 t2 -> tree_equiv (add_file t1 file) (add_file t2 file).
Proof.
  intros H q. destruct (H q) as [P N].
  rewrite !add_file_pages_at, !add_file_has_node.
  destruct (file_target file) as [[[path front] page]|].
  - split; [|congruence].
    destruct (decide (q = path)); [now apply add_page_perm|exact P].
  - now split.
Qed.

Lemma add_file_swap (t : module_dict) (f g : string) :
  tree_equiv (add_file (add_file t f) g) (add_file (add_file t g) f).
Proof.
  intros q.
  rewrite !add_file_pages_at, !add_file_has_node.
  destruct (file_target f) as [[[pf ff] rf]|], (file_target g) as [[[pg fg] rg]|];
    try (split; reflexivity).
  split.
  - destruct (decide (q = pg)), (decide (q = pf)); try reflexivity.
    etransitivity; [apply add_page_cons|].
    etransitivity; [apply perm_skip, add_page_cons|].
    symmetry.
    etransitivity; [apply add_page_cons|].
    etransitivity; [apply perm_skip, add_page_cons|].
    apply perm_swap.
  - destruct (has_node q t), (is_prefix q pf), (is_prefix q pg); reflexivity.
Qed.

Lemma fold_add_file_equiv (files : list string) (t1 t2 : module_dict) :
  tree_equiv t1 t2 ->
  tree_equiv (fold_left add_file files t1) (fold_left add_file files t2).
Proof.
  revert t1 t2. induction files as [|f files IH]; intros t1 t2 H; simpl.
  - exact H.
  - apply IH. now apply add_file_equiv.
Qed.

Lemma fold_add_file_perm (l1 l2 : list string) :
  Permutation l1 l2 ->
  forall t1 t2, tree_equiv t1 t2 ->
  tree_equiv (fold_left add_file l1 t1) (fold_left add_file l2 t2).
Proof.
  induction 1 as [|x l1 l2 HP IH|x y l|l1 l2 l3 HP1 IH1 HP2 IH2]; intros t1 t2 H; simpl.
  - exact H.
  - apply IH. now apply add_file_equiv.
  - apply fold_add_file_equiv.
    eapply tree_equiv_trans; [apply add_file_swap|].
    apply add_file_equiv. now apply add_file_equiv.
  - eapply tree_equiv_trans; [apply IH1; exact H|].
    apply IH2. apply tree_equiv_refl.
Qed.

(** ** The renderer reads a tree up to the order of its pages *)

Lemma map_is_fmap {A B} (f : A -> B) (l : list A) : List.map f l = f <$> l.
Proof.
  induction l as [|a l IH]; [reflexivity|].
  rewrite fmap_cons. simpl. now f_equal.
Qed.

Lemma has_camel_page_perm (l1 l2 : list string) :
  Permutation l1 l2 -> has_camel_page l1 = has_camel_page l2.
Proof.
  unfold has_camel_page.
  induction 1; simpl.
  - reflexivity.
  - now f_equal.
  - rewrite !orb_assoc. f_equal. apply orb_comm.
  - congruence.
Qed.

Lemma insert_item_perm {A} (x : string * A) (l : list (string * A)) :
  Permutation (x :: l) (Py.insert_item x l).
Proof.
  induction l as [|y r IH]; simpl.
  - reflexivity.
  - destruct (String.leb (fst x) (fst y)).
    + reflexivity.
    + rewrite perm_swap. now apply perm_skip.
Qed.

Lemma sorted_items_perm {A} (l : list (string * A)) :
  Permutation l (Py.sorted_items l).
Proof.
  induction l as [|x l IH]; simpl.
  - reflexivity.
  - rewrite <- insert_item_perm. now apply perm_skip.
Qed.

Lemma insert_item_keys {A} (x : string * A) (l : list (string * A)) :
  List.map fst (Py.insert_item x l) = Py.insert_sorted (fst x) (List.map fst l).
Proof.
  induction l as [|y r IH]; simpl.
  - reflexivity.
  - destruct (String.leb (fst x) (fst y)); simpl; congruence.
Qed.

Lemma sorted_items_keys {A} (l : list (string * A)) :
  List.map fst (Py.sorted_items l) = Py.sorted (List.map fst l).
Proof.
  induction l as [|x l IH]; simpl.
  - reflexivity.
  - now rewrite insert_item_keys, IH.
Qed.

(** The sorted keys of a dictionary. *)
Lemma in_keys (m : gmap string module_dict) (k : string) :
  In k (List.map fst (map_to_list m)) <-> is_Some (m !! k).
Proof.
  rewrite map_is_fmap, <- list_elem_of_In, list_elem_of_fmap. split.
  - intros [[k' n] [-> Hin]]. apply elem_of_map_to_list in Hin. now exists n.
  - intros [n Hn]. exists (k, n). split; [reflexivity|].
    now apply elem_of_map_to_list.
Qed.

Lemma keys_nodup (m : gmap string module_dict) :
  List.NoDup (List.map fst (map_to_list m)).
Proof. rewrite map_is_fmap. apply NoDup_ListNoDup, NoDup_fst_map_to_list. Qed.

Lemma pages_at_one (k : string) (s : module_dict) :
  pages_at [k] s = match submodules s !! k with Some n => pages n | None => [] end.
Proof. unfold pages_at. simpl. now destruct (submodules s !! k). Qed.

Lemma has_node_one (k : string) (s : module_dict) :
  has_node [k] s = match submodules s !! k with Some n => true | None => false end.
Proof. unfold has_node. simpl. now destruct (submodules s !! k). Qed.

Lemma sorted_nil_or (l : list string) :
  match l with [] => [] | _ :: _ => Py.sorted l end = Py.sorted l.
Proof. now destruct l. Qed.

Lemma flat_map_items_by_key (s : module_dict) (l : list (string * module_dict)) :
  (forall item, In item l -> submodules s !! (fst item) = Some (snd item)) ->
  List.flat_map
    (fun item : string * module_dict =>
       match pages (snd item) with
       | [] => []
       | _ :: _ => Py.sorted (pages (snd item))
       end) l
  = List.flat_map (fun k => Py.sorted (pages_at [k] s)) (List.map fst l).
Proof.
  induction l as [|item l IH]; intros H; simpl.
  - reflexivity.
  - rewrite IH by (intros; apply H; now right).
    rewrite sorted_nil_or, pages_at_one, (H item) by now left.
    reflexivity.
Qed.

(** The pages of a group, read key by key. *)
Lemma group_pages_by_key (s : module_dict) :
  group_pages s
  = Py.sorted (pages s) ++
    List.flat_map (fun k => Py.sorted (pages_at [k] s))
      (Py.sorted (List.map fst (map_to_list (submodules s)))).
Proof.
  unfold group_pages. f_equal.
  rewrite (flat_map_items_by_key s), sorted_items_keys; [reflexivity|].
  intros [k n] Hin. simpl.
  apply elem_of_map_to_list, list_elem_of_In.
  eapply Permutation_in; [symmetry; apply sorted_items_perm|exact Hin].
Qed.

Lemma tree_equiv_child (t1 t2 s1 s2 : module_dict) (c : string) :
  tree_equiv t1 t2 ->
  submodules t1 !! c = Some s1 -> submodules t2 !! c = Some s2 ->
  tree_equiv s1 s2.
Proof.
  intros H H1 H2 q. specialize (H (c :: q)).
  unfold pages_at, has_node in H. simpl in H. rewrite H1, H2 in H. exact H.
Qed.

Lemma tree_equiv_keys (s1 s2 : module_dict) :
  tree_equiv s1 s2 ->
  Permutation (List.map fst (map_to_list (submodules s1)))
              (List.map fst (map_to_list (submodules s2))).
Proof.
  intros H. apply Permutation.NoDup_Permutation; try apply keys_nodup.
  intros k. rewrite !in_keys.
  destruct (H [k]) as [_ N]. rewrite !has_node_one in N.
  destruct (submodules s1 !! k), (submodules s2 !! k); try discriminate;
    split; intros [? ?]; try discriminate; eauto.
Qed.

Lemma flat_map_ext_in {A B} (f g : A -> list B) (l : list A) :
  (forall x, In x l -> f x = g x) -> List.flat_map f l = List.flat_map g l.
Proof.
  induction l as [|x l IH]; intros H; simpl.
  - reflexivity.
  - rewrite (H x) by now left. f_equal. apply IH. intros; apply H; now right.
Qed.

Lemma group_pages_equiv (s1 s2 : module_dict) :
  tree_equiv s1 s2 -> group_pages s1 = group_pages s2.
Proof.
  intros H. rewrite !group_pages_by_key.
  rewrite (sorted_of_perm _ _ (tree_equiv_keys _ _ H)).
  f_equal.
  - apply sorted_of_perm. destruct (H []) as [P _]. exact P.
  - apply flat_map_ext_in. intros k _. apply sorted_of_perm.
    now destruct (H [k]).
Qed.

Lemma render_group_equiv (t1 t2 : module_dict) (c : string) :
  tree_equiv t1 t2 ->
  build_api_docs.render_module t1 c = build_api_docs.render_module t2 c.
Proof.
  intros H. unfold build_api_docs.render_module.
  destruct (H [c]) as [_ N]. rewrite !has_node_one in N.
  destruct (submodules t1 !! c) as [s1|] eqn:E1,
           (submodules t2 !! c) as [s2|] eqn:E2; try discriminate; [|reflexivity].
  now rewrite (group_pages_equiv s1 s2 (tree_equiv_child _ _ _ _ _ H E1 E2)).
Qed.

(** The two scripts render the same navigation. *)
Lemma organize_modules_render_module (t : module_dict) (c : string) :
  organize_modules.render_module t c
  = if String.eqb c "camel" then [] else build_api_docs.render_module t c.
Proof. reflexivity. Qed.

Lemma convert_same (t : module_dict) :
  organize_modules.convert_tree_to_navigation t
  = build_api_docs.convert_tree_to_navigation t.
Proof. reflexivity. Qed.

Lemma convert_equiv (t1 t2 : module_dict) :
  tree_equiv t1 t2 ->
  build_api_docs.convert_tree_to_navigation t1
  = build_api_docs.convert_tree_to_navigation t2.
Proof.
  intros H. unfold build_api_docs.convert_tree_to_navigation.
  destruct (H []) as [P _].
  change (pages_at [] t1) with (pages t1) in P.
  change (pages_at [] t2) with (pages t2) in P.
  rewrite (has_camel_page_perm _ _ P). f_equal.
  apply flat_map_ext_in. intros c _. now apply render_group_equiv.
Qed.

(** ** Determinism of the rendering *)

Lemma build_equiv (files1 files2 : list string) :
  Permutation files1 files2 ->
  tree_equiv (build_module_tree files1) (build_module_tree files2).
Proof.
  intros H. unfold build_module_tree.
  apply fold_add_file_perm; [exact H|apply tree_equiv_refl].
Qed.

(** C5. The navigation rendered from a collection of files does not depend
    on the order in which the files are met: for two enumerations of the
    same files, both scripts build trees that render to the same
    navigation. *)
Theorem rendering_is_deterministic (files1 files2 : list string) :
  Permutation files1 files2 ->
  organize_modules.convert_tree_to_navigation (build_module_tree files1)
  = organize_modules.convert_tree_to_navigation (build_module_tree files2)
  /\ build_api_docs.convert_tree_to_navigation (build_module_tree files1)
     = build_api_docs.convert_tree_to_navigation (build_module_tree files2).
Proof.
  intros H. rewrite !convert_same.
  split; apply convert_equiv, build_equiv, H.
Qed.

Lemma rendering_is_deterministic_witness :
  Permutation
    ["camel.agents.chat_agent.mdx"; "camel.agents.agents.mdx"; "camel.models.mdx"]
    ["camel.models.mdx"; "camel.agents.chat_agent.mdx"; "camel.agents.agents.mdx"]
  /\ organize_modules.convert_tree_to_navigation
       (build_module_tree
          ["camel.agents.chat_agent.mdx"; "camel.agents.agents.mdx"; "camel.models.mdx"])
     = organize_modules.convert_tree_to_navigation
         (build_module_tree
            ["camel.models.mdx"; "camel.agents.chat_agent.mdx"; "camel.agents.agents.mdx"]).
Proof.
  assert (P : Permutation
    ["camel.agents.chat_agent.mdx"; "camel.agents.agents.mdx"; "camel.models.mdx"]
    ["camel.models.mdx"; "camel.agents.chat_agent.mdx"; "camel.agents.agents.mdx"]).
  { symmetry.
    apply (Permutation_cons_append
             ["camel.agents.chat_agent.mdx"; "camel.agents.agents.mdx"]
             "camel.models.mdx"). }
  split; [exact P|].
  exact (proj1 (rendering_is_deterministic _ _ P)).
Defined.

(** ** Where the builder stores a page *)

Lemma add_file_keeps (t : module_dict) (file : string) (q : list string) (pg : string) :
  In pg (pages_at q t) -> In pg (pages_at q (add_file t file)).
Proof.
  intros H. rewrite add_file_pages_at.
  destruct (file_target file) as [[[path front] page]|]; [|exact H].
  destruct (decide (q = path)); [|exact H].
  eapply Permutation_in; [symmetry; apply add_page_cons|]. now right.
Qed.

Lemma add_file_adds (t : module_dict) (file : string) (path : list string)
    (front : bool) (pg : string) :
  file_target file = Some (path, front, pg) ->
  In pg (pages_at path (add_file t file)).
Proof.
  intros H. rewrite add_file_pages_at, H, decide_True by reflexivity.
  eapply Permutation_in; [symmetry; apply add_page_cons|]. now left.
Qed.

Lemma fold_add_file_keeps (files : list string) (t : module_dict)
    (q : list string) (pg : string) :
  In pg (pages_at q t) -> In pg (pages_at q (fold_left add_file files t)).
Proof.
  revert t. induction files as [|f files IH]; intros t H; simpl.
  - exact H.
  - apply IH. now apply add_file_keeps.
Qed.

Lemma fold_add_file_stores (files : list string) (t : module_dict) (file : string)
    (path : list string) (front : bool) (pg : string) :
  In file files -> file_target file = Some (path, front, pg) ->
  In pg (pages_at path (fold_left add_file files t)).
Proof.
  revert t. induction files as [|f files IH]; intros t Hin Ht; simpl.
  - destruct Hin.
  - destruct Hin as [->|Hin].
    + apply fold_add_file_keeps. eapply add_file_adds; eauto.
    + now apply IH.
Qed.

Lemma fold_add_file_origin (files : list string) (t : module_dict)
    (q : list string) (pg : string) :
  In pg (pages_at q (fold_left add_file files t)) ->
  In pg (pages_at q t)
  \/ exists file front, In file files /\ file_target file = Some (q, front, pg).
Proof.
  revert t. induction files as [|f files IH]; intros t H; simpl in H.
  - now left.
  - destruct (IH _ H) as [H1|(file & front & Hin & Ht)].
    + rewrite add_file_pages_at in H1.
      destruct (file_target f) as [[[path front] page]|] eqn:Ef; [|now left].
      destruct (decide (q = path)) as [->|]; [|now left].
      apply (Permutation_in _ (add_page_cons _ _ _)) in H1.
      destruct H1 as [<-|H1]; [|now left].
      right. exists f, front. split; [now left|exact Ef].
    + right. exists file, front. split; [now right|exact Ht].
Qed.

Lemma build_origin (files : list string) (q : list string) (pg : string) :
  In pg (pages_at q (build_module_tree files)) ->
  exists file front, In file files /\ file_target file = Some (q, front, pg).
Proof.
  intros H. apply fold_add_file_origin in H.
  rewrite pages_at_new in H. destruct H as [[]|H]. exact H.
Qed.

Lemma length_but_last (l : list string) :
  List.length (Py.but_last l) = List.length l - 1.
Proof.
  unfold Py.but_last. induction l as [|x l IH]; [reflexivity|].
  destruct l as [|y l]; [reflexivity|].
  change (List.removelast (x :: y :: l)) with (x :: List.removelast (y :: l)).
  simpl List.length in *. lia.
Qed.

Lemma length_tl (l : list string) : List.length (List.tl l) = List.length l - 1.
Proof. destruct l; simpl; lia. Qed.

(** The target of a file that is kept: its page is its module path after
    ["reference/"], at the depth given by the number of its segments. *)
Lemma file_target_some (file : string) (path : list string) (front : bool) (pg : string) :
  file_target file = Some (path, front, pg) ->
  Py.startswith "camel." (Py.name_stem file) = true
  /\ pg = "reference/" +:+ Py.name_stem file
  /\ List.length path = List.length (Py.split "." (Py.name_stem file)) - 2.
Proof.
  unfold file_target. intros H.
  destruct (Py.startswith "camel." (Py.name_stem file)); [|discriminate]. simpl in H.
  destruct (Nat.eqb_spec (List.length (Py.split "." (Py.name_stem file))) 1) as [E|E].
  - injection H as <- _ <-. rewrite E. now repeat split.
  - injection H as <- _ <-. repeat split.
    rewrite length_tl, length_but_last. lia.
Qed.

Lemma reference_inj (a b : string) : "reference/" +:+ a = "reference/" +:+ b -> a = b.
Proof. simpl. intros H. now injection H. Qed.

(** ** The pages that the renderer reads *)

Lemma page_refs_app (l1 l2 : list json) :
  page_refs (JArr (l1 ++ l2)) = page_refs (JArr l1) ++ page_refs (JArr l2).
Proof. simpl. apply List.flat_map_app. Qed.

Lemma page_refs_strings (pgs : list string) :
  page_refs (JArr (List.map JStr pgs)) = pgs.
Proof.
  induction pgs as [|p pgs IH]; [reflexivity|].
  simpl in *. now f_equal.
Qed.

Lemma page_refs_nav_group (name : string) (pgs : list string) :
  page_refs (JArr [nav_group name pgs]) = pgs.
Proof.
  unfold nav_group.
  change ((page_refs (JArr (List.map JStr pgs)) ++ []) ++ [] = pgs).
  rewrite page_refs_strings. now rewrite !app_nil_r.
Qed.

Lemma page_refs_flat_map {A} (f : A -> list json) (l : list A) :
  page_refs (JArr (List.flat_map f l))
  = List.flat_map (fun x => page_refs (JArr (f x))) l.
Proof.
  induction l as [|x l IH]; [reflexivity|].
  change (List.flat_map f (x :: l)) with (f x ++ List.flat_map f l).
  rewrite page_refs_app, IH. reflexivity.
Qed.

Lemma page_refs_render_module (t : module_dict) (c : string) :
  page_refs (JArr (build_api_docs.render_module t c))
  = match submodules t !! c with
    | Some s => group_pages s
    | None => []
    end.
Proof.
  unfold build_api_docs.render_module.
  destruct (submodules t !! c) as [s|]; [|reflexivity].
  destruct (group_pages s) as [|p pgs] eqn:E; [reflexivity|].
  apply page_refs_nav_group.
Qed.

Lemma in_group_pages (s : module_dict) (p : string) :
  In p (group_pages s) <-> In p (pages s) \/ exists k, In p (pages_at [k] s).
Proof.
  rewrite group_pages_by_key, in_app_iff, in_flat_map. split.
  - intros [H|(k & _ & H)].
    + left. eapply Permutation_in; [symmetry; apply sorted_perm|exact H].
    + right. exists k.
      eapply Permutation_in; [symmetry; apply sorted_perm|exact H].
  - intros [H|(k & H)].
    + left. eapply Permutation_in; [apply sorted_perm|exact H].
    + right. exists k. split.
      * eapply Permutation_in; [apply sorted_perm|]. apply in_keys.
        rewrite pages_at_one in H. destruct (submodules s !! k); [eauto|destruct H].
      * eapply Permutation_in; [apply sorted_perm|exact H].
Qed.

(** A rendered page is the root page or a page of a node at depth one or
    two. *)
Lemma rendered_page_origin (t : module_dict) (p : string) :
  In p (page_refs (JArr (build_api_docs.convert_tree_to_navigation t))) ->
  p = "reference/camel"
  \/ exists q, (List.length q = 1 \/ List.length q = 2) /\ In p (pages_at q t).
Proof.
  unfold build_api_docs.convert_tree_to_navigation.
  rewrite page_refs_app, in_app_iff. intros [H|H].
  - left. destruct (has_camel_page (pages t)); simpl in H; intuition.
  - right. rewrite page_refs_flat_map, in_flat_map in H.
    destruct H as (c & _ & H). rewrite page_refs_render_module in H.
    destruct (submodules t !! c) as [s|] eqn:E; [|destruct H].
    apply in_group_pages in H. destruct H as [H|(k & H)].
    + exists [c]. split; [now left|]. now rewrite pages_at_one, E.
    + exists [c; k]. split; [now right|].
      unfold pages_at in *. simpl in *. now rewrite E.
Qed.

(** C10. A file whose module path has five or more segments is stored by
    the builder at a node three or more levels below the root, and its
    page is absent from the rendered navigation of both scripts, which
    only read the nodes at depth one and two. *)
Theorem deep_pages_are_not_rendered (files : list string) (file : string) :
  5 <= List.length (Py.split "." (Py.name_stem file)) ->
  (In file files -> Py.startswith "camel." (Py.name_stem file) = true ->
   let path := List.tl (Py.but_last (Py.split "." (Py.name_stem file))) in
   3 <= List.length path
   /\ In ("reference/" +:+ Py.name_stem file)
         (pages_at path (build_module_tree files)))
  /\ ~ In ("reference/" +:+ Py.name_stem file)
         (page_refs (JArr (organize_modules.convert_tree_to_navigation
                             (build_module_tree files))))
  /\ ~ In ("reference/" +:+ Py.name_stem file)
         (page_refs (JArr (build_api_docs.convert_tree_to_navigation
                             (build_module_tree files)))).
Proof.
  intros Hlen.
  assert (Hno : ~ In ("reference/" +:+ Py.name_stem file)
         (page_refs (JArr (build_api_docs.convert_tree_to_navigation
                             (build_module_tree files))))).
  { intros H. apply rendered_page_origin in H.
    destruct H as [H|(q & Hq & H)].
    - apply (reference_inj _ "camel") in H. rewrite H in Hlen.
      simpl in Hlen. lia.
    - apply build_origin in H. destruct H as (f & front & _ & Ht).
      apply file_target_some in Ht. destruct Ht as (_ & Hp & Hl).
      apply reference_inj in Hp. rewrite <- Hp in Hl. lia. }
  split; [|split; [rewrite convert_same|]; exact Hno].
  intros Hin Hstart path. split.
  - unfold path. rewrite length_tl, length_but_last. lia.
  - unfold build_module_tree.
    apply (fold_add_file_stores files new_module_dict file path
             (String.eqb (Py.last_part (Py.split "." (Py.name_stem file)))
                (Py.last_part (Py.but_last (Py.split "." (Py.name_stem file)))))).
    + exact Hin.
    + unfold file_target. rewrite Hstart. simpl negb. cbv iota.
      destruct (Nat.eqb_spec (List.length (Py.split "." (Py.name_stem file))) 1);
        [lia|reflexivity].
Qed.

Lemma deep_pages_are_not_rendered_witness :
  5 <= List.length (Py.split "." (Py.name_stem "camel.a.b.c.d.mdx"))
  /\ In "camel.a.b.c.d.mdx" ["camel.a.x.mdx"; "camel.a.b.c.d.mdx"]
  /\ Py.startswith "camel." (Py.name_stem "camel.a.b.c.d.mdx") = true
  /\ In "reference/camel.a.b.c.d"
        (pages_at ["a"; "b"; "c"]
           (build_module_tree ["camel.a.x.mdx"; "camel.a.b.c.d.mdx"]))
  /\ ~ In "reference/camel.a.b.c.d"
         (page_refs (JArr (organize_modules.convert_tree_to_navigation
            (build_module_tree ["camel.a.x.mdx"; "camel.a.b.c.d.mdx"])))).
Proof.
  assert (H : 5 <= List.length (Py.split "." (Py.name_stem "camel.a.b.c.d.mdx")))
    by (vm_compute; lia).
  assert (Hin : In "camel.a.b.c.d.mdx" ["camel.a.x.mdx"; "camel.a.b.c.d.mdx"])
    by (simpl; auto).
  split; [exact H|]. split; [exact Hin|]. split; [reflexivity|].
  split.
  - exact (proj2 (proj1 (deep_pages_are_not_rendered
                           ["camel.a.x.mdx"; "camel.a.b.c.d.mdx"]
                           "camel.a.b.c.d.mdx" H) Hin eq_refl)).
  - exact (proj1 (proj2 (deep_pages_are_not_rendered
                           ["camel.a.x.mdx"; "camel.a.b.c.d.mdx"]
                           "camel.a.b.c.d.mdx" H))).
Defined.

(** ** The root package page *)

Lemma root_page_is_never_stored (files : list string) :
  ~ In "reference/camel" (pages (build_module_tree files)).
Proof.
  change (pages (build_module_tree files)) with (pages_at [] (build_module_tree files)).
  intros H. apply build_origin in H. destruct H as (f & front & _ & Ht).
  apply file_target_some in Ht. destruct Ht as (Hs & Hp & _).
  apply (reference_inj "camel") in Hp. rewrite <- Hp in Hs. discriminate.
Qed.

(** C1. The file of the root package, [camel.mdx], has the module path
    ["camel"], which fails the test [startswith("camel.")]: the builder
    skips it, so no file list puts ["reference/camel"] among the pages of
    the root, and for the files [camel.mdx] and
    [camel.agents.chat_agent.mdx] both scripts render a navigation that
    does not start with the page of the root package.  The renderer emits
    ["reference/camel"] when the root holds a page of two segments, whose
    stem is ["camel"], as for the single file [camel.agents.mdx]. *)
Theorem root_package_file_is_skipped :
  Py.name_stem "camel.mdx" = "camel"
  /\ add_file new_module_dict "camel.mdx" = new_module_dict
  /\ (forall files, ~ In "reference/camel" (pages (build_module_tree files)))
  /\ organize_modules.convert_tree_to_navigation
       (build_module_tree ["camel.mdx"; "camel.agents.chat_agent.mdx"])
     = [nav_group "Agents" ["reference/camel.agents.chat_agent"]]
  /\ build_api_docs.convert_tree_to_navigation
       (build_module_tree ["camel.mdx"; "camel.agents.chat_agent.mdx"])
     = [nav_group "Agents" ["reference/camel.agents.chat_agent"]]
  /\ pages (build_module_tree ["camel.agents.mdx"]) = ["reference/camel.agents"]
  /\ organize_modules.convert_tree_to_navigation (build_module_tree ["camel.agents.mdx"])
     = [JStr "reference/camel"].
Proof.
  split; [reflexivity|]. split; [reflexivity|].
  split; [exact root_page_is_never_stored|].
  repeat split; vm_compute; reflexivity.
Qed.

(** ** Directory pages *)

(** C3. For the files [camel.models.base_model.mdx] and
    [camel.models.models.mdx] the builder puts the directory page
    [camel.models.models] in front of its sibling, and the renderer, which
    sorts the pages of a node, emits it after the sibling in both
    scripts. *)
Theorem directory_page_is_sorted_with_its_siblings :
  pages_at ["models"]
    (build_module_tree ["camel.models.base_model.mdx"; "camel.models.models.mdx"])
  = ["reference/camel.models.models"; "reference/camel.models.base_model"]
  /\ organize_modules.convert_tree_to_navigation
       (build_module_tree ["camel.models.base_model.mdx"; "camel.models.models.mdx"])
     = [nav_group "Models"
          ["reference/camel.models.base_model"; "reference/camel.models.models"]]
  /\ build_api_docs.convert_tree_to_navigation
       (build_module_tree ["camel.models.base_model.mdx"; "camel.models.models.mdx"])
     = [nav_group "Models"
          ["reference/camel.models.base_model"; "reference/camel.models.models"]].
Proof. repeat split; vm_compute; reflexivity. Qed.

(** ** Flattening *)

Lemma sorted_is_ordered_copy (l : list string) : ordered_copy l (Py.sorted l).
Proof. split; [apply sorted_perm|apply sorted_ordered]. Qed.

Lemma ordered_copy_unique (l l1 l2 : list string) :
  ordered_copy l l1 -> ordered_copy l l2 -> l1 = l2.
Proof.
  intros [P1 S1] [P2 S2].
  assert (P : Permutation l1 l2) by (now rewrite <- P1).
  clear P1 P2 l. revert l2 S2 P.
  induction S1 as [|x l1 S1 IH A1]; intros l2 S2 P.
  - now apply Permutation_nil in P.
  - destruct S2 as [|y l2 S2 A2].
    + symmetry in P. now apply Permutation_nil in P.
    + assert (x = y).
      { assert (Hx : In x (y :: l2)) by (eapply Permutation_in; [exact P|now left]).
        assert (Hy : In y (x :: l1))
          by (eapply Permutation_in; [symmetry; exact P|now left]).
        destruct Hx as [->|Hx]; [reflexivity|].
        destruct Hy as [->|Hy]; [reflexivity|].
        rewrite List.Forall_forall in A1, A2.
        apply String.leb_antisym; [now apply A1|now apply A2]. }
      subst y. f_equal. apply IH; [exact S2|].
      now apply Permutation_cons_inv in P.
Qed.

Lemma nav_group_read (name : string) (pgs : list string) :
  group_of name pgs (nav_group name pgs).
Proof. eexists. repeat split; reflexivity. Qed.

Lemma render_module_flat (t : module_dict) (c : string) :
  List.Forall flat_entry (build_api_docs.render_module t c).
Proof.
  unfold build_api_docs.render_module.
  destruct (submodules t !! c) as [s|]; [|constructor].
  destruct (group_pages s) as [|p pgs]; constructor; [|constructor].
  right. exists (get_module_display_name c), (p :: pgs). apply nav_group_read.
Qed.

Lemma convert_flat (t : module_dict) :
  List.Forall flat_entry (build_api_docs.convert_tree_to_navigation t).
Proof.
  unfold build_api_docs.convert_tree_to_navigation.
  apply List.Forall_app. split.
  - destruct (has_camel_page (pages t)); constructor; [|constructor].
    left. now exists "reference/camel".
  - apply List.Forall_flat_map, List.Forall_forall. intros c _.
    apply render_module_flat.
Qed.

Lemma node_at_one (c : string) (t : module_dict) :
  has_node [c] t = true -> exists s, submodules t !! c = Some s.
Proof.
  rewrite has_node_one. destruct (submodules t !! c) as [s|]; [eauto|discriminate].
Qed.

(** C4. In the navigation of both scripts no group holds a group: every
    entry is a bare page or an object whose keys are ["group"] and
    ["pages"] and whose ["pages"] is a list of bare pages.  For a category
    [c] of the order table that has a node, the navigation has, when the
    list is not empty, an entry with the display name of [c] under
    ["group"] and, under ["pages"], the node's own pages in lexicographic
    order, followed, for each child node taken in lexicographic order of
    its name, by that child's pages in lexicographic order, all in one
    list; these are the page references of the entry. *)
Theorem groups_are_flattened (t : module_dict) (c : string) :
  In c build_api_docs.MODULE_ORDER ->
  has_node [c] t = true ->
  List.Forall flat_entry (organize_modules.convert_tree_to_navigation t)
  /\ List.Forall flat_entry (build_api_docs.convert_tree_to_navigation t)
  /\ exists (own : list string) (children : list string)
            (child_pages : string -> list string),
       ordered_copy (pages_at [c] t) own
       /\ (forall k, In k children <-> has_node [c; k] t = true)
       /\ List.NoDup children
       /\ StronglySorted str_le children
       /\ (forall k, ordered_copy (pages_at [c; k] t) (child_pages k))
       /\ (own ++ List.flat_map child_pages children <> [] ->
           exists g,
             In g (organize_modules.convert_tree_to_navigation t)
             /\ In g (build_api_docs.convert_tree_to_navigation t)
             /\ group_of (get_module_display_name c)
                  (own ++ List.flat_map child_pages children) g
             /\ page_refs (JArr [g]) = own ++ List.flat_map child_pages children).
Proof.
  intros Hc Hn. rewrite convert_same.
  split; [apply convert_flat|]. split; [apply convert_flat|].
  destruct (node_at_one _ _ Hn) as [s Hs].
  assert (Hp : forall q, pages_at (c :: q) t = pages_at q s).
  { intros q. unfold pages_at. simpl. now rewrite Hs. }
  assert (Hh : forall q, has_node (c :: q) t = has_node q s).
  { intros q. unfold has_node. simpl. now rewrite Hs. }
  exists (Py.sorted (pages s)),
         (Py.sorted (List.map fst (map_to_list (submodules s)))),
         (fun k => Py.sorted (pages_at [k] s)).
  split; [rewrite Hp; apply sorted_is_ordered_copy|].
  split.
  { intros k. rewrite Hh, has_node_one. split.
    - intros H. apply (Permutation_in _ (Permutation_sym (sorted_perm _))) in H.
      apply in_keys in H. destruct H as [n ->]. reflexivity.
    - intros H. apply (Permutation_in _ (sorted_perm _)). apply in_keys.
      destruct (submodules s !! k); [eauto|discriminate]. }
  split.
  { eapply Permutation_NoDup; [apply sorted_perm|apply keys_nodup]. }
  split; [apply sorted_ordered|].
  split; [intros k; rewrite Hp; apply sorted_is_ordered_copy|].
  rewrite <- group_pages_by_key. intros Hne.
  exists (nav_group (get_module_display_name c) (group_pages s)).
  assert (In (nav_group (get_module_display_name c) (group_pages s))
             (build_api_docs.convert_tree_to_navigation t)).
  { unfold build_api_docs.convert_tree_to_navigation.
    apply in_or_app. right. apply in_flat_map. exists c. split; [exact Hc|].
    unfold build_api_docs.render_module. rewrite Hs.
    destruct (group_pages s); [congruence|now left]. }
  split; [assumption|]. split; [assumption|].
  split; [apply nav_group_read|apply page_refs_nav_group].
Qed.

Lemma groups_are_flattened_witness :
  In "agents" build_api_docs.MODULE_ORDER
  /\ has_node ["agents"]
       (build_module_tree
          ["camel.agents.x.mdx"; "camel.agents.y.z.mdx"; "camel.agents.y.y.mdx"])
     = true
  /\ List.Forall flat_entry
       (organize_modules.convert_tree_to_navigation
          (build_module_tree
             ["camel.agents.x.mdx"; "camel.agents.y.z.mdx"; "camel.agents.y.y.mdx"])).
Proof.
  assert (H : In "agents" build_api_docs.MODULE_ORDER) by (simpl; auto).
  split; [exact H|]. split; [reflexivity|].
  exact (proj1 (groups_are_flattened
                  (build_module_tree
                     ["camel.agents.x.mdx"; "camel.agents.y.z.mdx"; "camel.agents.y.y.mdx"])
                  "agents" H eq_refl)).
Defined.

(** The example of the flattening: the child [y] of the category has no
    group of its own, its pages stand in the list of the category. *)
Example flattening_of_a_child :
  organize_modules.convert_tree_to_navigation
    (build_module_tree
       ["camel.agents.x.mdx"; "camel.agents.y.z.mdx"; "camel.agents.y.y.mdx"])
  = [JObj [("group", JStr "Agents");
           ("pages", JArr [JStr "reference/camel.agents.x";
                           JStr "reference/camel.agents.y.y";
                           JStr "reference/camel.agents.y.z"])]].
Proof. vm_compute. reflexivity. Qed.

(** ** Induction on JSON values *)

Lemma json_rect_nested (P : json -> Prop) :
  P JNull -> (forall b, P (JBool b)) -> (forall n, P (JNum n)) ->
  (forall s, P (JStr s)) ->
  (forall l, List.Forall P l -> P (JArr l)) ->
  (forall d, List.Forall (fun kv => P (snd kv)) d -> P (JObj d)) ->
  forall v, P v.
Proof.
  intros Hnull Hbool Hnum Hstr Harr Hobj.
  fix IH 1. intros [| b | n | s | l | d].
  - exact Hnull.
  - apply Hbool.
  - apply Hnum.
  - apply Hstr.
  - apply Harr. induction l as [|x l IHl]; constructor; [apply IH|exact IHl].
  - apply Hobj. induction d as [|[k x] d IHd]; constructor; [apply IH|exact IHd].
Qed.

(** ** Dictionaries *)

Lemma dict_apply_get {R} (f : json -> result R) (k : string) (d : list (string * json)) :
  Dict.apply f k d
  = match Dict.get k d with
    | Some v => let* x := f v in Ok (Some x)
    | None => Ok None
    end.
Proof.
  induction d as [|[k' v] d IH]; simpl; [reflexivity|].
  destruct (String.eqb k' k); [reflexivity|exact IH].
Qed.

Lemma dict_on_get {R} (f : json -> R) (z : R) (k : string) (d : list (string * json)) :
  Dict.on f z k d = match Dict.get k d with Some v => f v | None => z end.
Proof.
  induction d as [|[k' v] d IH]; simpl; [reflexivity|].
  destruct (String.eqb k' k); [reflexivity|exact IH].
Qed.

Lemma dict_get_set_same (k : string) (v : json) (d : list (string * json)) :
  Dict.get k (Dict.set k v d) = Some v.
Proof.
  induction d as [|[k' v'] d IH]; simpl.
  - now rewrite String.eqb_refl.
  - destruct (String.eqb k' k) eqn:E; simpl.
    + now rewrite String.eqb_refl.
    + now rewrite E.
Qed.

Lemma dict_get_set_other (k k0 : string) (v : json) (d : list (string * json)) :
  k <> k0 -> Dict.get k0 (Dict.set k v d) = Dict.get k0 d.
Proof.
  intros Hk. induction d as [|[k' v'] d IH]; simpl.
  - destruct (String.eqb_spec k k0); [contradiction|reflexivity].
  - destruct (String.eqb_spec k' k) as [->|E]; simpl.
    + destruct (String.eqb_spec k k0); [contradiction|reflexivity].
    + destruct (String.eqb k' k0); [reflexivity|exact IH].
Qed.

Lemma dict_set_same (k : string) (v : json) (d : list (string * json)) :
  Dict.get k d = Some v -> Dict.set k v d = d.
Proof.
  induction d as [|[k' v'] d IH]; simpl; [discriminate|].
  destruct (String.eqb_spec k' k) as [->|E].
  - now intros [= ->].
  - intros H. now rewrite IH.
Qed.

Lemma dict_get_in (k : string) (v : json) (d : list (string * json)) :
  Dict.get k d = Some v -> In (k, v) d.
Proof.
  induction d as [|[k' v'] d IH]; simpl; [discriminate|].
  destruct (String.eqb_spec k' k) as [->|E].
  - intros [= ->]. now left.
  - intros H. right. now apply IH.
Qed.

Lemma dict_keys_set (k : string) (v : json) (d : list (string * json)) :
  Dict.has k d = true -> List.map fst (Dict.set k v d) = List.map fst d.
Proof.
  unfold Dict.has. induction d as [|[k' v'] d IH]; simpl; [discriminate|].
  destruct (String.eqb_spec k' k) as [->|E]; simpl; [reflexivity|].
  intros H. now rewrite IH.
Qed.

(** ** The pruner, entry by entry *)


Lemma prune_entries_eq (errs : list string) (items : list json) :
  remove_from_groups errs (JArr items)
  = let* (new_groups, e) := prune.entries errs items in Ok (JArr new_groups, e).
Proof.
  simpl. f_equal.
  induction items as [|item rest IH]; [reflexivity|].
  simpl prune.entries. rewrite <- IH. clear IH.
  f_equal.
  destruct item as [| | | s | l | d]; try reflexivity.
  unfold prune.entry, prune.pruned_fields, prune.keeps, prune.group_line.
  rewrite !dict_apply_get.
  destruct (Dict.get "pages" d) as [vp|];
    [destruct (remove_from_groups errs vp) as [[vp' ep]|]; [|reflexivity]|];
    (destruct (Dict.get "groups" d) as [vg|];
     [destruct (remove_from_groups errs vg) as [[vg' eg]|]; [|reflexivity]|]);
    simpl;
    match goal with
    | |- context [non_empty "pages" ?d2] =>
        destruct (non_empty "pages" d2) as [[|]|]; simpl; try reflexivity;
        destruct (non_empty "groups" d2) as [[|]|]; simpl; reflexivity
    end.
Qed.

Lemma then_effects_nil_l (e : effects) : then_effects no_effects e = e.
Proof. now destruct e. Qed.

Lemma then_effects_nil_r (e : effects) : then_effects e no_effects = e.
Proof. destruct e. unfold then_effects. simpl. now rewrite !app_nil_r. Qed.

Lemma then_effects_assoc (a b c : effects) :
  then_effects a (then_effects b c) = then_effects (then_effects a b) c.
Proof. unfold then_effects. simpl. now rewrite !app_assoc. Qed.

Lemma prune_entries_app (errs : list string) (l1 l2 : list json) :
  prune.entries errs (l1 ++ l2)
  = let* (a, e1) := prune.entries errs l1 in
    let* (b, e2) := prune.entries errs l2 in
    Ok (a ++ b, then_effects e1 e2).
Proof.
  induction l1 as [|x l1 IH]; simpl.
  - destruct (prune.entries errs l2) as [[b e2]|]; simpl; [|reflexivity].
    now rewrite then_effects_nil_l.
  - destruct (prune.entry errs x) as [[kept e]|]; simpl; [|reflexivity].
    rewrite IH.
    destruct (prune.entries errs l1) as [[a e1]|]; simpl; [|reflexivity].
    destruct (prune.entries errs l2) as [[b e2]|]; simpl; [|reflexivity].
    now rewrite app_assoc, then_effects_assoc.
Qed.

Lemma prune_entries_one (errs : list string) (item : json) :
  prune.entries errs [item] = prune.entry errs item.
Proof.
  simpl. destruct (prune.entry errs item) as [[kept e]|]; simpl; [|reflexivity].
  now rewrite app_nil_r, then_effects_nil_r.
Qed.

Lemma remove_from_groups_array (errs : list string) (items : list json)
    (v' : json) (e : effects) :
  remove_from_groups errs (JArr items) = Ok (v', e) ->
  exists items', v' = JArr items' /\ prune.entries errs items = Ok (items', e).
Proof.
  rewrite prune_entries_eq.
  destruct (prune.entries errs items) as [[l' e']|]; simpl; [|discriminate].
  intros [= <- <-]. now exists l'.
Qed.

Lemma remove_from_groups_other (errs : list string) (v : json) :
  (forall items, v <> JArr items) -> remove_from_groups errs v = Ok (v, no_effects).
Proof. destruct v; intros H; try reflexivity. now destruct (H items). Qed.

Ltac dict_simpl :=
  repeat (rewrite dict_get_set_same || (rewrite dict_get_set_other by discriminate)).

(** What the two assignments leave in the object. *)
Lemma pruned_fields_get (errs : list string) (d d2 : list (string * json)) (e : effects) :
  prune.pruned_fields errs d = Ok (d2, e) ->
  exists ep eg,
    e = then_effects ep eg
    /\ match Dict.get "pages" d with
       | Some vp => exists vp', remove_from_groups errs vp = Ok (vp', ep)
                                /\ Dict.get "pages" d2 = Some vp'
       | None => ep = no_effects /\ Dict.get "pages" d2 = None
       end
    /\ match Dict.get "groups" d with
       | Some vg => exists vg', remove_from_groups errs vg = Ok (vg', eg)
                                /\ Dict.get "groups" d2 = Some vg'
       | None => eg = no_effects /\ Dict.get "groups" d2 = None
       end
    /\ Dict.get "group" d2 = Dict.get "group" d
    /\ d2 = match Dict.get "groups" d with
            | Some _ => Dict.set "groups" (default JNull (Dict.get "groups" d2))
            | None => fun x => x
            end
              (match Dict.get "pages" d with
               | Some _ => Dict.set "pages" (default JNull (Dict.get "pages" d2)) d
               | None => d
               end).
Proof.
  unfold prune.pruned_fields.
  destruct (Dict.get "pages" d) as [vp|] eqn:Ep;
    [destruct (remove_from_groups errs vp) as [[vp' ep]|]; [|discriminate]|];
    (destruct (Dict.get "groups" d) as [vg|] eqn:Eg;
     [destruct (remove_from_groups errs vg) as [[vg' eg]|]; [|discriminate]|]);
    simpl; intros [= <- <-].
  - exists ep, eg. dict_simpl. repeat split; eauto.
  - exists ep, no_effects. dict_simpl. repeat split; eauto.
  - exists no_effects, eg. dict_simpl. repeat split; eauto.
  - exists no_effects, no_effects. repeat split; eauto.
Qed.

(** An object whose ["pages"] and ["groups"] are left as they are by the
    pruner is left as it is by the two assignments. *)
Lemma pruned_fields_fixed (errs : list string) (d : list (string * json)) :
  (forall v, Dict.get "pages" d = Some v ->
             remove_from_groups errs v = Ok (v, no_effects)) ->
  (forall v, Dict.get "groups" d = Some v ->
             remove_from_groups errs v = Ok (v, no_effects)) ->
  prune.pruned_fields errs d = Ok (d, no_effects).
Proof.
  intros Hp Hg. unfold prune.pruned_fields.
  destruct (Dict.get "pages" d) as [vp|] eqn:Ep;
    [rewrite (Hp vp eq_refl)|];
    (destruct (Dict.get "groups" d) as [vg|] eqn:Eg;
     [rewrite (Hg vg eq_refl)|]); simpl.
  - rewrite (dict_set_same "pages" vp d Ep), (dict_set_same "groups" vg d Eg).
    reflexivity.
  - now rewrite (dict_set_same "pages" vp d Ep).
  - now rewrite (dict_set_same "groups" vg d Eg).
  - reflexivity.
Qed.

(** ** Pruning twice *)

Lemma prune_fixed_all (errs : list string) (v : json) : prune_fixed errs v.
Proof.
  induction v as [| b | n | s | l IH | d IH] using json_rect_nested;
    try (split; [intros v' e [= <- <-]; reflexivity
                |intros kept e [= <- <-]; reflexivity]).
  - (* a string *)
    split; [intros v' e [= <- <-]; reflexivity|].
    intros kept e. simpl.
    destruct (List.existsb (String.eqb s) errs) eqn:E; intros [= <- <-].
    + reflexivity.
    + rewrite prune_entries_one. simpl. now rewrite E.
  - (* a list *)
    split; [|intros kept e [= <- <-]; reflexivity].
    intros v' e H. apply remove_from_groups_array in H.
    destruct H as (l' & -> & H).
    rewrite prune_entries_eq.
    enough (prune.entries errs l' = Ok (l', no_effects)) as -> by reflexivity.
    revert l' e H. induction IH as [|x l Hx _ IHl]; intros l' e H.
    + injection H as <- <-. reflexivity.
    + simpl in H.
      destruct (prune.entry errs x) as [[kept e1]|] eqn:Ex; [|discriminate].
      destruct (prune.entries errs l) as [[others e2]|] eqn:El; [|discriminate].
      simpl in H. injection H as <- <-.
      rewrite prune_entries_app.
      rewrite (proj2 Hx _ _ Ex), (IHl _ _ eq_refl). reflexivity.
  - (* an object *)
    split; [intros v' e [= <- <-]; reflexivity|].
    intros kept e. simpl.
    destruct (prune.pruned_fields errs d) as [[d2 e0]|] eqn:Ef; [|discriminate].
    simpl. destruct (prune.keeps d2) as [[|]|] eqn:Ek; simpl; intros [= <- <-];
      [|reflexivity].
    rewrite prune_entries_one. simpl.
    apply pruned_fields_get in Ef.
    destruct Ef as (ep & eg & _ & Hp & Hg & _).
    rewrite List.Forall_forall in IH.
    rewrite pruned_fields_fixed; [simpl; now rewrite Ek| |].
    + intros v Hv. destruct (Dict.get "pages" d) as [vp|] eqn:Ep.
      * destruct Hp as (vp' & Hr & Hget). rewrite Hget in Hv. injection Hv as <-.
        exact (proj1 (IH _ (dict_get_in _ _ _ Ep)) _ _ Hr).
      * destruct Hp as [_ Hget]. congruence.
    + intros v Hv. destruct (Dict.get "groups" d) as [vg|] eqn:Eg.
      * destruct Hg as (vg' & Hr & Hget). rewrite Hget in Hv. injection Hv as <-.
        exact (proj1 (IH _ (dict_get_in _ _ _ Eg)) _ _ Hr).
      * destruct Hg as [_ Hget]. congruence.
Qed.

Lemma broken_in (errs : list string) (p : string) :
  broken errs p = true <-> In p errs.
Proof.
  unfold broken. rewrite List.existsb_exists. split.
  - intros (x & Hx & E). apply String.eqb_eq in E. now subst.
  - intros H. exists p. split; [exact H|apply String.eqb_refl].
Qed.

(** ** The pages that survive pruning *)

Lemma page_refs_object (d : list (string * json)) :
  page_refs (JArr [JObj d]) = refs_of "pages" d ++ refs_of "groups" d.
Proof.
  unfold refs_of. rewrite <- !dict_on_get. simpl. now rewrite app_nil_r.
Qed.

Lemma page_refs_cons (x : json) (l : list json) :
  page_refs (JArr (x :: l)) = page_refs (JArr [x]) ++ page_refs (JArr l).
Proof. exact (page_refs_app [x] l). Qed.

Lemma non_empty_false (k : string) (d : list (string * json)) :
  non_empty k d = Ok false -> refs_of k d = [].
Proof.
  unfold non_empty, refs_of.
  destruct (Dict.get k d) as [[| b | n | s | l | d']|]; try reflexivity.
  destruct l as [|x l]; [reflexivity|]. discriminate.
Qed.

Lemma keeps_false (d : list (string * json)) :
  prune.keeps d = Ok false -> refs_of "pages" d = [] /\ refs_of "groups" d = [].
Proof.
  unfold prune.keeps.
  destruct (non_empty "pages" d) as [[|]|] eqn:Ep; simpl; try discriminate.
  intros Eg. split; now apply non_empty_false.
Qed.

Lemma pruned_fields_refs (errs : list string) (d d2 : list (string * json))
    (e : effects) :
  List.Forall (fun kv => prune_filters errs (snd kv)) d ->
  prune.pruned_fields errs d = Ok (d2, e) ->
  refs_of "pages" d2 ++ refs_of "groups" d2
  = List.filter (fun p => negb (broken errs p)) (refs_of "pages" d ++ refs_of "groups" d)
  /\ removed_pages e
     = List.filter (broken errs) (refs_of "pages" d ++ refs_of "groups" d).
Proof.
  intros IH Ef. rewrite List.Forall_forall in IH.
  apply pruned_fields_get in Ef.
  destruct Ef as (ep & eg & -> & Hp & Hg & _).
  rewrite !List.filter_app. unfold refs_of.
  assert (Hpages :
    match Dict.get "pages" d2 with Some v => page_refs v | None => [] end
    = List.filter (fun p => negb (broken errs p))
        match Dict.get "pages" d with Some v => page_refs v | None => [] end
    /\ removed_pages ep
       = List.filter (broken errs)
           match Dict.get "pages" d with Some v => page_refs v | None => [] end).
  { destruct (Dict.get "pages" d) as [vp|] eqn:Ep.
    - destruct Hp as (vp' & Hr & ->).
      exact (proj1 (IH _ (dict_get_in _ _ _ Ep)) _ _ Hr).
    - destruct Hp as [-> ->]. now split. }
  assert (Hgroups :
    match Dict.get "groups" d2 with Some v => page_refs v | None => [] end
    = List.filter (fun p => negb (broken errs p))
        match Dict.get "groups" d with Some v => page_refs v | None => [] end
    /\ removed_pages eg
       = List.filter (broken errs)
           match Dict.get "groups" d with Some v => page_refs v | None => [] end).
  { destruct (Dict.get "groups" d) as [vg|] eqn:Eg.
    - destruct Hg as (vg' & Hr & ->).
      exact (proj1 (IH _ (dict_get_in _ _ _ Eg)) _ _ Hr).
    - destruct Hg as [-> ->]. now split. }
  destruct Hpages as [-> Hp1], Hgroups as [-> Hg1].
  split; [reflexivity|]. simpl. now rewrite Hp1, Hg1.
Qed.

Lemma prune_filters_all (errs : list string) (v : json) : prune_filters errs v.
Proof.
  induction v as [| b | n | s | l IH | d IH] using json_rect_nested;
    try (split; [intros v' e [= <- <-]; now split
                |intros kept e [= <- <-]; now split]).
  - (* a string *)
    split; [intros v' e [= <- <-]; now split|].
    intros kept e. simpl. fold (broken errs s).
    change (page_refs (JArr [JStr s])) with [s].
    destruct (broken errs s) eqn:E; intros [= <- <-];
      cbn [List.filter removed_pages]; now split.
  - (* a list *)
    split; [|intros kept e [= <- <-]; now split].
    intros v' e H. apply remove_from_groups_array in H.
    destruct H as (l' & -> & H).
    revert l' e H. induction IH as [|x l Hx _ IHl]; intros l' e H.
    + injection H as <- <-. now split.
    + simpl in H.
      destruct (prune.entry errs x) as [[kept e1]|] eqn:Ex; [|discriminate].
      destruct (prune.entries errs l) as [[others e2]|] eqn:El; [|discriminate].
      simpl in H. injection H as <- <-.
      destruct (proj2 Hx _ _ Ex) as [A1 A2], (IHl _ _ eq_refl) as [B1 B2].
      rewrite page_refs_app, (page_refs_cons x l), !List.filter_app.
      simpl removed_pages. rewrite A1, A2, B1, B2. now split.
  - (* an object *)
    split; [intros v' e [= <- <-]; now split|].
    intros kept e. rewrite page_refs_object. unfold prune.entry.
    destruct (prune.pruned_fields errs d) as [[d2 e0]|] eqn:Ef; [|discriminate].
    destruct (pruned_fields_refs errs d d2 e0 IH Ef) as [A1 A2].
    cbn [bind].
    destruct (prune.keeps d2) as [[|]|] eqn:Ek; cbn [bind]; intros [= <- <-].
    + rewrite page_refs_object. now split.
    + apply keeps_false in Ek. destruct Ek as [K1 K2].
      rewrite K1, K2 in A1. simpl in A1. rewrite <- A1.
      split; [reflexivity|]. simpl. now rewrite app_nil_r.
Qed.

(** ** The pruner returns on a navigation *)

Lemma is_navigation_array (items : list json) :
  is_navigation (JArr items) = List.forallb is_entry items.
Proof. reflexivity. Qed.

Lemma pruned_fields_returns (errs : list string) (d : list (string * json)) :
  (forall v, Dict.get "pages" d = Some v ->
             exists v' e, remove_from_groups errs v = Ok (v', e)) ->
  (forall v, Dict.get "groups" d = Some v ->
             exists v' e, remove_from_groups errs v = Ok (v', e)) ->
  exists d2 e, prune.pruned_fields errs d = Ok (d2, e).
Proof.
  intros Hp Hg. unfold prune.pruned_fields.
  destruct (Dict.get "pages" d) as [vp|];
    [destruct (Hp vp eq_refl) as (vp' & ep & ->)|];
    (destruct (Dict.get "groups" d) as [vg|];
     [destruct (Hg vg eq_refl) as (vg' & eg & ->)|]); simpl; eauto.
Qed.

Lemma non_empty_returns (k : string) (d : list (string * json)) :
  (forall v, Dict.get k d = Some v -> exists l, v = JArr l) ->
  exists b, non_empty k d = Ok b.
Proof.
  intros H. unfold non_empty.
  destruct (Dict.get k d) as [v|]; [|eauto].
  destruct (H v eq_refl) as [l ->]. destruct l; simpl; eauto.
Qed.

Lemma keeps_returns (d : list (string * json)) :
  (forall v, Dict.get "pages" d = Some v -> exists l, v = JArr l) ->
  (forall v, Dict.get "groups" d = Some v -> exists l, v = JArr l) ->
  exists b, prune.keeps d = Ok b.
Proof.
  intros Hp Hg. unfold prune.keeps.
  destruct (non_empty_returns _ _ Hp) as [bp ->].
  destruct (non_empty_returns _ _ Hg) as [bg ->].
  destruct bp; simpl; eauto.
Qed.

Lemma prune_returns_all (errs : list string) (v : json) : prune_returns errs v.
Proof.
  induction v as [| b | n | s | l IH | d IH] using json_rect_nested;
    try (split; discriminate).
  - (* a string *)
    split; [discriminate|]. intros _. simpl.
    destruct (List.existsb (String.eqb s) errs); eauto.
  - (* a list *)
    split; [|discriminate].
    rewrite is_navigation_array. intros Hnav.
    enough (exists l' e, prune.entries errs l = Ok (l', e)) as (l' & e & H).
    { exists l', e. rewrite prune_entries_eq, H. reflexivity. }
    induction IH as [|x l Hx _ IHl]; [simpl; eauto|].
    simpl in Hnav. apply andb_prop in Hnav. destruct Hnav as [Hx1 Hl1].
    destruct (proj2 Hx Hx1) as (kept & e1 & Ex).
    destruct (IHl Hl1) as (others & e2 & El).
    simpl. rewrite Ex, El. simpl. eauto.
  - (* an object *)
    split; [discriminate|].
    intros Hd. simpl in Hd. apply andb_prop in Hd. destruct Hd as [Hp Hg].
    rewrite dict_on_get in Hp, Hg. rewrite List.Forall_forall in IH.
    assert (Rp : forall v, Dict.get "pages" d = Some v ->
                   exists l' e, remove_from_groups errs v = Ok (JArr l', e)).
    { intros v Hv. rewrite Hv in Hp.
      exact (proj1 (IH _ (dict_get_in _ _ _ Hv)) Hp). }
    assert (Rg : forall v, Dict.get "groups" d = Some v ->
                   exists l' e, remove_from_groups errs v = Ok (JArr l', e)).
    { intros v Hv. rewrite Hv in Hg.
      exact (proj1 (IH _ (dict_get_in _ _ _ Hv)) Hg). }
    destruct (pruned_fields_returns errs d) as (d2 & e & Ef).
    { intros v Hv. destruct (Rp v Hv) as (l' & e & H). eauto. }
    { intros v Hv. destruct (Rg v Hv) as (l' & e & H). eauto. }
    simpl. rewrite Ef. simpl.
    destruct (keeps_returns d2) as [b Ek].
    + intros v Hv. apply pruned_fields_get in Ef.
      destruct Ef as (ep & eg & _ & Gp & _).
      destruct (Dict.get "pages" d) as [vp|].
      * destruct Gp as (vp' & Hr & Hget).
        destruct (Rp vp eq_refl) as (l' & e' & Hr').
        rewrite Hr in Hr'. injection Hr' as -> _. exists l'. congruence.
      * destruct Gp as [_ Hget]. congruence.
    + intros v Hv. apply pruned_fields_get in Ef.
      destruct Ef as (ep & eg & _ & _ & Gg & _).
      destruct (Dict.get "groups" d) as [vg|].
      * destruct Gg as (vg' & Hr & Hget).
        destruct (Rg vg eq_refl) as (l' & e' & Hr').
        rewrite Hr in Hr'. injection Hr' as -> _. exists l'. congruence.
      * destruct Gg as [_ Hget]. congruence.
    + rewrite Ek. simpl. destruct b; eauto.
Qed.

Lemma pruning_returns (errs : list string) (navigation : json) :
  is_navigation navigation = true ->
  exists pruned e, remove_from_groups errs navigation = Ok (pruned, e).
Proof.
  intros H. destruct (proj1 (prune_returns_all errs navigation) H) as (l' & e & E).
  eauto.
Qed.

(** ** Pruning pages and groups *)

Lemma entries_of_array (errs : list string) (items items' : list json) (e : effects) :
  remove_from_groups errs (JArr items) = Ok (JArr items', e) ->
  prune.entries errs items = Ok (items', e).
Proof.
  intros H. apply remove_from_groups_array in H.
  destruct H as (l' & [= <-] & H). exact H.
Qed.

Lemma prune_around (errs : list string) (before after before' after' : list json)
    (e1 e2 : effects) (item : json) (kept : list json) (e : effects) :
  remove_from_groups errs (JArr before) = Ok (JArr before', e1) ->
  remove_from_groups errs (JArr after) = Ok (JArr after', e2) ->
  prune.entry errs item = Ok (kept, e) ->
  remove_from_groups errs (JArr (before ++ item :: after))
  = Ok (JArr (before' ++ kept ++ after'), then_effects e1 (then_effects e e2)).
Proof.
  intros Hb Ha He. apply entries_of_array in Hb, Ha.
  rewrite prune_entries_eq, prune_entries_app, Hb. simpl.
  rewrite He, Ha. reflexivity.
Qed.

(** C6. In a list of navigation entries, a bare page between any entries
    is dropped and appended to [removed_pages] when its path is among the
    broken paths, and kept in its place when it is not.  Overall, the page
    references of the pruned navigation are those of the navigation that
    are not broken, in their order, the returned [removed_pages] are the
    broken ones, in their order, and the pruner returns for every
    navigation. *)
Theorem pruning_drops_exactly_the_broken_pages (error_page_paths : list string) :
  (forall (before after before' after' : list json) (e1 e2 : effects) (page : string),
     remove_from_groups error_page_paths (JArr before) = Ok (JArr before', e1) ->
     remove_from_groups error_page_paths (JArr after) = Ok (JArr after', e2) ->
     remove_from_groups error_page_paths (JArr (before ++ JStr page :: after))
     = if broken error_page_paths page
       then Ok (JArr (before' ++ after'),
                then_effects e1 (then_effects (Effects [page] [Removed_page page]) e2))
       else Ok (JArr (before' ++ JStr page :: after'), then_effects e1 e2))
  /\ (forall (navigation pruned : json) (e : effects),
        remove_from_groups error_page_paths navigation = Ok (pruned, e) ->
        page_refs pruned
        = List.filter (fun p => negb (broken error_page_paths p)) (page_refs navigation)
        /\ removed_pages e
           = List.filter (broken error_page_paths) (page_refs navigation))
  /\ (forall navigation : json,
        is_navigation navigation = true ->
        exists pruned e,
          remove_from_groups error_page_paths navigation = Ok (pruned, e)).
Proof.
  split; [|split].
  - intros before after before' after' e1 e2 page Hb Ha.
    destruct (broken error_page_paths page) eqn:E.
    + apply (prune_around _ _ _ _ _ _ _ (JStr page) [] _ Hb Ha).
      simpl. fold (broken error_page_paths page). now rewrite E.
    + rewrite (prune_around _ _ _ _ _ _ _ (JStr page) [JStr page] no_effects Hb Ha).
      * now rewrite then_effects_nil_l.
      * simpl. fold (broken error_page_paths page). now rewrite E.
  - intros navigation pruned e.
    apply (proj1 (prune_filters_all error_page_paths navigation)).
  - apply pruning_returns.
Qed.

Lemma pruning_drops_exactly_the_broken_pages_witness :
  remove_from_groups ["p2"] (JArr [JStr "p1"]) = Ok (JArr [JStr "p1"], no_effects)
  /\ remove_from_groups ["p2"] (JArr [JStr "p3"]) = Ok (JArr [JStr "p3"], no_effects)
  /\ remove_from_groups ["p2"] (JArr ([JStr "p1"] ++ JStr "p2" :: [JStr "p3"]))
     = Ok (JArr [JStr "p1"; JStr "p3"], Effects ["p2"] [Removed_page "p2"]).
Proof.
  split; [reflexivity|]. split; [reflexivity|].
  exact (proj1 (pruning_drops_exactly_the_broken_pages ["p2"])
           [JStr "p1"] [JStr "p3"] [JStr "p1"] [JStr "p3"] no_effects no_effects "p2"
           eq_refl eq_refl).
Defined.

Lemma all_broken_pruned (errs : list string) (pgs : list string) :
  List.forallb (broken errs) pgs = true ->
  prune.entries errs (List.map JStr pgs)
  = Ok ([], Effects pgs (List.map Removed_page pgs)).
Proof.
  induction pgs as [|p pgs IH]; [reflexivity|].
  simpl. intros H. apply andb_prop in H. destruct H as [Hp Hl].
  fold (broken errs p). rewrite Hp, (IH Hl). reflexivity.
Qed.

Lemma prune_nothing (errs : list string) (l : list json) (e : effects) :
  remove_from_groups errs (JArr []) = Ok (JArr l, e) -> l = [] /\ e = no_effects.
Proof. simpl. intros [= <- <-]. now split. Qed.

Lemma pruned_fields_both (errs : list string) (d : list (string * json))
    (ps gs : option (list json)) (ps' gs' : list json) (ep eg : effects) :
  Dict.get "pages" d = option_map JArr ps ->
  Dict.get "groups" d = option_map JArr gs ->
  remove_from_groups errs (JArr (default [] ps)) = Ok (JArr ps', ep) ->
  remove_from_groups errs (JArr (default [] gs)) = Ok (JArr gs', eg) ->
  prune.pruned_fields errs d
  = Ok (let d1 := match ps with
                  | Some _ => Dict.set "pages" (JArr ps') d
                  | None => d
                  end in
        match gs with
        | Some _ => Dict.set "groups" (JArr gs') d1
        | None => d1
        end,
        then_effects ep eg).
Proof.
  intros Hp Hg Hrp Hrg. unfold prune.pruned_fields. rewrite Hp, Hg.
  destruct ps as [ps|], gs as [gs|]; cbn [option_map default from_option id] in *.
  - rewrite Hrp. cbn [bind]. rewrite Hrg. reflexivity.
  - rewrite Hrp. cbn [bind]. apply prune_nothing in Hrg as [_ ->]. reflexivity.
  - rewrite Hrg. cbn [bind]. apply prune_nothing in Hrp as [_ ->]. reflexivity.
  - apply prune_nothing in Hrp as [_ ->]. apply prune_nothing in Hrg as [_ ->].
    reflexivity.
Qed.

Lemma non_empty_list (k : string) (d : list (string * json)) (l : list json) :
  Dict.get k d = Some (JArr l) ->
  non_empty k d = Ok (match l with [] => false | _ :: _ => true end).
Proof. intros H. unfold non_empty. rewrite H. now destruct l. Qed.

Lemma non_empty_absent (k : string) (d : list (string * json)) :
  Dict.get k d = None -> non_empty k d = Ok false.
Proof. intros H. unfold non_empty. now rewrite H. Qed.

Lemma keeps_both (errs : list string) (d : list (string * json))
    (ps gs : option (list json)) (ps' gs' : list json) (ep eg : effects) :
  Dict.get "pages" d = option_map JArr ps ->
  Dict.get "groups" d = option_map JArr gs ->
  remove_from_groups errs (JArr (default [] ps)) = Ok (JArr ps', ep) ->
  remove_from_groups errs (JArr (default [] gs)) = Ok (JArr gs', eg) ->
  prune.keeps
    (let d1 := match ps with
               | Some _ => Dict.set "pages" (JArr ps') d
               | None => d
               end in
     match gs with
     | Some _ => Dict.set "groups" (JArr gs') d1
     | None => d1
     end)
  = Ok (match ps', gs' with [], [] => false | _, _ => true end).
Proof.
  intros Hp Hg Hrp Hrg. unfold prune.keeps.
  destruct ps as [ps|], gs as [gs|]; cbn [option_map default from_option id] in *.
  - rewrite (non_empty_list "pages" _ ps'), (non_empty_list "groups" _ gs').
    + now destruct ps', gs'.
    + apply dict_get_set_same.
    + rewrite dict_get_set_other by discriminate. apply dict_get_set_same.
  - apply prune_nothing in Hrg as [-> _].
    rewrite (non_empty_list "pages" _ ps') by apply dict_get_set_same.
    rewrite non_empty_absent by (now rewrite dict_get_set_other by discriminate).
    now destruct ps'.
  - apply prune_nothing in Hrp as [-> _].
    rewrite non_empty_absent
      by (now rewrite dict_get_set_other by discriminate).
    rewrite (non_empty_list "groups" _ gs') by apply dict_get_set_same.
    now destruct gs'.
  - apply prune_nothing in Hrp as [-> _]. apply prune_nothing in Hrg as [-> _].
    now rewrite !non_empty_absent.
Qed.

(** A group whose pages are all broken and that holds a group with a page
    left: the pruned list of its pages is empty, and the group is kept,
    with that empty list, and no line reports it. *)
Lemma group_left_without_pages_is_kept :
  remove_from_groups ["p2"]
    (JArr [JObj [("group", JStr "K");
                 ("pages", JArr [JStr "p2"]);
                 ("groups", JArr [JObj [("group", JStr "L");
                                        ("pages", JArr [JStr "p3"])]])]])
  = Ok (JArr [JObj [("group", JStr "K");
                    ("pages", JArr []);
                    ("groups", JArr [JObj [("group", JStr "L");
                                           ("pages", JArr [JStr "p3"])]])]],
        Effects ["p2"] [Removed_page "p2"]).
Proof. reflexivity. Qed.

(** C7, as the pruner has it.  A group, an object that may hold a list of
    ["pages"] and a list of ["groups"], has both lists pruned; between any
    entries it is dropped when the pruned lists are both empty, a list
    that the group does not hold counting as empty, and the line that
    reports the removal of an empty group is printed with its name; it is
    kept in its place, with the pruned lists, when one of them is not
    empty, so a group with a page left is never dropped.  A list of pages
    that are all broken is pruned to the empty list. *)
Theorem group_is_dropped_when_it_is_left_empty (error_page_paths : list string) :
  (forall (before after before' after' : list json) (e1 e2 : effects)
          (group : list (string * json)) (pgs grps : option (list json))
          (pgs' grps' : list json) (ep eg : effects),
     Dict.get "pages" group = option_map JArr pgs ->
     Dict.get "groups" group = option_map JArr grps ->
     remove_from_groups error_page_paths (JArr (default [] pgs)) = Ok (JArr pgs', ep) ->
     remove_from_groups error_page_paths (JArr (default [] grps)) = Ok (JArr grps', eg) ->
     remove_from_groups error_page_paths (JArr before) = Ok (JArr before', e1) ->
     remove_from_groups error_page_paths (JArr after) = Ok (JArr after', e2) ->
     remove_from_groups error_page_paths (JArr (before ++ JObj group :: after))
     = match pgs', grps' with
       | [], [] =>
           Ok (JArr (before' ++ after'),
               then_effects e1
                 (then_effects
                    (then_effects (then_effects ep eg)
                       (Effects []
                          [Removed_empty_group
                             (default (JStr "Unknown") (Dict.get "group" group))]))
                    e2))
       | _, _ =>
           Ok (JArr (before' ++
                     JObj (let with_pages :=
                             match pgs with
                             | Some _ => Dict.set "pages" (JArr pgs') group
                             | None => group
                             end in
                           match grps with
                           | Some _ => Dict.set "groups" (JArr grps') with_pages
                           | None => with_pages
                           end)
                     :: after'),
               then_effects e1 (then_effects (then_effects ep eg) e2))
       end)
  /\ (forall pgs : list string,
        List.forallb (broken error_page_paths) pgs = true ->
        remove_from_groups error_page_paths (JArr (List.map JStr pgs))
        = Ok (JArr [], Effects pgs (List.map Removed_page pgs))).
Proof.
  split.
  - intros before after before' after' e1 e2 group pgs grps pgs' grps' ep eg
           Hp Hg Hrp Hrg Hb Ha.
    assert (Hf := pruned_fields_both _ _ _ _ _ _ _ _ Hp Hg Hrp Hrg).
    assert (Hk := keeps_both _ _ _ _ _ _ _ _ Hp Hg Hrp Hrg).
    cbv zeta in Hf, Hk.
    assert (Hname :
      Dict.get "group"
        (match grps with
         | Some _ =>
             Dict.set "groups" (JArr grps')
               (match pgs with
                | Some _ => Dict.set "pages" (JArr pgs') group
                | None => group
                end)
         | None =>
             match pgs with
             | Some _ => Dict.set "pages" (JArr pgs') group
             | None => group
             end
         end)
      = Dict.get "group" group).
    { destruct grps, pgs; rewrite ?dict_get_set_other by discriminate; reflexivity. }
    cbv zeta.
    assert (Hdrop : pgs' = [] -> grps' = [] ->
      remove_from_groups error_page_paths (JArr (before ++ JObj group :: after))
      = Ok (JArr (before' ++ after'),
            then_effects e1
              (then_effects
                 (then_effects (then_effects ep eg)
                    (Effects []
                       [Removed_empty_group
                          (default (JStr "Unknown") (Dict.get "group" group))]))
                 e2))).
    { intros -> ->.
      apply (prune_around _ _ _ _ _ _ _ (JObj group) [] _ Hb Ha).
      cbn [prune.entry]. rewrite Hf. cbn [bind]. rewrite Hk. cbn [bind].
      unfold prune.group_line. now rewrite Hname. }
    assert (Hkeep :
      match pgs', grps' with [], [] => false | _, _ => true end = true ->
      remove_from_groups error_page_paths (JArr (before ++ JObj group :: after))
      = Ok (JArr (before' ++
                  JObj (match grps with
                        | Some _ =>
                            Dict.set "groups" (JArr grps')
                              (match pgs with
                               | Some _ => Dict.set "pages" (JArr pgs') group
                               | None => group
                               end)
                        | None =>
                            match pgs with
                            | Some _ => Dict.set "pages" (JArr pgs') group
                            | None => group
                            end
                        end)
                  :: after'),
            then_effects e1 (then_effects (then_effects ep eg) e2))).
    { intros Ht. rewrite Ht in Hk.
      apply (prune_around _ _ _ _ _ _ _ (JObj group) [_] _ Hb Ha).
      cbn [prune.entry]. rewrite Hf. cbn [bind]. rewrite Hk. reflexivity. }
    destruct pgs' as [|p pgs'], grps' as [|g grps'];
      [now apply Hdrop|now apply Hkeep..].
  - intros pgs H. rewrite prune_entries_eq, (all_broken_pruned _ _ H). reflexivity.
Qed.

Lemma group_is_dropped_when_it_is_left_empty_witness :
  remove_from_groups ["p1"; "p2"]
    (JArr ([JStr "intro"]
           ++ JObj [("group", JStr "Agents"); ("pages", JArr [JStr "p1"; JStr "p2"])]
           :: [JStr "outro"]))
  = Ok (JArr [JStr "intro"; JStr "outro"],
        Effects ["p1"; "p2"]
          [Removed_page "p1"; Removed_page "p2"; Removed_empty_group (JStr "Agents")]).
Proof.
  exact (proj1 (group_is_dropped_when_it_is_left_empty ["p1"; "p2"])
           [JStr "intro"] [JStr "outro"] [JStr "intro"] [JStr "outro"]
           no_effects no_effects
           [("group", JStr "Agents"); ("pages", JArr [JStr "p1"; JStr "p2"])]
           (Some [JStr "p1"; JStr "p2"]) None [] []
           (Effects ["p1"; "p2"] [Removed_page "p1"; Removed_page "p2"]) no_effects
           eq_refl eq_refl eq_refl eq_refl eq_refl eq_refl).
Defined.

(** ** Pruning a document twice *)

Lemma dict_set_set (k : string) (v w : json) (d : list (string * json)) :
  Dict.set k v (Dict.set k w d) = Dict.set k v d.
Proof.
  induction d as [|[k' v'] d IH]; simpl.
  - now rewrite String.eqb_refl.
  - destruct (String.eqb k' k) eqn:E; simpl.
    + now rewrite String.eqb_refl.
    + now rewrite E, IH.
Qed.

Lemma dict_has_set (k : string) (v : json) (d : list (string * json)) :
  Dict.has k (Dict.set k v d) = true.
Proof. unfold Dict.has. now rewrite dict_get_set_same. Qed.

Lemma each_tab_fixed (errs : list string) (tabs tabs' : list json) (e : effects) :
  each_tab errs tabs = Ok (tabs', e) -> each_tab errs tabs' = Ok (tabs', no_effects).
Proof.
  revert tabs' e. induction tabs as [|tab tabs IH]; intros tabs' e H.
  - injection H as <- <-. reflexivity.
  - simpl in H.
    destruct (py_contains "groups" tab) as [b|] eqn:Ec; [|discriminate].
    simpl in H.
    assert (Hone : exists tab1 e1,
      (if b
       then let* groups := py_getitem "groups" tab in
            let* (groups', e0) := remove_from_groups errs groups in
            match tab with
            | JObj d => Ok (JObj (Dict.set "groups" groups' d), e0)
            | _ => Raise TypeError
            end
       else Ok (tab, no_effects)) = Ok (tab1, e1)
      /\ py_contains "groups" tab1 = Ok b
      /\ (b = true ->
          exists d g, tab1 = JObj d /\ Dict.get "groups" d = Some g
                      /\ remove_from_groups errs g = Ok (g, no_effects))).
    { destruct b.
      - destruct tab as [| | | | |d]; try discriminate.
        simpl in H |- *.
        destruct (Dict.get "groups" d) as [g|] eqn:Eg; [|discriminate].
        simpl in H |- *.
        destruct (remove_from_groups errs g) as [[g' e0]|] eqn:Er; [|discriminate].
        simpl. exists (JObj (Dict.set "groups" g' d)), e0.
        split; [reflexivity|]. split.
        + simpl. now rewrite dict_has_set.
        + intros _. exists (Dict.set "groups" g' d), g'.
          split; [reflexivity|]. split; [apply dict_get_set_same|].
          exact (proj1 (prune_fixed_all errs g) _ _ Er).
      - exists tab, no_effects. split; [reflexivity|]. split; [exact Ec|discriminate]. }
    destruct Hone as (tab1 & e1 & E1 & Hc & Hfix).
    rewrite E1 in H. simpl in H.
    destruct (each_tab errs tabs) as [[rest e2]|] eqn:Et; [|discriminate].
    simpl in H. injection H as <- <-.
    simpl. rewrite Hc. simpl. rewrite (IH _ _ eq_refl).
    destruct b.
    + destruct (Hfix eq_refl) as (d & g & -> & Hg & Hr).
      simpl. rewrite Hg. simpl. rewrite Hr. simpl.
      now rewrite (dict_set_same _ _ _ Hg).
    + reflexivity.
Qed.

Lemma each_tab_strings (errs : list string) (tabs tabs' : list json) (e : effects) :
  List.Forall (fun tab => exists s, tab = JStr s) tabs ->
  each_tab errs tabs = Ok (tabs', e) -> e = no_effects.
Proof.
  intros Hs. revert tabs' e. induction Hs as [|tab tabs [s ->] _ IH]; intros tabs' e H.
  - now injection H as <- <-.
  - simpl in H. destruct (is_substring "groups" s); [discriminate|].
    simpl in H.
    destruct (each_tab errs tabs) as [[rest e2]|] eqn:Et; [|discriminate].
    simpl in H. injection H as <- <-. now rewrite (IH _ _ eq_refl).
Qed.

Lemma chars_are_strings (s : string) :
  List.Forall (fun tab => exists s', tab = JStr s') (chars s).
Proof. induction s; simpl; constructor; eauto. Qed.

Lemma keys_are_strings (d : list (string * json)) :
  List.Forall (fun tab => exists s', tab = JStr s')
    (List.map (fun kv => JStr (fst kv)) d).
Proof. induction d; simpl; constructor; eauto. Qed.

(** Whenever [remove_pages_from_navigation] returns, a second call on the
    document it left, with the same error files, leaves the document as it
    is, returns no removed page and prints nothing. *)
Lemma remove_pages_from_navigation_fixed (docs_data docs_data' : json)
    (error_files : list string) (e : effects) :
  remove_pages_from_navigation docs_data error_files = Ok (docs_data', e) ->
  remove_pages_from_navigation docs_data' error_files = Ok (docs_data', no_effects).
Proof.
  unfold remove_pages_from_navigation.
  set (errs := List.map file_path_to_page_path error_files).
  destruct (py_contains "navigation" docs_data) as [[|]|] eqn:Ec; simpl;
    [|intros [= <- <-]; now rewrite Ec|discriminate].
  destruct docs_data as [| | | | |doc]; try discriminate.
  simpl in Ec. injection Ec as Ec. cbn [py_getitem].
  destruct (Dict.get "navigation" doc) as [nav|] eqn:En; [|discriminate].
  cbn [bind].
  destruct (py_contains "tabs" nav) as [[|]|] eqn:Et; cbn [bind];
    [|intros [= <- <-]; cbn [py_contains py_getitem bind]; rewrite Ec, En;
      cbn [bind]; now rewrite Et|discriminate].
  destruct nav as [| | | | |nav]; try discriminate.
  simpl in Et. injection Et as Et. cbn [py_getitem].
  destruct (Dict.get "tabs" nav) as [tabs|] eqn:Etabs; [|discriminate].
  cbn [bind].
  destruct (py_iter tabs) as [tab_list|] eqn:Ei; [|discriminate]. cbn [bind].
  destruct (each_tab errs tab_list) as [[tabs' e']|] eqn:Ee; [|discriminate].
  cbn [bind].
  destruct tabs as [| | | s | l | td]; try discriminate; simpl in Ei;
    injection Ei as <-; intros [= <- <-].
  - (* the tabs are the characters of a string *)
    cbn [py_contains py_getitem bind]. rewrite Ec, En. cbn [bind py_contains py_getitem].
    rewrite Et, Etabs. cbn [bind py_iter]. rewrite Ee. cbn [bind].
    now rewrite (each_tab_strings _ _ _ _ (chars_are_strings s) Ee).
  - (* the tabs are a list *)
    cbn [py_contains py_getitem bind]. rewrite dict_has_set, dict_get_set_same.
    cbn [py_contains py_getitem bind]. rewrite dict_has_set, dict_get_set_same.
    cbn [bind py_iter].
    rewrite (each_tab_fixed _ _ _ _ Ee). cbn [bind].
    now rewrite !dict_set_set.
  - (* the tabs are the keys of an object *)
    cbn [py_contains py_getitem bind]. rewrite Ec, En. cbn [bind py_contains py_getitem].
    rewrite Et, Etabs. cbn [bind py_iter]. rewrite Ee. cbn [bind].
    now rewrite (each_tab_strings _ _ _ _ (keys_are_strings td) Ee).
Qed.

(** C8. Whenever the pruner returns, pruning its result again with the
    same broken paths returns that result unchanged, removes no page and
    prints nothing; the pruner returns for every navigation; and the same
    holds for [remove_pages_from_navigation] on a whole document. *)
Theorem pruning_is_idempotent (error_page_paths : list string) (navigation : json)
    (docs_data : json) (error_files : list string) :
  (forall (pruned : json) (e : effects),
     remove_from_groups error_page_paths navigation = Ok (pruned, e) ->
     remove_from_groups error_page_paths pruned = Ok (pruned, Effects [] []))
  /\ (is_navigation navigation = true ->
      exists pruned e,
        remove_from_groups error_page_paths navigation = Ok (pruned, e)
        /\ remove_from_groups error_page_paths pruned = Ok (pruned, Effects [] []))
  /\ (forall (docs_data' : json) (e : effects),
        remove_pages_from_navigation docs_data error_files = Ok (docs_data', e) ->
        remove_pages_from_navigation docs_data' error_files
        = Ok (docs_data', Effects [] [])).
Proof.
  split; [|split].
  - apply (proj1 (prune_fixed_all error_page_paths navigation)).
  - intros H. destruct (pruning_returns error_page_paths navigation H) as (p & e & E).
    exists p, e. split; [exact E|].
    exact (proj1 (prune_fixed_all error_page_paths navigation) _ _ E).
  - intros docs_data' e. apply remove_pages_from_navigation_fixed.
Qed.

Lemma pruning_is_idempotent_witness :
  remove_from_groups ["p2"]
    (JArr [JObj [("group", JStr "G"); ("pages", JArr [JStr "p1"; JStr "p2"])]])
  = Ok (JArr [JObj [("group", JStr "G"); ("pages", JArr [JStr "p1"])]],
        Effects ["p2"] [Removed_page "p2"])
  /\ remove_from_groups ["p2"]
       (JArr [JObj [("group", JStr "G"); ("pages", JArr [JStr "p1"])]])
     = Ok (JArr [JObj [("group", JStr "G"); ("pages", JArr [JStr "p1"])]],
           Effects [] []).
Proof.
  split; [reflexivity|].
  exact (proj1 (pruning_is_idempotent ["p2"]
                  (JArr [JObj [("group", JStr "G");
                               ("pages", JArr [JStr "p1"; JStr "p2"])]])
                  JNull [])
           _ _ eq_refl).
Defined.

(** ** What the merger changes in a document *)

Lemma update_groups_some (navigation groups groups' : list json) :
  organize_modules.update_groups navigation groups = Ok (Some groups') ->
  exists before g after,
    groups = before ++ JObj g :: after
    /\ none_named "group" before = true
    /\ is_api_reference (Dict.get "group" g) = true
    /\ groups' = before ++ JObj (Dict.set "pages" (JArr navigation) g) :: after.
Proof.
  revert groups'. induction groups as [|x groups IH]; intros groups' H;
    [discriminate|].
  simpl in H. destruct x as [| | | | |d]; try discriminate. simpl in H.
  destruct (is_api_reference (Dict.get "group" d)) eqn:E.
  - injection H as <-. exists [], d, groups. now repeat split.
  - destruct (organize_modules.update_groups navigation groups)
      as [[l|]|] eqn:El; try discriminate.
    simpl in H. injection H as <-.
    destruct (IH l eq_refl) as (before & g & after & -> & Hb & Hg & ->).
    exists (JObj d :: before), g, after. repeat split; try assumption.
    simpl. now rewrite E.
Qed.

Lemma update_tabs_some (navigation tabs tabs' : list json) :
  build_api_docs.update_tabs navigation tabs = Ok (Some tabs') ->
  exists before t after,
    tabs = before ++ JObj t :: after
    /\ none_named "tab" before = true
    /\ is_api_reference (Dict.get "tab" t) = true
    /\ tabs' = before ++ JObj (Dict.set "groups" (JArr navigation) t) :: after.
Proof.
  revert tabs'. induction tabs as [|x tabs IH]; intros tabs' H; [discriminate|].
  simpl in H. destruct x as [| | | | |d]; try discriminate. simpl in H.
  destruct (is_api_reference (Dict.get "tab" d)) eqn:E.
  - injection H as <-. exists [], d, tabs. now repeat split.
  - destruct (build_api_docs.update_tabs navigation tabs)
      as [[l|]|] eqn:El; try discriminate.
    simpl in H. injection H as <-.
    destruct (IH l eq_refl) as (before & t & after & -> & Hb & Ht & ->).
    exists (JObj d :: before), t, after. repeat split; try assumption.
    simpl. now rewrite E.
Qed.

Lemma strings_hold_no_object (l before after : list json) (g : list (string * json)) :
  List.Forall (fun x => exists s, x = JStr s) l -> l <> before ++ JObj g :: after.
Proof.
  intros Hs ->. apply List.Forall_app in Hs. destruct Hs as [_ Hs].
  inversion Hs as [|x l' [s Hx] _]. discriminate.
Qed.

(** The merger of [organize_modules.py] leaves the document as it is, or
    replaces the ["pages"] of the first group named "API Reference" and
    nothing else. *)
Lemma organize_modules_merged_frame (doc doc' : json) (navigation : list json) :
  organize_modules.merged doc navigation = Ok doc' ->
  doc' = doc
  \/ exists d before g after,
       doc = JObj d
       /\ Dict.get "navigation" d = Some (JArr (before ++ JObj g :: after))
       /\ none_named "group" before = true
       /\ is_api_reference (Dict.get "group" g) = true
       /\ doc' = JObj (Dict.set "navigation"
                         (JArr (before ++
                                JObj (Dict.set "pages" (JArr navigation) g) :: after))
                         d).
Proof.
  unfold organize_modules.merged.
  destruct doc as [| | | | |d]; try discriminate. cbn [py_get bind].
  destruct (py_iter (default (JArr []) (Dict.get "navigation" d))) as [groups|] eqn:Ei;
    [|discriminate].
  cbn [bind].
  destruct (organize_modules.update_groups navigation groups)
    as [[groups'|]|] eqn:Eu; try discriminate; cbn [bind]; intros [= <-];
    [|now left].
  right. apply update_groups_some in Eu.
  destruct Eu as (before & g & after & -> & Hb & Hg & ->).
  exists d, before, g, after. repeat split; try assumption.
  destruct (Dict.get "navigation" d) as [[| | | s | l | nd]|]; simpl in Ei;
    try discriminate; injection Ei as Ei.
  - now destruct (strings_hold_no_object _ before after g (chars_are_strings s)).
  - now subst l.
  - now destruct (strings_hold_no_object _ before after g (keys_are_strings nd)).
  - now destruct before.
Qed.

(** The merger of [build_api_docs.py] leaves the document as it is, or
    replaces the ["groups"] of the first tab named "API Reference" and
    nothing else. *)
Lemma build_api_docs_merged_frame (doc doc' : json) (navigation : list json) :
  build_api_docs.merged doc navigation = Ok doc' ->
  doc' = doc
  \/ exists d nav before t after,
       doc = JObj d
       /\ Dict.get "navigation" d = Some (JObj nav)
       /\ Dict.get "tabs" nav = Some (JArr (before ++ JObj t :: after))
       /\ none_named "tab" before = true
       /\ is_api_reference (Dict.get "tab" t) = true
       /\ doc' = JObj (Dict.set "navigation"
                         (JObj (Dict.set "tabs"
                                  (JArr (before ++
                                         JObj (Dict.set "groups" (JArr navigation) t)
                                         :: after))
                                  nav))
                         d).
Proof.
  unfold build_api_docs.merged.
  destruct doc as [| | | | |d]; try discriminate. cbn [py_get bind].
  destruct (py_get "tabs" (default (JObj []) (Dict.get "navigation" d)))
    as [tabs_value|] eqn:Eg; [|discriminate].
  cbn [bind].
  destruct (py_iter (default (JArr []) tabs_value)) as [tabs|] eqn:Ei; [|discriminate].
  cbn [bind].
  destruct (build_api_docs.update_tabs navigation tabs)
    as [[tabs'|]|] eqn:Eu; try discriminate; cbn [bind]; [|intros [= <-]; now left].
  apply update_tabs_some in Eu.
  destruct Eu as (before & t & after & -> & Hb & Ht & ->).
  destruct (Dict.get "navigation" d) as [[| | | | |nav]|] eqn:En;
    try discriminate; simpl in Eg; injection Eg as <-.
  - intros [= <-]. right. exists d, nav, before, t, after.
    repeat split; try assumption.
    destruct (Dict.get "tabs" nav) as [[| | | s | l | td]|]; simpl in Ei;
      try discriminate; injection Ei as Ei.
    + now destruct (strings_hold_no_object _ before after t (chars_are_strings s)).
    + now subst l.
    + now destruct (strings_hold_no_object _ before after t (keys_are_strings td)).
    + now destruct before.
  - simpl in Ei. injection Ei as Ei. now destruct before.
Qed.

(** In both scripts the merged document has the keys of the document, in
    their order, and the values of the keys other than ["navigation"]. *)
Lemma merged_keeps_the_other_keys (doc doc' : json) (navigation : list json) :
  organize_modules.merged doc navigation = Ok doc'
  \/ build_api_docs.merged doc navigation = Ok doc' ->
  forall d d', doc = JObj d -> doc' = JObj d' ->
    List.map fst d' = List.map fst d
    /\ forall k, k <> "navigation" -> Dict.get k d' = Dict.get k d.
Proof.
  intros H d d' -> ->.
  assert (Hd : d' = d \/ exists v v', Dict.get "navigation" d = Some v
                                     /\ d' = Dict.set "navigation" v' d).
  { destruct H as [H|H].
    - apply organize_modules_merged_frame in H.
      destruct H as [[= ->]|(d0 & before & g & after & [= <-] & Hn & _ & _ & [= ->])];
        [now left|right; eauto].
    - apply build_api_docs_merged_frame in H.
      destruct H as [[= ->]|(d0 & nav & before & t & after & [= <-] & Hn & _ & _ & _ & [= ->])];
        [now left|right; eauto]. }
  destruct Hd as [->|(v & v' & Hv & ->)]; [now split|].
  split.
  - apply dict_keys_set. unfold Dict.has. now rewrite Hv.
  - intros k Hk. apply dict_get_set_other. congruence.
Qed.

(** ** Merging without the section of the API reference *)

Lemma update_groups_none (navigation groups : list json) :
  none_named "group" groups = true ->
  organize_modules.update_groups navigation groups = Ok None.
Proof.
  induction groups as [|g groups IH]; [reflexivity|].
  simpl. intros H. apply andb_prop in H. destruct H as [Hg Hl].
  destruct g as [| | | | |d]; try discriminate. simpl.
  apply negb_true_iff in Hg. rewrite Hg, (IH Hl). reflexivity.
Qed.

Lemma update_tabs_none (navigation tabs : list json) :
  none_named "tab" tabs = true ->
  build_api_docs.update_tabs navigation tabs = Ok None.
Proof.
  induction tabs as [|g tabs IH]; [reflexivity|].
  simpl. intros H. apply andb_prop in H. destruct H as [Hg Hl].
  destruct g as [| | | | |d]; try discriminate. simpl.
  apply negb_true_iff in Hg. rewrite Hg, (IH Hl). reflexivity.
Qed.

(** A document that has no group or tab named "API Reference" is accepted
    by the merger: with [site_without_reference] and
    [tabs_without_reference] the two scripts raise nothing, write the
    document as it was and return [True]. *)
Lemma merge_does_not_fail_without_reference :
  organize_modules.update_mint_json (Some site_without_reference)
    [JStr "reference/camel"]
  = Ok (MergeOutcome true (Some (Json.dumps true 0 site_without_reference)))
  /\ build_api_docs.update_mint_json (Some tabs_without_reference)
       [JStr "reference/camel"]
     = Ok (MergeOutcome true (Some (Json.dumps false 0 tabs_without_reference))).
Proof. split; reflexivity. Qed.

(** C2, as the scripts have it.  For a document without a group (a tab,
    for [build_api_docs.py]) named "API Reference", whose navigation is
    absent or has the shape the script reads, the merger raises nothing:
    it writes the document with its content unchanged and returns [True];
    no section is added. *)
Theorem merge_without_reference_rewrites_the_document
    (doc : json) (navigation : list json) :
  (lacks_group doc = true ->
   organize_modules.merged doc navigation = Ok doc
   /\ organize_modules.update_mint_json (Some doc) navigation
      = Ok (MergeOutcome true (Some (Json.dumps true 0 doc))))
  /\ (lacks_tab doc = true ->
      build_api_docs.merged doc navigation = Ok doc
      /\ build_api_docs.update_mint_json (Some doc) navigation
         = Ok (MergeOutcome true (Some (Json.dumps false 0 doc)))).
Proof.
  split.
  - intros H.
    assert (M : organize_modules.merged doc navigation = Ok doc).
    { destruct doc as [| | | | |d]; try discriminate.
      unfold organize_modules.merged. simpl in *.
      destruct (Dict.get "navigation" d) as [[| | | |groups|]|]; try discriminate.
      - simpl. now rewrite (update_groups_none _ _ H).
      - reflexivity. }
    split; [exact M|]. unfold organize_modules.update_mint_json.
    now rewrite M.
  - intros H.
    assert (M : build_api_docs.merged doc navigation = Ok doc).
    { destruct doc as [| | | | |d]; try discriminate.
      unfold build_api_docs.merged. simpl in *.
      destruct (Dict.get "navigation" d) as [[| | | | |nav]|]; try discriminate.
      - simpl.
        destruct (Dict.get "tabs" nav) as [[| | | |tabs|]|]; try discriminate.
        + simpl. now rewrite (update_tabs_none _ _ H).
        + reflexivity.
      - reflexivity. }
    split; [exact M|]. unfold build_api_docs.update_mint_json.
    now rewrite M.
Qed.

Lemma merge_without_reference_rewrites_the_document_witness :
  lacks_group site_without_reference = true
  /\ organize_modules.update_mint_json (Some site_without_reference)
       [JStr "reference/camel"]
     = Ok (MergeOutcome true (Some (Json.dumps true 0 site_without_reference)))
  /\ lacks_tab tabs_without_reference = true
  /\ build_api_docs.update_mint_json (Some tabs_without_reference)
       [JStr "reference/camel"]
     = Ok (MergeOutcome true (Some (Json.dumps false 0 tabs_without_reference))).
Proof.
  split; [reflexivity|].
  split.
  { exact (proj2 (proj1 (merge_without_reference_rewrites_the_document
                           site_without_reference [JStr "reference/camel"])
                    eq_refl)). }
  split; [reflexivity|].
  exact (proj2 (proj2 (merge_without_reference_rewrites_the_document
                         tabs_without_reference [JStr "reference/camel"])
                  eq_refl)).
Defined.

(** ** Text outside ASCII *)

(** C9. For [site_with_reference], whose name [cafe] ends with the code
    point 233, the merger of [organize_modules.py] replaces the pages of
    the group and writes the name as [cafe_escaped], with an escape in
    place of the character, while the merger of [build_api_docs.py]
    writes the character itself for [tabs_with_reference]. *)
Theorem organize_modules_escapes_text_outside_ascii :
  organize_modules.update_mint_json (Some site_with_reference)
    [JStr "reference/camel"]
  = Ok (MergeOutcome true (Some (Json.dumps true 0 site_with_reference_merged)))
  /\ is_substring cafe_escaped (Json.dumps true 0 site_with_reference_merged) = true
  /\ is_substring cafe (Json.dumps true 0 site_with_reference_merged) = false
  /\ build_api_docs.update_mint_json (Some tabs_with_reference)
       [JStr "reference/camel"]
     = Ok (MergeOutcome true (Some (Json.dumps false 0 tabs_with_reference_merged)))
  /\ is_substring cafe (Json.dumps false 0 tabs_with_reference_merged) = true.
Proof. repeat split; vm_compute; reflexivity. Qed.

(** * Further properties of the scripts *)

(** ** Module paths *)

Lemma split_not_nil (sep : ascii) (s : string) : Py.split sep s <> [].
Proof.
  induction s as [|c s IH]; simpl; [discriminate|].
  destruct (Ascii.eqb c sep); [discriminate|].
  destruct (Py.split sep s); discriminate.
Qed.

Lemma camel_prefix (s : string) :
  Py.startswith "camel." s = true -> exists r, s = "camel." +:+ r.
Proof.
  unfold Py.startswith. intros H.
  do 6 (destruct s as [|? s]; [discriminate|];
        simpl in H;
        match type of H with
        | (if ?d then _ else _) = true => destruct d as [<-|]; [|discriminate]
        end).
  now exists s.
Qed.

Lemma camel_split (r : string) :
  Py.split "." ("camel." +:+ r) = "camel" :: Py.split "." r.
Proof. reflexivity. Qed.

Lemma valid_has_two_parts (s : string) :
  Py.startswith "camel." s = true -> 2 <= List.length (Py.split "." s).
Proof.
  intros H. destruct (camel_prefix s H) as [r ->]. rewrite camel_split.
  pose proof (split_not_nil "." r) as N.
  destruct (Py.split "." r); [congruence|simpl; lia].
Qed.

Lemma file_target_iff (file : string) (q : list string) (front : bool) (pg : string) :
  file_target file = Some (q, front, pg)
  <-> Py.startswith "camel." (Py.name_stem file) = true
      /\ pg = "reference/" +:+ Py.name_stem file
      /\ q = List.tl (Py.but_last (Py.split "." (Py.name_stem file)))
      /\ front = String.eqb (Py.last_part (Py.split "." (Py.name_stem file)))
                   (Py.last_part (Py.but_last (Py.split "." (Py.name_stem file)))).
Proof.
  unfold file_target.
  destruct (Py.startswith "camel." (Py.name_stem file)) eqn:E; simpl.
  - pose proof (valid_has_two_parts _ E) as L.
    destruct (Nat.eqb_spec (List.length (Py.split "." (Py.name_stem file))) 1); [lia|].
    split.
    + intros [= <- <- <-]. now repeat split.
    + intros (_ & -> & -> & ->). reflexivity.
  - split; [discriminate|]. intros (H & _). discriminate.
Qed.

(** ** What the builder stores *)

Lemma fold_add_file_origin_new (files : list string) (q : list string) (pg : string) :
  In pg (pages_at q (build_module_tree files)) <->
  exists file front, In file files /\ file_target file = Some (q, front, pg).
Proof.
  split; [apply build_origin|].
  intros (file & front & Hin & Ht). unfold build_module_tree.
  eapply fold_add_file_stores; eauto.
Qed.

Lemma pages_at_built_tree (files : list string)
    (q : list string) (pg : string) :
  In pg (pages_at q (build_module_tree files))
  <-> exists file,
        In file files
        /\ Py.startswith "camel." (Py.name_stem file) = true
        /\ pg = "reference/" +:+ Py.name_stem file
        /\ q = List.tl (Py.but_last (Py.split "." (Py.name_stem file))).
Proof.
  rewrite fold_add_file_origin_new. split.
  - intros (file & front & Hin & Ht). apply file_target_iff in Ht.
    exists file. tauto.
  - intros (file & Hin & Hs & Hp & Hq).
    exists file,
      (String.eqb (Py.last_part (Py.split "." (Py.name_stem file)))
         (Py.last_part (Py.but_last (Py.split "." (Py.name_stem file))))).
    split; [exact Hin|]. apply file_target_iff. tauto.
Qed.

(** The pages of the node at [q] of the built tree are the pages
    ["reference/" + module_path] of the files whose module path starts with
    ["camel."] and whose segments between the first and the last are [q];
    no other file reaches the node. *)
Theorem builder_stores_each_page_at_its_path (files : list string)
    (q : list string) (pg : string) :
  In pg (pages_at q (build_module_tree files))
  <-> exists file,
        In file files
        /\ Py.startswith "camel." (Py.name_stem file) = true
        /\ pg = "reference/" +:+ Py.name_stem file
        /\ q = List.tl (Py.but_last (Py.split "." (Py.name_stem file))).
Proof. apply pages_at_built_tree. Qed.

Lemma add_file_skipped (t : module_dict) (file : string) :
  Py.startswith "camel." (Py.name_stem file) = false -> add_file t file = t.
Proof. intros H. unfold add_file. now rewrite H. Qed.

(** A file whose module path does not start with ["camel."] leaves the
    tree as it is, wherever it stands in the list: the tree of a list of
    files is the tree of the files that pass the test. *)
Theorem builder_ignores_other_files (files : list string) :
  build_module_tree files
  = build_module_tree
      (List.filter (fun file => Py.startswith "camel." (Py.name_stem file)) files).
Proof.
  unfold build_module_tree. generalize new_module_dict.
  induction files as [|f files IH]; intros t; [reflexivity|].
  cbn [List.filter fold_left].
  destruct (Py.startswith "camel." (Py.name_stem f)) eqn:E.
  - apply IH.
  - rewrite (add_file_skipped _ _ E). apply IH.
Qed.

(** One file changes one node: a directory file, whose last two segments
    are equal, goes to the front of the pages of its node and any other
    file to the end, and the pages of every other node stay as they are. *)
Theorem add_file_changes_one_node (t : module_dict) (file : string) (q : list string) :
  Py.startswith "camel." (Py.name_stem file) = true ->
  let parts := Py.split "." (Py.name_stem file) in
  let page := "reference/" +:+ Py.name_stem file in
  pages_at q (add_file t file)
  = if decide (q = List.tl (Py.but_last parts)) then
      if String.eqb (Py.last_part parts) (Py.last_part (Py.but_last parts))
      then page :: pages_at q t
      else pages_at q t ++ [page]
    else pages_at q t.
Proof.
  intros H parts page. rewrite add_file_pages_at.
  destruct (file_target file) as [[[path front] pg]|] eqn:Et.
  - apply file_target_iff in Et. destruct Et as (_ & -> & -> & ->).
    fold parts. destruct (decide (q = List.tl (Py.but_last parts))); [|reflexivity].
    unfold add_page. now destruct (String.eqb _ _).
  - unfold file_target in Et. rewrite H in Et. simpl in Et.
    destruct (_ =? 1)%nat; discriminate.
Qed.

Lemma add_file_changes_one_node_witness :
  Py.startswith "camel." (Py.name_stem "camel.agents.agents.mdx") = true
  /\ pages_at ["agents"]
       (add_file (build_module_tree ["camel.agents.chat_agent.mdx"])
          "camel.agents.agents.mdx")
     = ["reference/camel.agents.agents"; "reference/camel.agents.chat_agent"].
Proof.
  split; [reflexivity|].
  exact (add_file_changes_one_node
           (build_module_tree ["camel.agents.chat_agent.mdx"])
           "camel.agents.agents.mdx" ["agents"] eq_refl).
Defined.

(** ** Which pages are rendered *)

Lemma page_refs_in_convert (t : module_dict) (p : string) :
  In p (page_refs (JArr (build_api_docs.convert_tree_to_navigation t)))
  <-> (p = "reference/camel" /\ has_camel_page (pages t) = true)
      \/ exists c, In c build_api_docs.MODULE_ORDER
                   /\ (In p (pages_at [c] t) \/ exists k, In p (pages_at [c; k] t)).
Proof.
  unfold build_api_docs.convert_tree_to_navigation.
  rewrite page_refs_app, in_app_iff, page_refs_flat_map, in_flat_map.
  assert (G : forall c,
    In p (page_refs (JArr (build_api_docs.render_module t c)))
    <-> In p (pages_at [c] t) \/ exists k, In p (pages_at [c; k] t)).
  { intros c. rewrite page_refs_render_module, pages_at_one.
    destruct (submodules t !! c) as [s|] eqn:E.
    - rewrite in_group_pages. unfold pages_at. simpl. rewrite E. reflexivity.
    - unfold pages_at. simpl. rewrite E. simpl. split; [tauto|].
      intros [[]|[k []]]. }
  split.
  - intros [H|(c & Hc & H)].
    + left. destruct (has_camel_page (pages t)); simpl in H; [|destruct H].
      destruct H as [<-|[]]. now split.
    + right. exists c. split; [exact Hc|]. now apply G.
  - intros [[-> H]|(c & Hc & H)].
    + left. rewrite H. now left.
    + right. exists c. split; [exact Hc|]. now apply G.
Qed.

Lemma but_last_two (x y : string) (l : list string) :
  Py.but_last (x :: y :: l) = x :: Py.but_last (y :: l).
Proof. reflexivity. Qed.

(** The path of a module path and its segments. *)
Lemma path_of_parts (parts : list string) :
  2 <= List.length parts ->
  List.length (List.tl (Py.but_last parts)) = List.length parts - 2
  /\ (3 <= List.length parts ->
      List.nth 0 (List.tl (Py.but_last parts)) EmptyString
      = List.nth 1 parts EmptyString).
Proof.
  intros H. split.
  - rewrite length_tl, length_but_last. lia.
  - intros H3. destruct parts as [|a [|b [|x l]]]; simpl in H3; try lia.
    rewrite !but_last_two. reflexivity.
Qed.

(** A file of the list whose module path starts with ["camel."] has its
    page in the navigation of both scripts exactly when the path has three
    or four segments and its second segment is a category of the order
    table.  So the page of a package such as [camel.agents], of two
    segments, is never rendered, nor a page under a category that the table
    does not list. *)
Theorem rendered_pages_are_curated (files : list string) (file : string) :
  In file files ->
  Py.startswith "camel." (Py.name_stem file) = true ->
  let parts := Py.split "." (Py.name_stem file) in
  let page := "reference/" +:+ Py.name_stem file in
  (In page (page_refs (JArr (organize_modules.convert_tree_to_navigation
                               (build_module_tree files))))
   <-> (List.length parts = 3 \/ List.length parts = 4)
       /\ In (List.nth 1 parts EmptyString) build_api_docs.MODULE_ORDER)
  /\ (In page (page_refs (JArr (build_api_docs.convert_tree_to_navigation
                                  (build_module_tree files))))
      <-> (List.length parts = 3 \/ List.length parts = 4)
          /\ In (List.nth 1 parts EmptyString) build_api_docs.MODULE_ORDER).
Proof.
  intros Hin Hs parts page. rewrite convert_same.
  assert (G : In page (page_refs (JArr (build_api_docs.convert_tree_to_navigation
                                  (build_module_tree files))))
      <-> (List.length parts = 3 \/ List.length parts = 4)
          /\ In (List.nth 1 parts EmptyString) build_api_docs.MODULE_ORDER);
    [|now split].
  pose proof (valid_has_two_parts _ Hs) as L2. fold parts in L2.
  destruct (path_of_parts parts L2) as [PL PN].
  rewrite page_refs_in_convert. split.
  - intros [[H _]|(c & Hc & H)].
    + apply (reference_inj _ "camel") in H. rewrite H in Hs. discriminate.
    + assert (Hq : exists q, (q = [c] \/ exists k, q = [c; k])
                            /\ In page (pages_at q (build_module_tree files))).
      { destruct H as [H|[k H]]; eauto. }
      destruct Hq as (q & Hq & Hp).
      apply pages_at_built_tree in Hp.
      destruct Hp as (f & _ & _ & Hpg & Hpath).
      apply reference_inj in Hpg. rewrite <- Hpg in Hpath. fold parts in Hpath.
      rewrite <- Hpath in PL, PN.
      destruct Hq as [->|[k ->]]; simpl in PL, PN.
      * split; [left; lia|]. rewrite <- PN by lia. exact Hc.
      * split; [right; lia|]. rewrite <- PN by lia. exact Hc.
  - intros [Hl Hc]. right. exists (List.nth 1 parts EmptyString).
    split; [exact Hc|].
    assert (Hst : In page (pages_at (List.tl (Py.but_last parts))
                            (build_module_tree files))).
    { apply pages_at_built_tree. exists file. now repeat split. }
    rewrite <- PN by lia.
    destruct (List.tl (Py.but_last parts)) as [|c [|k [|z q]]] eqn:Eq;
      simpl in PL; try lia.
    + now left.
    + right. now exists k.
Qed.

Lemma rendered_pages_are_curated_witness :
  In "camel.agents.mdx" ["camel.agents.mdx"; "camel.agents.chat_agent.mdx"]
  /\ Py.startswith "camel." (Py.name_stem "camel.agents.mdx") = true
  /\ ~ In "reference/camel.agents"
         (page_refs (JArr (organize_modules.convert_tree_to_navigation
            (build_module_tree ["camel.agents.mdx"; "camel.agents.chat_agent.mdx"])))).
Proof.
  assert (Hin : In "camel.agents.mdx"
                  ["camel.agents.mdx"; "camel.agents.chat_agent.mdx"])
    by (simpl; auto).
  split; [exact Hin|]. split; [reflexivity|].
  intros H.
  apply (proj1 (rendered_pages_are_curated
                  ["camel.agents.mdx"; "camel.agents.chat_agent.mdx"]
                  "camel.agents.mdx" Hin eq_refl)) in H.
  destruct H as [[H|H] _]; vm_compute in H; discriminate.
Defined.

(** ** The order of the groups *)

Lemma render_module_names (t : module_dict) (c : string) :
  group_names (build_api_docs.render_module t c) = []
  \/ group_names (build_api_docs.render_module t c)
     = [JStr (get_module_display_name c)].
Proof.
  unfold build_api_docs.render_module.
  destruct (submodules t !! c) as [s|]; [|now left].
  destruct (group_pages s); [now left|now right].
Qed.

Lemma group_names_app (l1 l2 : list json) :
  group_names (l1 ++ l2) = group_names l1 ++ group_names l2.
Proof. apply List.flat_map_app. Qed.

Lemma group_names_order (t : module_dict) (order : list string) :
  sublist (group_names (List.flat_map (build_api_docs.render_module t) order))
          (List.map (fun c => JStr (get_module_display_name c)) order).
Proof.
  induction order as [|c order IH]; [constructor|].
  cbn [List.flat_map List.map]. rewrite group_names_app.
  destruct (render_module_names t c) as [-> | ->]; simpl.
  - now apply sublist_cons.
  - now apply sublist_skip.
Qed.

Lemma display_names_differ :
  List.NoDup (List.map (fun c => JStr (get_module_display_name c))
                build_api_docs.MODULE_ORDER).
Proof.
  vm_compute.
  repeat (apply List.NoDup_cons; [simpl; intuition discriminate|]).
  apply List.NoDup_nil.
Qed.

Lemma render_module_sizes (t : module_dict) (c : string) :
  List.Forall (fun e => group_size e <> Some 0) (build_api_docs.render_module t c).
Proof.
  unfold build_api_docs.render_module.
  destruct (submodules t !! c) as [s|]; [|constructor].
  destruct (group_pages s); constructor; [|constructor]. discriminate.
Qed.

(** The groups of the navigation come in the order of the order table, at
    most one for a category, so that no two groups have the same name,
    and no group is empty. *)
Theorem groups_follow_the_order_table (t : module_dict) :
  (sublist (group_names (organize_modules.convert_tree_to_navigation t))
     (List.map (fun c => JStr (get_module_display_name c))
        build_api_docs.MODULE_ORDER)
   /\ List.NoDup (group_names (organize_modules.convert_tree_to_navigation t))
   /\ List.Forall (fun e => group_size e <> Some 0)
        (organize_modules.convert_tree_to_navigation t))
  /\ (sublist (group_names (build_api_docs.convert_tree_to_navigation t))
        (List.map (fun c => JStr (get_module_display_name c))
           build_api_docs.MODULE_ORDER)
      /\ List.NoDup (group_names (build_api_docs.convert_tree_to_navigation t))
      /\ List.Forall (fun e => group_size e <> Some 0)
           (build_api_docs.convert_tree_to_navigation t)).
Proof.
  rewrite convert_same.
  assert (S : sublist (group_names (build_api_docs.convert_tree_to_navigation t))
     (List.map (fun c => JStr (get_module_display_name c))
        build_api_docs.MODULE_ORDER)).
  { unfold build_api_docs.convert_tree_to_navigation. rewrite group_names_app.
    replace (group_names (if has_camel_page (pages t)
                          then [JStr "reference/camel"] else [])) with (@nil json)
      by now destruct (has_camel_page (pages t)).
    apply group_names_order. }
  assert (G : sublist (group_names (build_api_docs.convert_tree_to_navigation t))
     (List.map (fun c => JStr (get_module_display_name c))
        build_api_docs.MODULE_ORDER)
   /\ List.NoDup (group_names (build_api_docs.convert_tree_to_navigation t))
   /\ List.Forall (fun e => group_size e <> Some 0)
        (build_api_docs.convert_tree_to_navigation t)); [|now split].
  split; [exact S|]. split.
  - apply NoDup_ListNoDup. eapply sublist_NoDup; [|exact S].
    apply NoDup_ListNoDup, display_names_differ.
  - unfold build_api_docs.convert_tree_to_navigation.
    apply List.Forall_app. split.
    + destruct (has_camel_page (pages t)); constructor; [discriminate|constructor].
    + apply List.Forall_flat_map, List.Forall_forall. intros c _.
      apply render_module_sizes.
Qed.

(** ** File names and module paths *)

Lemma rfind_app (c : ascii) (a b : string) :
  Py.rfind c (a +:+ b)
  = match Py.rfind c b with
    | Some i => Some (String.length a + i)
    | None => Py.rfind c a
    end.
Proof.
  induction a as [|x a IH].
  - change (EmptyString +:+ b) with b. destruct (Py.rfind c b); reflexivity.
  - change (String x a +:+ b) with (String x (a +:+ b)).
    cbn [Py.rfind]. rewrite IH. destruct (Py.rfind c b); reflexivity.
Qed.

Lemma substring_prefix (a b : string) :
  substring 0 (String.length a) (a +:+ b) = a.
Proof. induction a as [|x a IH]; simpl; [now destruct b|now rewrite IH]. Qed.

Lemma substring_all (b : string) : substring 0 (String.length b) b = b.
Proof. induction b as [|y b IHb]; simpl; [reflexivity|now rewrite IHb]. Qed.

Lemma substring_suffix (a b : string) :
  substring (String.length a) (String.length b) (a +:+ b) = b.
Proof.
  induction a as [|x a IH]; [apply substring_all|exact IH].
Qed.

Lemma length_append (a b : string) :
  String.length (a +:+ b) = String.length a + String.length b.
Proof. induction a as [|x a IH]; simpl; [reflexivity|now rewrite IH]. Qed.

(** The stem of the file [m.mdx] is [m]. *)
Lemma stem_of_mdx (m : string) : m <> EmptyString -> Py.name_stem (m +:+ ".mdx") = m.
Proof.
  intros Hm. unfold Py.name_stem. rewrite rfind_app.
  change (Py.rfind "." ".mdx") with (Some 0). cbv iota.
  rewrite length_append, Nat.add_0_r.
  change (String.length ".mdx") with 4.
  assert (L : 0 < String.length m) by (destruct m; [congruence|simpl; lia]).
  replace (0 <? String.length m)%nat with true by (symmetry; now apply Nat.ltb_lt).
  replace (String.length m <? String.length m + 4 - 1)%nat with true
    by (symmetry; apply Nat.ltb_lt; lia).
  cbn [andb]. apply substring_prefix.
Qed.

Lemma split_without_separator (sep : ascii) (s : string) :
  Py.rfind sep s = None -> Py.split sep s = [s].
Proof.
  induction s as [|c s IH]; simpl; [reflexivity|].
  destruct (Py.rfind sep s); [discriminate|].
  destruct (Ascii.eqb c sep); [discriminate|].
  intros _. now rewrite IH.
Qed.

(** The stem that the renderer reads from the page of a package. *)
Lemma stem_of_package_page (x : string) :
  x <> EmptyString -> Py.rfind "." x = None -> Py.rfind "/" x = None ->
  Py.path_stem ("reference/camel." +:+ x) = "camel".
Proof.
  intros Hx Hdot Hslash.
  assert (L : 0 < String.length x) by (destruct x; [congruence|simpl; lia]).
  unfold Py.path_stem, Py.path_name.
  rewrite rfind_app, Hslash.
  change (Py.rfind "/" "reference/camel.") with (Some 9). cbv iota.
  change ("reference/camel." +:+ x) with ("reference/" +:+ ("camel." +:+ x)).
  replace (String.length ("reference/" +:+ ("camel." +:+ x)) - 10)
    with (String.length ("camel." +:+ x))
    by (rewrite !length_append; simpl; lia).
  pose proof (substring_suffix "reference/" ("camel." +:+ x)) as E.
  change (String.length "reference/") with 10 in E. rewrite E. clear E.
  unfold Py.name_stem. rewrite rfind_app, Hdot.
  change (Py.rfind "." "camel.") with (Some 5).
  rewrite length_append. change (String.length "camel.") with 6.
  replace (5 <? 6 + String.length x - 1)%nat with true
    by (symmetry; apply Nat.ltb_lt; lia).
  reflexivity.
Qed.


(** ** The root entry *)

Lemma startswith_camel (x : string) : Py.startswith "camel." ("camel." +:+ x) = true.
Proof.
  unfold Py.startswith. apply prefix_correct.
  exact (substring_prefix "camel." x).
Qed.

(** As soon as the list holds the file of a package, [camel.x.mdx] with a
    name [x] that is not empty and has no dot and no slash, the navigation
    of both scripts starts with the bare page ["reference/camel"]: the page
    of the package is stored at the root and its stem is ["camel"].  This
    does not depend on the presence of [camel.mdx]. *)
Theorem root_entry_comes_from_a_package_page (files : list string) (x : string) :
  In (("camel." +:+ x) +:+ ".mdx") files ->
  x <> EmptyString -> Py.rfind "." x = None -> Py.rfind "/" x = None ->
  In ("reference/camel." +:+ x) (pages (build_module_tree files))
  /\ (exists rest, organize_modules.convert_tree_to_navigation (build_module_tree files)
                   = JStr "reference/camel" :: rest)
  /\ (exists rest, build_api_docs.convert_tree_to_navigation (build_module_tree files)
                   = JStr "reference/camel" :: rest).
Proof.
  intros Hin Hx Hdot Hslash.
  assert (Hstem : Py.name_stem (("camel." +:+ x) +:+ ".mdx") = "camel." +:+ x).
  { apply stem_of_mdx. discriminate. }
  assert (Hpage : In ("reference/camel." +:+ x) (pages (build_module_tree files))).
  { change (pages (build_module_tree files))
      with (pages_at [] (build_module_tree files)).
    apply pages_at_built_tree.
    exists (("camel." +:+ x) +:+ ".mdx"). rewrite Hstem.
    split; [exact Hin|]. split; [apply startswith_camel|]. split; [reflexivity|].
    rewrite camel_split, (split_without_separator _ _ Hdot). reflexivity. }
  split; [exact Hpage|]. rewrite convert_same.
  assert (Hc : has_camel_page (pages (build_module_tree files)) = true).
  { unfold has_camel_page. apply List.existsb_exists.
    exists ("reference/camel." +:+ x). split; [exact Hpage|].
    now rewrite (stem_of_package_page x Hx Hdot Hslash). }
  unfold build_api_docs.convert_tree_to_navigation. rewrite Hc.
  split; eexists; reflexivity.
Qed.

Lemma root_entry_comes_from_a_package_page_witness :
  In (("camel." +:+ "agents") +:+ ".mdx") ["camel.agents.mdx"]
  /\ "agents" <> EmptyString
  /\ Py.rfind "." "agents" = None /\ Py.rfind "/" "agents" = None
  /\ exists rest, organize_modules.convert_tree_to_navigation
                    (build_module_tree ["camel.agents.mdx"])
                  = JStr "reference/camel" :: rest.
Proof.
  assert (Hin : In (("camel." +:+ "agents") +:+ ".mdx") ["camel.agents.mdx"])
    by (simpl; auto).
  assert (Hx : "agents" <> EmptyString) by discriminate.
  split; [exact Hin|]. split; [exact Hx|]. split; [reflexivity|].
  split; [reflexivity|].
  exact (proj1 (proj2 (root_entry_comes_from_a_package_page
                         ["camel.agents.mdx"] "agents" Hin Hx eq_refl eq_refl))).
Defined.

(** ** Merging into a document that has the section *)

Lemma update_groups_found (navigation before after : list json)
    (g : list (string * json)) :
  none_named "group" before = true ->
  is_api_reference (Dict.get "group" g) = true ->
  organize_modules.update_groups navigation (before ++ JObj g :: after)
  = Ok (Some (before ++ JObj (Dict.set "pages" (JArr navigation) g) :: after)).
Proof.
  intros Hb Hg. induction before as [|x before IH].
  - simpl. now rewrite Hg.
  - simpl in Hb. apply andb_prop in Hb. destruct Hb as [Hx Hb].
    destruct x as [| | | | |d]; try discriminate.
    apply negb_true_iff in Hx.
    cbn [app organize_modules.update_groups py_get bind].
    rewrite Hx, (IH Hb). reflexivity.
Qed.

Lemma update_tabs_found (navigation before after : list json)
    (t : list (string * json)) :
  none_named "tab" before = true ->
  is_api_reference (Dict.get "tab" t) = true ->
  build_api_docs.update_tabs navigation (before ++ JObj t :: after)
  = Ok (Some (before ++ JObj (Dict.set "groups" (JArr navigation) t) :: after)).
Proof.
  intros Hb Ht. induction before as [|x before IH].
  - simpl. now rewrite Ht.
  - simpl in Hb. apply andb_prop in Hb. destruct Hb as [Hx Hb].
    destruct x as [| | | | |d]; try discriminate.
    apply negb_true_iff in Hx.
    cbn [app build_api_docs.update_tabs py_get bind].
    rewrite Hx, (IH Hb). reflexivity.
Qed.

Lemma organize_modules_merged_found (d : list (string * json))
    (navigation before after : list json) (g : list (string * json)) :
  Dict.get "navigation" d = Some (JArr (before ++ JObj g :: after)) ->
  none_named "group" before = true ->
  is_api_reference (Dict.get "group" g) = true ->
  organize_modules.merged (JObj d) navigation
  = Ok (JObj (Dict.set "navigation"
                (JArr (before ++ JObj (Dict.set "pages" (JArr navigation) g) :: after))
                d)).
Proof.
  intros Hn Hb Hg. unfold organize_modules.merged. cbn [py_get bind].
  rewrite Hn. simpl (default _ _). cbn [py_iter bind].
  now rewrite (update_groups_found _ _ _ _ Hb Hg).
Qed.

Lemma build_api_docs_merged_found (d nav : list (string * json))
    (navigation before after : list json) (t : list (string * json)) :
  Dict.get "navigation" d = Some (JObj nav) ->
  Dict.get "tabs" nav = Some (JArr (before ++ JObj t :: after)) ->
  none_named "tab" before = true ->
  is_api_reference (Dict.get "tab" t) = true ->
  build_api_docs.merged (JObj d) navigation
  = Ok (JObj (Dict.set "navigation"
                (JObj (Dict.set "tabs"
                         (JArr (before ++
                                JObj (Dict.set "groups" (JArr navigation) t) :: after))
                         nav))
                d)).
Proof.
  intros Hn Ht Hb Hg. unfold build_api_docs.merged. cbn [py_get bind].
  rewrite Hn. simpl (default _ _). cbn [py_get bind].
  rewrite Ht. simpl (default _ _). cbn [py_iter bind].
  now rewrite (update_tabs_found _ _ _ _ Hb Hg).
Qed.

(** The merger of [organize_modules.py] returns a document different from
    the one it read exactly as follows: the navigation is a list, the
    first of its groups named "API Reference" has its ["pages"] replaced
    by the rendered navigation, and the groups before and after it, also
    later ones of the same name, are those of the document. *)
Theorem organize_modules_replaces_the_pages_of_the_first_reference_group
    (doc doc' : json) (navigation : list json) :
  organize_modules.merged doc navigation = Ok doc' ->
  doc' = doc
  \/ exists d before g after,
       doc = JObj d
       /\ Dict.get "navigation" d = Some (JArr (before ++ JObj g :: after))
       /\ none_named "group" before = true
       /\ is_api_reference (Dict.get "group" g) = true
       /\ doc' = JObj (Dict.set "navigation"
                         (JArr (before ++
                                JObj (Dict.set "pages" (JArr navigation) g) :: after))
                         d).
Proof. apply organize_modules_merged_frame. Qed.

Lemma organize_modules_replaces_the_pages_of_the_first_reference_group_witness :
  organize_modules.merged site_with_reference [JStr "reference/camel"]
  = Ok site_with_reference_merged
  /\ (site_with_reference_merged = site_with_reference
      \/ exists d before g after,
           site_with_reference = JObj d
           /\ Dict.get "navigation" d = Some (JArr (before ++ JObj g :: after))
           /\ none_named "group" before = true
           /\ is_api_reference (Dict.get "group" g) = true
           /\ site_with_reference_merged
              = JObj (Dict.set "navigation"
                        (JArr (before ++
                               JObj (Dict.set "pages"
                                       (JArr [JStr "reference/camel"]) g) :: after))
                        d)).
Proof.
  split; [reflexivity|].
  exact (organize_modules_replaces_the_pages_of_the_first_reference_group
           site_with_reference site_with_reference_merged
           [JStr "reference/camel"] eq_refl).
Defined.

(** The same for [build_api_docs.py], which replaces the ["groups"] of the
    first tab named "API Reference" under the ["tabs"] of the navigation. *)
Theorem build_api_docs_replaces_the_groups_of_the_first_reference_tab
    (doc doc' : json) (navigation : list json) :
  build_api_docs.merged doc navigation = Ok doc' ->
  doc' = doc
  \/ exists d nav before t after,
       doc = JObj d
       /\ Dict.get "navigation" d = Some (JObj nav)
       /\ Dict.get "tabs" nav = Some (JArr (before ++ JObj t :: after))
       /\ none_named "tab" before = true
       /\ is_api_reference (Dict.get "tab" t) = true
       /\ doc' = JObj (Dict.set "navigation"
                         (JObj (Dict.set "tabs"
                                  (JArr (before ++
                                         JObj (Dict.set "groups" (JArr navigation) t)
                                         :: after))
                                  nav))
                         d).
Proof. apply build_api_docs_merged_frame. Qed.

Lemma build_api_docs_replaces_the_groups_of_the_first_reference_tab_witness :
  build_api_docs.merged tabs_with_reference [JStr "reference/camel"]
  = Ok tabs_with_reference_merged
  /\ (tabs_with_reference_merged = tabs_with_reference
      \/ exists d nav before t after,
           tabs_with_reference = JObj d
           /\ Dict.get "navigation" d = Some (JObj nav)
           /\ Dict.get "tabs" nav = Some (JArr (before ++ JObj t :: after))
           /\ none_named "tab" before = true
           /\ is_api_reference (Dict.get "tab" t) = true
           /\ tabs_with_reference_merged
              = JObj (Dict.set "navigation"
                        (JObj (Dict.set "tabs"
                                 (JArr (before ++
                                        JObj (Dict.set "groups"
                                                (JArr [JStr "reference/camel"]) t)
                                        :: after))
                                 nav))
                        d)).
Proof.
  split; [reflexivity|].
  exact (build_api_docs_replaces_the_groups_of_the_first_reference_tab
           tabs_with_reference tabs_with_reference_merged
           [JStr "reference/camel"] eq_refl).
Defined.

(** In both scripts the merged document has the keys of the document it
    read, in their order, and the values of every key other than
    ["navigation"]. *)
Theorem merge_keeps_the_keys_of_the_document (d d' : list (string * json))
    (navigation : list json) :
  organize_modules.merged (JObj d) navigation = Ok (JObj d')
  \/ build_api_docs.merged (JObj d) navigation = Ok (JObj d') ->
  List.map fst d' = List.map fst d
  /\ forall k, k <> "navigation" -> Dict.get k d' = Dict.get k d.
Proof.
  intros H. exact (merged_keeps_the_other_keys _ _ _ H d d' eq_refl eq_refl).
Qed.

Lemma merge_keeps_the_keys_of_the_document_witness :
  List.map fst
    [("name", JStr cafe);
     ("navigation",
      JArr [JObj [("group", JStr "Get Started"); ("pages", JArr [JStr "intro"])];
            JObj [("group", JStr "API Reference");
                  ("pages", JArr [JStr "reference/camel"])]])]
  = ["name"; "navigation"].
Proof.
  exact (proj1 (merge_keeps_the_keys_of_the_document
                  [("name", JStr cafe);
                   ("navigation",
                    JArr [JObj [("group", JStr "Get Started");
                                ("pages", JArr [JStr "intro"])];
                          JObj [("group", JStr "API Reference"); ("pages", JArr [])]])]
                  _ [JStr "reference/camel"] (or_introl eq_refl))).
Defined.

(** A merge after a merge: the second navigation takes the place of the
    first, as if the first merge had not been made. *)
Theorem merge_overwrites_an_earlier_merge (doc doc1 : json)
    (navigation1 navigation2 : list json) :
  (organize_modules.merged doc navigation1 = Ok doc1 ->
   organize_modules.merged doc1 navigation2 = organize_modules.merged doc navigation2)
  /\ (build_api_docs.merged doc navigation1 = Ok doc1 ->
      build_api_docs.merged doc1 navigation2 = build_api_docs.merged doc navigation2).
Proof.
  split; intros H.
  - apply organize_modules_merged_frame in H.
    destruct H as [->|(d & before & g & after & -> & Hn & Hb & Hg & ->)];
      [reflexivity|].
    rewrite (organize_modules_merged_found d navigation2 before after g Hn Hb Hg).
    rewrite (organize_modules_merged_found _ navigation2 before after
               (Dict.set "pages" (JArr navigation1) g)
               (dict_get_set_same _ _ _) Hb).
    + now rewrite !dict_set_set.
    + now rewrite dict_get_set_other by discriminate.
  - apply build_api_docs_merged_frame in H.
    destruct H as [->|(d & nav & before & t & after & -> & Hn & Ht & Hb & Hg & ->)];
      [reflexivity|].
    rewrite (build_api_docs_merged_found d nav navigation2 before after t Hn Ht Hb Hg).
    rewrite (build_api_docs_merged_found _ _ navigation2 before after
               (Dict.set "groups" (JArr navigation1) t)
               (dict_get_set_same _ _ _) (dict_get_set_same _ _ _) Hb).
    + now rewrite !dict_set_set.
    + now rewrite dict_get_set_other by discriminate.
Qed.

Lemma merge_overwrites_an_earlier_merge_witness :
  organize_modules.merged site_with_reference [JStr "reference/old"]
  = Ok (JObj [("name", JStr cafe);
              ("navigation",
               JArr [JObj [("group", JStr "Get Started"); ("pages", JArr [JStr "intro"])];
                     JObj [("group", JStr "API Reference");
                           ("pages", JArr [JStr "reference/old"])]])])
  /\ organize_modules.merged
       (JObj [("name", JStr cafe);
              ("navigation",
               JArr [JObj [("group", JStr "Get Started"); ("pages", JArr [JStr "intro"])];
                     JObj [("group", JStr "API Reference");
                           ("pages", JArr [JStr "reference/old"])]])])
       [JStr "reference/camel"]
     = organize_modules.merged site_with_reference [JStr "reference/camel"].
Proof.
  split; [reflexivity|].
  exact (proj1 (merge_overwrites_an_earlier_merge site_with_reference _
                  [JStr "reference/old"] [JStr "reference/camel"]) eq_refl).
Defined.

(** ** Documents that the merger cannot read *)

Lemma update_groups_not_an_object (navigation before after : list json) (x : json) :
  none_named "group" before = true ->
  (forall g, x <> JObj g) ->
  organize_modules.update_groups navigation (before ++ x :: after)
  = Raise AttributeError.
Proof.
  intros Hb Hx. induction before as [|y before IH].
  - destruct x as [| | | | |g]; try reflexivity. now destruct (Hx g).
  - simpl in Hb. apply andb_prop in Hb. destruct Hb as [Hy Hb].
    destruct y as [| | | | |d]; try discriminate.
    apply negb_true_iff in Hy.
    cbn [app organize_modules.update_groups py_get bind].
    rewrite Hy, (IH Hb). reflexivity.
Qed.

(** The merger of [organize_modules.py] raises [AttributeError], before
    the file is opened for writing, when it meets an entry that is not an
    object, a bare page for one, ahead of any group named "API Reference";
    and each of the two scripts raises it on the layout of the other: a
    navigation that is a list, for [build_api_docs.py], and a navigation
    that is an object with a key, for [organize_modules.py]. *)
Theorem merge_raises_on_a_layout_it_does_not_read
    (d : list (string * json)) (navigation : list json) :
  (forall before x after,
     Dict.get "navigation" d = Some (JArr (before ++ x :: after)) ->
     none_named "group" before = true ->
     (forall g, x <> JObj g) ->
     organize_modules.update_mint_json (Some (JObj d)) navigation
     = Raise AttributeError)
  /\ (forall groups,
        Dict.get "navigation" d = Some (JArr groups) ->
        build_api_docs.update_mint_json (Some (JObj d)) navigation
        = Raise AttributeError)
  /\ (forall key value nav,
        Dict.get "navigation" d = Some (JObj ((key, value) :: nav)) ->
        organize_modules.update_mint_json (Some (JObj d)) navigation
        = Raise AttributeError).
Proof.
  split; [|split].
  - intros before x after Hn Hb Hx.
    unfold organize_modules.update_mint_json, organize_modules.merged.
    cbn [py_get bind]. rewrite Hn. simpl (default _ _). cbn [py_iter bind].
    now rewrite (update_groups_not_an_object _ _ _ _ Hb Hx).
  - intros groups Hn.
    unfold build_api_docs.update_mint_json, build_api_docs.merged.
    cbn [py_get bind]. rewrite Hn. reflexivity.
  - intros key value nav Hn.
    unfold organize_modules.update_mint_json, organize_modules.merged.
    cbn [py_get bind]. rewrite Hn. reflexivity.
Qed.

Lemma merge_raises_on_a_layout_it_does_not_read_witness :
  build_api_docs.update_mint_json (Some site_with_reference) [JStr "reference/camel"]
  = Raise AttributeError
  /\ organize_modules.update_mint_json (Some tabs_with_reference)
       [JStr "reference/camel"]
     = Raise AttributeError.
Proof.
  split.
  - exact (proj1 (proj2 (merge_raises_on_a_layout_it_does_not_read
             [("name", JStr cafe);
              ("navigation",
               JArr [JObj [("group", JStr "Get Started"); ("pages", JArr [JStr "intro"])];
                     JObj [("group", JStr "API Reference"); ("pages", JArr [])]])]
             [JStr "reference/camel"])) _ eq_refl).
  - exact (proj2 (proj2 (merge_raises_on_a_layout_it_does_not_read
             [("name", JStr cafe);
              ("navigation",
               JObj [("tabs", JArr [JObj [("tab", JStr "API Reference");
                                          ("groups", JArr [])]])])]
             [JStr "reference/camel"])) _ _ _ eq_refl).
Defined.

(** ** The text that [organize_modules.py] writes *)

Lemma ascii_text_app (a b : string) :
  ascii_text (a +:+ b) = ascii_text a && ascii_text b.
Proof.
  induction a as [|c a IH]; [reflexivity|].
  change (String c a +:+ b) with (String c (a +:+ b)).
  cbn [ascii_text]. now rewrite IH, andb_assoc.
Qed.

Lemma escape_char_ascii (c : ascii) : ascii_text (Json.escape_char true c) = true.
Proof. destruct c as [[] [] [] [] [] [] [] []]; reflexivity. Qed.

Lemma escape_ascii (s : string) : ascii_text (Json.escape true s) = true.
Proof.
  induction s as [|c s IH]; [reflexivity|].
  cbn [Json.escape]. now rewrite ascii_text_app, escape_char_ascii, IH.
Qed.

Lemma encode_string_ascii (s : string) : ascii_text (Json.encode_string true s) = true.
Proof.
  unfold Json.encode_string. cbn [ascii_text].
  now rewrite ascii_text_app, escape_ascii.
Qed.

Lemma spaces_ascii (n : nat) : ascii_text (Json.spaces n) = true.
Proof. induction n as [|n IH]; [reflexivity|exact IH]. Qed.

Lemma newline_indent_ascii (level : nat) : ascii_text (Json.newline_indent level) = true.
Proof. unfold Json.newline_indent. cbn [ascii_text]. apply spaces_ascii. Qed.

Lemma join_ascii (sep : string) (l : list string) :
  ascii_text sep = true -> List.Forall (fun s => ascii_text s = true) l ->
  ascii_text (Json.join sep l) = true.
Proof.
  intros Hs Hl. induction Hl as [|x l Hx Hl IH]; [reflexivity|].
  destruct l as [|y l]; [exact Hx|].
  change (Json.join sep (x :: y :: l)) with (x +:+ sep +:+ Json.join sep (y :: l)).
  now rewrite !ascii_text_app, Hx, Hs, IH.
Qed.

Lemma uint_ascii (d : Decimal.uint) : ascii_text (NilEmpty.string_of_uint d) = true.
Proof. induction d; simpl; try reflexivity; exact IHd. Qed.

Lemma int_repr_ascii (n : Z) : ascii_text (Json.int_repr n) = true.
Proof.
  unfold Json.int_repr, NilZero.string_of_int, NilZero.string_of_uint.
  destruct (Z.to_int n) as [d|d].
  - destruct d; try reflexivity; apply uint_ascii.
  - cbn [ascii_text]. destruct d; try reflexivity; apply uint_ascii.
Qed.

Lemma dumps_ascii (v : json) : forall level, ascii_text (Json.dumps true level v) = true.
Proof.
  induction v as [| b | n | s | l IH | d IH] using json_rect_nested; intros level.
  - reflexivity.
  - now destruct b.
  - apply int_repr_ascii.
  - apply encode_string_ascii.
  - destruct l as [|x l]; [reflexivity|].
    cbn [Json.dumps]. rewrite !ascii_text_app, !newline_indent_ascii.
    rewrite join_ascii; [reflexivity| |].
    + now rewrite ascii_text_app, newline_indent_ascii.
    + apply List.Forall_map. eapply List.Forall_impl; [|exact IH].
      intros y Hy. apply Hy.
  - destruct d as [|kv d]; [reflexivity|].
    cbn [Json.dumps]. rewrite !ascii_text_app, !newline_indent_ascii.
    rewrite join_ascii; [reflexivity| |].
    + now rewrite ascii_text_app, newline_indent_ascii.
    + apply List.Forall_map. eapply List.Forall_impl; [|exact IH].
      intros y Hy. cbn beta.
      now rewrite !ascii_text_app, encode_string_ascii, Hy.
Qed.

(** Whatever the document and the navigation, the text that
    [organize_modules.update_mint_json] writes has no character outside
    ASCII: its [json.dump] escapes them all. *)
Theorem organize_modules_writes_ascii_only (mint_json : option json)
    (navigation : list json) (outcome : merge_outcome) (text : string) :
  organize_modules.update_mint_json mint_json navigation = Ok outcome ->
  written outcome = Some text ->
  ascii_text text = true.
Proof.
  unfold organize_modules.update_mint_json.
  destruct mint_json as [mint_data|].
  - destruct (organize_modules.merged mint_data navigation) as [doc'|];
      [|discriminate].
    cbn [bind]. intros [= <-]. cbn [written]. intros [= <-]. apply dumps_ascii.
  - intros [= <-]. discriminate.
Qed.

Lemma organize_modules_writes_ascii_only_witness :
  organize_modules.update_mint_json (Some site_with_reference) [JStr cafe]
  = Ok (MergeOutcome true
          (Some (Json.dumps true 0
                   (JObj [("name", JStr cafe);
                          ("navigation",
                           JArr [JObj [("group", JStr "Get Started");
                                       ("pages", JArr [JStr "intro"])];
                                 JObj [("group", JStr "API Reference");
                                       ("pages", JArr [JStr cafe])]])]))))
  /\ ascii_text
       (Json.dumps true 0
          (JObj [("name", JStr cafe);
                 ("navigation",
                  JArr [JObj [("group", JStr "Get Started");
                              ("pages", JArr [JStr "intro"])];
                        JObj [("group", JStr "API Reference");
                              ("pages", JArr [JStr cafe])]])]))
     = true.
Proof.
  split; [reflexivity|].
  exact (organize_modules_writes_ascii_only (Some site_with_reference) [JStr cafe]
           _ _ eq_refl eq_refl).
Defined.

(** ** No empty group is left *)

Lemma no_empty_group_array (items : list json) :
  no_empty_group (JArr items) = List.forallb filled_entry items.
Proof. reflexivity. Qed.

Lemma is_navigation_is_array (v : json) :
  is_navigation v = true -> exists l, v = JArr l.
Proof. destruct v; try discriminate. eauto. Qed.

Lemma non_empty_has_entries (k : string) (d : list (string * json)) (b : bool) :
  (forall v, Dict.get k d = Some v -> is_navigation v = true) ->
  non_empty k d = Ok b -> b = has_entries k d.
Proof.
  intros Hnav. unfold non_empty, has_entries.
  destruct (Dict.get k d) as [v|]; [|now intros [= <-]].
  destruct (is_navigation_is_array v (Hnav v eq_refl)) as [l ->].
  destruct l; simpl; now intros [= <-].
Qed.

Lemma keeps_has_entries (d : list (string * json)) (b : bool) :
  (forall v, Dict.get "pages" d = Some v -> is_navigation v = true) ->
  (forall v, Dict.get "groups" d = Some v -> is_navigation v = true) ->
  prune.keeps d = Ok b -> b = has_entries "pages" d || has_entries "groups" d.
Proof.
  intros Hp Hg. unfold prune.keeps.
  destruct (non_empty "pages" d) as [bp|] eqn:Ep; [|discriminate].
  apply (non_empty_has_entries _ _ _ Hp) in Ep. cbn [bind].
  destruct bp.
  - intros [= <-]. now rewrite <- Ep.
  - intros Eg. apply (non_empty_has_entries _ _ _ Hg) in Eg. now rewrite <- Ep.
Qed.

Lemma forallb_app_true {A} (f : A -> bool) (l1 l2 : list A) :
  List.forallb f l1 = true -> List.forallb f l2 = true ->
  List.forallb f (l1 ++ l2) = true.
Proof. intros H1 H2. now rewrite List.forallb_app, H1, H2. Qed.

Lemma prune_fills_all (errs : list string) (v : json) : prune_fills errs v.
Proof.
  induction v as [| b | n | s | l IH | d IH] using json_rect_nested;
    try (split; discriminate).
  - (* a string *)
    split; [discriminate|]. intros _ kept e. simpl.
    destruct (List.existsb (String.eqb s) errs); intros [= <- <-]; now split.
  - (* a list *)
    split; [|discriminate].
    rewrite is_navigation_array. intros Hnav v' e H.
    apply remove_from_groups_array in H. destruct H as (l' & -> & H).
    rewrite no_empty_group_array, is_navigation_array.
    revert l' e H. induction IH as [|x l Hx _ IHl]; intros l' e H.
    + injection H as <- <-. now split.
    + simpl in Hnav. apply andb_prop in Hnav. destruct Hnav as [Hx1 Hl1].
      simpl in H.
      destruct (prune.entry errs x) as [[kept e1]|] eqn:Ex; [|discriminate].
      destruct (prune.entries errs l) as [[others e2]|] eqn:El; [|discriminate].
      simpl in H. injection H as <- <-.
      destruct (proj2 Hx Hx1 _ _ Ex) as [A1 A2], (IHl Hl1 _ _ eq_refl) as [B1 B2].
      split; now apply forallb_app_true.
  - (* an object *)
    split; [discriminate|].
    intros Hd kept e. simpl in Hd. apply andb_prop in Hd. destruct Hd as [Hp Hg].
    rewrite dict_on_get in Hp, Hg. rewrite List.Forall_forall in IH.
    unfold prune.entry.
    destruct (prune.pruned_fields errs d) as [[d2 e0]|] eqn:Ef; [|discriminate].
    cbn [bind].
    apply pruned_fields_get in Ef.
    destruct Ef as (ep & eg & _ & Gp & Gg & _).
    assert (Fp : forall v, Dict.get "pages" d2 = Some v ->
                   no_empty_group v = true /\ is_navigation v = true).
    { intros v Hv. destruct (Dict.get "pages" d) as [vp|] eqn:Ep.
      - destruct Gp as (vp' & Hr & Hget). rewrite Hget in Hv. injection Hv as <-.
        exact (proj1 (IH _ (dict_get_in _ _ _ Ep)) Hp _ _ Hr).
      - destruct Gp as [_ Hget]. congruence. }
    assert (Fg : forall v, Dict.get "groups" d2 = Some v ->
                   no_empty_group v = true /\ is_navigation v = true).
    { intros v Hv. destruct (Dict.get "groups" d) as [vg|] eqn:Eg.
      - destruct Gg as (vg' & Hr & Hget). rewrite Hget in Hv. injection Hv as <-.
        exact (proj1 (IH _ (dict_get_in _ _ _ Eg)) Hg _ _ Hr).
      - destruct Gg as [_ Hget]. congruence. }
    destruct (prune.keeps d2) as [[|]|] eqn:Ek; cbn [bind]; intros [= <- <-];
      [|now split].
    apply keeps_has_entries in Ek;
      [|intros v Hv; exact (proj2 (Fp v Hv))|intros v Hv; exact (proj2 (Fg v Hv))].
    cbn [List.forallb filled_entry is_entry]. rewrite <- Ek, !dict_on_get.
    destruct (Dict.get "pages" d2) as [vp|];
      [destruct (Fp vp eq_refl) as [-> ->]|];
      (destruct (Dict.get "groups" d2) as [vg|];
       [destruct (Fg vg eq_refl) as [-> ->]|]); now split.
Qed.

(** After the pruner has gone through a navigation, no group of the
    result, at any depth, is empty, and the result is a navigation. *)
Theorem pruning_leaves_no_empty_group (error_page_paths : list string)
    (navigation pruned : json) (e : effects) :
  is_navigation navigation = true ->
  remove_from_groups error_page_paths navigation = Ok (pruned, e) ->
  no_empty_group pruned = true /\ is_navigation pruned = true.
Proof.
  intros Hnav H. exact (proj1 (prune_fills_all error_page_paths navigation) Hnav _ _ H).
Qed.

Lemma pruning_leaves_no_empty_group_witness :
  is_navigation
    (JArr [JObj [("group", JStr "G");
                 ("pages", JArr [JStr "p1";
                                 JObj [("group", JStr "H"); ("pages", JArr [JStr "p2"])]])]])
  = true
  /\ no_empty_group
       (JArr [JObj [("group", JStr "G"); ("pages", JArr [JStr "p1"])]]) = true.
Proof.
  split; [reflexivity|].
  exact (proj1 (pruning_leaves_no_empty_group ["p2"]
                  (JArr [JObj [("group", JStr "G");
                               ("pages", JArr [JStr "p1";
                                               JObj [("group", JStr "H");
                                                     ("pages", JArr [JStr "p2"])]])]])
                  (JArr [JObj [("group", JStr "G"); ("pages", JArr [JStr "p1"])]])
                  _ eq_refl eq_refl)).
Defined.

(** ** A navigation that needs no pruning *)

Lemma has_entries_non_empty (k : string) (d : list (string * json)) :
  has_entries k d = true -> non_empty k d = Ok true.
Proof.
  unfold has_entries, non_empty.
  destruct (Dict.get k d) as [[| | | |[|x l]|]|]; try discriminate. reflexivity.
Qed.

Lemma prune_keeps_all (errs : list string) (v : json) : prune_keeps errs v.
Proof.
  induction v as [| b | n | s | l IH | d IH] using json_rect_nested;
    try (split; discriminate).
  - (* a string *)
    split; [discriminate|]. intros _ _ H.
    change (page_refs (JArr [JStr s])) with [s] in H. cbn [List.forallb] in H.
    rewrite andb_true_r in H. apply negb_true_iff in H.
    simpl. fold (broken errs s). now rewrite H.
  - (* a list *)
    split; [|discriminate].
    rewrite is_navigation_array, no_empty_group_array. intros Hnav Hfill Hrefs.
    rewrite prune_entries_eq.
    enough (prune.entries errs l = Ok (l, no_effects)) as -> by reflexivity.
    induction IH as [|x l Hx _ IHl]; [reflexivity|].
    simpl in Hnav, Hfill. apply andb_prop in Hnav, Hfill.
    destruct Hnav as [Hx1 Hl1], Hfill as [Hx2 Hl2].
    rewrite page_refs_cons, List.forallb_app in Hrefs.
    apply andb_prop in Hrefs. destruct Hrefs as [Hx3 Hl3].
    cbn [prune.entries].
    rewrite (proj2 Hx Hx1 Hx2 Hx3), (IHl Hl1 Hl2 Hl3). reflexivity.
  - (* an object *)
    split; [discriminate|].
    intros Hd Hfill Hrefs.
    simpl in Hd. apply andb_prop in Hd. destruct Hd as [Hp Hg].
    simpl in Hfill. apply andb_prop in Hfill. destruct Hfill as [Hfill Hfg].
    apply andb_prop in Hfill. destruct Hfill as [Hsome Hfp].
    rewrite dict_on_get in Hp, Hg, Hfp, Hfg.
    rewrite page_refs_object, List.forallb_app in Hrefs.
    apply andb_prop in Hrefs. destruct Hrefs as [Hrp Hrg]. unfold refs_of in Hrp, Hrg.
    rewrite List.Forall_forall in IH.
    unfold prune.entry.
    rewrite pruned_fields_fixed.
    + cbn [bind].
      assert (Hk : prune.keeps d = Ok true).
      { unfold prune.keeps.
        destruct (has_entries "pages" d) eqn:E1.
        - now rewrite (has_entries_non_empty _ _ E1).
        - simpl in Hsome. rewrite (has_entries_non_empty _ _ Hsome).
          destruct (non_empty_returns "pages" d) as [bp Ebp].
          { intros v Hv. rewrite Hv in Hp. now apply is_navigation_is_array. }
          rewrite Ebp. now destruct bp. }
      now rewrite Hk.
    + intros v Hv. rewrite Hv in Hp, Hfp, Hrp.
      exact (proj1 (IH _ (dict_get_in _ _ _ Hv)) Hp Hfp Hrp).
    + intros v Hv. rewrite Hv in Hg, Hfg, Hrg.
      exact (proj1 (IH _ (dict_get_in _ _ _ Hv)) Hg Hfg Hrg).
Qed.

(** A navigation that has no empty group and none of whose pages is
    broken is returned as it is: no page is removed and nothing is
    printed.  With the pruning of a pruned navigation, the navigations that
    the pruner leaves as they are are those it returns. *)
Theorem sound_navigation_is_left_as_it_is (error_page_paths : list string)
    (navigation : json) :
  is_navigation navigation = true ->
  no_empty_group navigation = true ->
  List.forallb (fun p => negb (broken error_page_paths p)) (page_refs navigation) = true ->
  remove_from_groups error_page_paths navigation = Ok (navigation, Effects [] []).
Proof. apply (proj1 (prune_keeps_all error_page_paths navigation)). Qed.

Lemma sound_navigation_is_left_as_it_is_witness :
  remove_from_groups ["p9"]
    (JArr [JStr "p0"; JObj [("group", JStr "G"); ("pages", JArr [JStr "p1"])]])
  = Ok (JArr [JStr "p0"; JObj [("group", JStr "G"); ("pages", JArr [JStr "p1"])]],
        Effects [] []).
Proof.
  exact (sound_navigation_is_left_as_it_is ["p9"]
           (JArr [JStr "p0"; JObj [("group", JStr "G"); ("pages", JArr [JStr "p1"])]])
           eq_refl eq_refl eq_refl).
Defined.

(** ** The printed lines *)

Lemma printed_pages_then (a b : effects) :
  printed_pages (printed (then_effects a b))
  = printed_pages (printed a) ++ printed_pages (printed b).
Proof. apply List.flat_map_app. Qed.

Lemma removed_pages_then (a b : effects) :
  removed_pages (then_effects a b) = removed_pages a ++ removed_pages b.
Proof. reflexivity. Qed.

Lemma prune_prints_all (errs : list string) (v : json) : prune_prints errs v.
Proof.
  induction v as [| b | n | s | l IH | d IH] using json_rect_nested;
    try (split; [intros v' e [= <- <-]; reflexivity
                |intros kept e [= <- <-]; reflexivity]).
  - (* a string *)
    split; [intros v' e [= <- <-]; reflexivity|].
    intros kept e. simpl.
    destruct (List.existsb (String.eqb s) errs); intros [= <- <-]; reflexivity.
  - (* a list *)
    split; [|intros kept e [= <- <-]; reflexivity].
    intros v' e H. apply remove_from_groups_array in H.
    destruct H as (l' & -> & H).
    revert l' e H. induction IH as [|x l Hx _ IHl]; intros l' e H.
    + injection H as <- <-. reflexivity.
    + simpl in H.
      destruct (prune.entry errs x) as [[kept e1]|] eqn:Ex; [|discriminate].
      destruct (prune.entries errs l) as [[others e2]|] eqn:El; [|discriminate].
      simpl in H. injection H as <- <-.
      rewrite printed_pages_then, removed_pages_then.
      now rewrite (proj2 Hx _ _ Ex), (IHl _ _ eq_refl).
  - (* an object *)
    split; [intros v' e [= <- <-]; reflexivity|].
    intros kept e. unfold prune.entry.
    destruct (prune.pruned_fields errs d) as [[d2 e0]|] eqn:Ef; [|discriminate].
    cbn [bind].
    assert (H0 : printed_pages (printed e0) = removed_pages e0).
    { apply pruned_fields_get in Ef.
      destruct Ef as (ep & eg & -> & Gp & Gg & _).
      rewrite List.Forall_forall in IH.
      rewrite printed_pages_then, removed_pages_then. f_equal.
      - destruct (Dict.get "pages" d) as [vp|] eqn:Ep.
        + destruct Gp as (vp' & Hr & _).
          exact (proj1 (IH _ (dict_get_in _ _ _ Ep)) _ _ Hr).
        + now destruct Gp as [-> _].
      - destruct (Dict.get "groups" d) as [vg|] eqn:Eg.
        + destruct Gg as (vg' & Hr & _).
          exact (proj1 (IH _ (dict_get_in _ _ _ Eg)) _ _ Hr).
        + now destruct Gg as [-> _]. }
    destruct (prune.keeps d2) as [[|]|]; cbn [bind]; intros [= <- <-];
      [exact H0|].
    rewrite printed_pages_then, removed_pages_then, H0. reflexivity.
Qed.

(** The lines [Removed page: ...] that the pruner prints name the pages
    that it returns as removed, one line for each, in the same order; every
    other line reports an empty group. *)
Theorem every_removed_page_is_printed (error_page_paths : list string)
    (navigation pruned : json) (e : effects) :
  remove_from_groups error_page_paths navigation = Ok (pruned, e) ->
  printed_pages (printed e) = removed_pages e.
Proof. apply (proj1 (prune_prints_all error_page_paths navigation)). Qed.

Lemma every_removed_page_is_printed_witness :
  printed_pages
    [Removed_page "p1"; Removed_page "p2"; Removed_empty_group (JStr "Agents")]
  = ["p1"; "p2"].
Proof.
  exact (every_removed_page_is_printed ["p1"; "p2"]
           (JArr [JObj [("group", JStr "Agents");
                        ("pages", JArr [JStr "p1"; JStr "p2"])]])
           (JArr [])
           (Effects ["p1"; "p2"]
              [Removed_page "p1"; Removed_page "p2";
               Removed_empty_group (JStr "Agents")])
           eq_refl).
Defined.

(** ** From an error file to a page path *)

Lemma remove_all_amp_none (s : string) :
  Py.rfind "&" (remove_all "&" 0 s) = None.
Proof.
  induction s as [|c s IH]; [reflexivity|].
  cbn [remove_all]. unfold String.prefix.
  destruct (ascii_dec "&" c) as [<-|Hc].
  - destruct s; exact IH.
  - cbn [Py.rfind]. rewrite IH.
    destruct (Ascii.eqb_spec c "&"); [congruence|reflexivity].
Qed.

Lemma remove_all_amp_id (s : string) :
  Py.rfind "&" s = None -> remove_all "&" 0 s = s.
Proof.
  induction s as [|c s IH]; [reflexivity|].
  cbn [Py.rfind remove_all]. unfold String.prefix.
  destruct (Py.rfind "&" s); [discriminate|].
  destruct (Ascii.eqb_spec c "&") as [->|Hc]; [discriminate|]. intros _.
  destruct (ascii_dec "&" c) as [<-|_]; [congruence|].
  now rewrite IH.
Qed.

Lemma append_cons (c : ascii) (a b : string) : String c a +:+ b = String c (a +:+ b).
Proof. reflexivity. Qed.

Lemma append_nil (b : string) : EmptyString +:+ b = b.
Proof. reflexivity. Qed.

Lemma prefix_mdx_app (s : string) :
  s <> EmptyString ->
  String.prefix ".mdx" (s +:+ ".mdx") = String.prefix ".mdx" s.
Proof.
  intros Hs.
  destruct s as [|c1 [|c2 [|c3 [|c4 s]]]]; [congruence| | | |];
    rewrite ?append_cons, ?append_nil;
    cbn [String.prefix];
    repeat match goal with
           | |- context [ascii_dec ?a ?b] => destruct (ascii_dec a b)
           end; try reflexivity; try discriminate; try congruence.
  destruct s; reflexivity.
Qed.

Lemma remove_all_mdx_suffix (p : string) :
  is_substring ".mdx" p = false -> remove_all ".mdx" 0 (p +:+ ".mdx") = p.
Proof.
  induction p as [|c p IH]; [reflexivity|].
  intros H. cbn [is_substring] in H. apply orb_false_elim in H.
  destruct H as [Hpre Hsub].
  change (String c p +:+ ".mdx") with (String c (p +:+ ".mdx")).
  cbn [remove_all].
  change (String c (p +:+ ".mdx")) with (String c p +:+ ".mdx").
  rewrite prefix_mdx_app by discriminate. rewrite Hpre.
  now rewrite (IH Hsub).
Qed.

(** The page path of the error file [p.mdx] is [p], when [p] has no ["&"]
    and no [".mdx"] inside, so that the pruner takes the page [p] for
    broken; and no page path made from an error file has an ["&"], so a
    page whose path has one is never taken for broken. *)
Theorem error_file_names_its_page (error_files : list string) (p : string) :
  (Py.rfind "&" p = None -> is_substring ".mdx" p = false ->
   file_path_to_page_path (p +:+ ".mdx") = p
   /\ (In (p +:+ ".mdx") error_files ->
       broken (List.map file_path_to_page_path error_files) p = true))
  /\ (Py.rfind "&" p <> None ->
      broken (List.map file_path_to_page_path error_files) p = false).
Proof.
  split.
  - intros Hamp Hmdx.
    assert (E : file_path_to_page_path (p +:+ ".mdx") = p).
    { unfold file_path_to_page_path.
      now rewrite (remove_all_mdx_suffix p Hmdx), (remove_all_amp_id p Hamp). }
    split; [exact E|]. intros Hin. apply broken_in.
    rewrite <- E at 1. now apply List.in_map.
  - intros Hamp. destruct (broken _ p) eqn:B; [|reflexivity].
    apply broken_in, List.in_map_iff in B. destruct B as (f & Hf & _).
    unfold file_path_to_page_path in Hf.
    pose proof (remove_all_amp_none (remove_all ".mdx" 0 f)) as N.
    rewrite Hf in N. contradiction.
Qed.

Lemma error_file_names_its_page_witness :
  Py.rfind "&" "reference/camel.agents" = None
  /\ is_substring ".mdx" "reference/camel.agents" = false
  /\ file_path_to_page_path ("reference/camel.agents" +:+ ".mdx")
     = "reference/camel.agents"
  /\ Py.rfind "&" "reference/q&a" <> None
  /\ broken (List.map file_path_to_page_path ["reference/q&a.mdx"]) "reference/q&a"
     = false.
Proof.
  split; [reflexivity|]. split; [reflexivity|].
  split.
  { exact (proj1 (proj1 (error_file_names_its_page [] "reference/camel.agents")
                    eq_refl eq_refl)). }
  assert (H : Py.rfind "&" "reference/q&a" <> None) by discriminate.
  split; [exact H|].
  exact (proj2 (error_file_names_its_page ["reference/q&a.mdx"] "reference/q&a") H).
Defined.

(** ** Lines of a text *)

Lemma join_cons_char (sep : string) (c : ascii) (h : string) (t : list string) :
  Json.join sep (String c h :: t) = String c (Json.join sep (h :: t)).
Proof. destruct t; reflexivity. Qed.

(** ['\n'.join(s.split('\n')) == s] *)
Lemma unlines_lines (s : string) : PyText.unlines (PyText.lines s) = s.
Proof.
  unfold PyText.unlines, PyText.lines.
  induction s as [|c s IH]; [reflexivity|].
  cbn [Py.split].
  destruct (Ascii.eqb_spec c (ascii_of_nat 10)) as [->|Hc].
  - pose proof (split_not_nil (ascii_of_nat 10) s) as N.
    destruct (Py.split (ascii_of_nat 10) s) as [|y l] eqn:E; [congruence|].
    change (Json.join PyText.nl (EmptyString :: y :: l))
      with (EmptyString +:+ PyText.nl +:+ Json.join PyText.nl (y :: l)).
    rewrite IH. reflexivity.
  - pose proof (split_not_nil (ascii_of_nat 10) s) as N.
    destruct (Py.split (ascii_of_nat 10) s) as [|y l] eqn:E; [congruence|].
    rewrite join_cons_char, IH. reflexivity.
Qed.

Lemma lines_one_line (s : string) : one_line s -> PyText.lines s = [s].
Proof. apply split_without_separator. Qed.

Lemma lines_cons (x r : string) :
  one_line x -> PyText.lines (x +:+ PyText.nl +:+ r) = x :: PyText.lines r.
Proof.
  unfold one_line, PyText.lines. induction x as [|c x IH]; intros H.
  - reflexivity.
  - cbn [Py.rfind] in H.
    destruct (Py.rfind (ascii_of_nat 10) x) eqn:E; [discriminate|].
    destruct (Ascii.eqb_spec c (ascii_of_nat 10)); [discriminate|].
    rewrite append_cons. cbn [Py.split].
    destruct (Ascii.eqb_spec c (ascii_of_nat 10)); [contradiction|].
    now rewrite (IH eq_refl).
Qed.

(** The lines of a text made by joining lines are those lines. *)
Lemma lines_unlines (l : list string) :
  l <> [] -> List.Forall one_line l -> PyText.lines (PyText.unlines l) = l.
Proof.
  intros Hl Hone. induction Hone as [|x l Hx Hone IH]; [congruence|].
  destruct l as [|y l].
  - now apply lines_one_line.
  - change (PyText.unlines (x :: y :: l))
      with (x +:+ PyText.nl +:+ PyText.unlines (y :: l)).
    rewrite (lines_cons _ _ Hx), IH by discriminate. reflexivity.
Qed.

Lemma split_one_line (s : string) : List.Forall one_line (PyText.lines s).
Proof.
  unfold PyText.lines, one_line. induction s as [|c s IH]; [now repeat constructor|].
  cbn [Py.split].
  destruct (Ascii.eqb_spec c (ascii_of_nat 10)) as [->|Hc].
  - constructor; [reflexivity|exact IH].
  - pose proof (split_not_nil (ascii_of_nat 10) s) as N.
    destruct (Py.split (ascii_of_nat 10) s) as [|y l]; [congruence|].
    inversion IH as [|? ? Hy Hl]; subst. constructor; [|exact Hl].
    cbn [Py.rfind]. rewrite Hy.
    destruct (Ascii.eqb_spec c (ascii_of_nat 10)); [contradiction|reflexivity].
Qed.

(** ** Stripping *)

Lemma lstrip_one_line (s : string) : one_line s -> one_line (PyText.lstrip s).
Proof.
  unfold one_line. induction s as [|c s IH]; [trivial|].
  intros H. cbn [PyText.lstrip]. destruct (PyText.is_space c); [|exact H].
  apply IH. cbn [Py.rfind] in H.
  destruct (Py.rfind (ascii_of_nat 10) s); [discriminate|reflexivity].
Qed.

Lemma rstrip_one_line (s : string) : one_line s -> one_line (PyText.rstrip s).
Proof.
  unfold one_line. induction s as [|c s IH]; [trivial|].
  intros H. cbn [Py.rfind] in H.
  destruct (Py.rfind (ascii_of_nat 10) s) eqn:E; [discriminate|].
  specialize (IH eq_refl). cbn [PyText.rstrip].
  destruct (PyText.rstrip s) as [|c' r'] eqn:Er.
  - destruct (PyText.is_space c); [reflexivity|].
    cbn [Py.rfind]. exact H.
  - cbn [Py.rfind] in IH |- *.
    destruct (Py.rfind (ascii_of_nat 10) r'); [discriminate|].
    destruct (Ascii.eqb c' (ascii_of_nat 10)); [discriminate|]. exact H.
Qed.

Lemma strip_one_line (s : string) : one_line s -> one_line (PyText.strip s).
Proof. intros H. now apply lstrip_one_line, rstrip_one_line. Qed.

Lemma lstrip_lstrip (s : string) : PyText.lstrip (PyText.lstrip s) = PyText.lstrip s.
Proof.
  induction s as [|c s IH]; [reflexivity|].
  cbn [PyText.lstrip]. destruct (PyText.is_space c) eqn:E; [exact IH|].
  cbn [PyText.lstrip]. now rewrite E.
Qed.

Lemma rstrip_cons (c : ascii) (r : string) :
  PyText.rstrip r <> EmptyString ->
  PyText.rstrip (String c r) = String c (PyText.rstrip r).
Proof. intros H. cbn [PyText.rstrip]. now destruct (PyText.rstrip r). Qed.

Lemma rstrip_rstrip (s : string) : PyText.rstrip (PyText.rstrip s) = PyText.rstrip s.
Proof.
  induction s as [|c s IH]; [reflexivity|].
  cbn [PyText.rstrip]. destruct (PyText.rstrip s) as [|c' r'] eqn:Er.
  - destruct (PyText.is_space c) eqn:E; [reflexivity|].
    cbn [PyText.rstrip]. now rewrite E.
  - rewrite (rstrip_cons c (String c' r')); [now rewrite IH|].
    rewrite IH. discriminate.
Qed.

(** Stripping the left of a text that does not end with a space gives a
    text that does not end with a space. *)
Lemma rstrip_lstrip (x : string) :
  PyText.rstrip x = x -> PyText.rstrip (PyText.lstrip x) = PyText.lstrip x.
Proof.
  induction x as [|c x IH]; [reflexivity|].
  intros H. cbn [PyText.lstrip]. destruct (PyText.is_space c) eqn:E; [|exact H].
  apply IH. cbn [PyText.rstrip] in H.
  destruct (PyText.rstrip x) as [|c' r'] eqn:Er.
  - rewrite E in H. discriminate.
  - now injection H.
Qed.

Lemma strip_strip (s : string) : PyText.strip (PyText.strip s) = PyText.strip s.
Proof.
  unfold PyText.strip.
  rewrite (rstrip_lstrip (PyText.rstrip s) (rstrip_rstrip s)).
  apply lstrip_lstrip.
Qed.

Lemma stripped_both (s : string) :
  PyText.strip s = s -> PyText.rstrip s = s /\ PyText.lstrip s = s.
Proof.
  intros H. unfold PyText.strip in H.
  assert (R : PyText.rstrip s = s).
  { rewrite <- H at 1. rewrite (rstrip_lstrip _ (rstrip_rstrip s)). exact H. }
  split; [exact R|]. now rewrite R in H.
Qed.

(** ** Headings *)

Lemma startswith_hash (c : ascii) (r : string) :
  Py.startswith "#" (String c r) = Ascii.eqb c "#".
Proof.
  unfold Py.startswith. cbn [String.prefix].
  destruct (ascii_dec "#" c) as [<-|H].
  - now destruct r.
  - destruct (Ascii.eqb_spec c "#"); congruence.
Qed.

Lemma hashes_split (line : string) :
  line = PyText.repeat_char "#"
           (String.length line - String.length (PyText.lstrip_char "#" line))
         +:+ PyText.lstrip_char "#" line
  /\ String.length (PyText.lstrip_char "#" line) <= String.length line.
Proof.
  induction line as [|c line [IH L]]; [split; [reflexivity|simpl; lia]|].
  cbn [PyText.lstrip_char]. destruct (Ascii.eqb_spec c "#") as [->|Hc].
  - cbn [String.length].
    replace (S (String.length line) - String.length (PyText.lstrip_char "#" line))
      with (S (String.length line - String.length (PyText.lstrip_char "#" line)))
      by lia.
    cbn [PyText.repeat_char]. rewrite append_cons, <- IH. split; [reflexivity|lia].
  - rewrite Nat.sub_diag. split; [reflexivity|simpl; lia].
Qed.

Lemma lstrip_char_hashes (n : nat) (rest : string) :
  Py.startswith "#" rest = false ->
  PyText.lstrip_char "#" (PyText.repeat_char "#" n +:+ rest) = rest.
Proof.
  intros H. induction n as [|n IH].
  - rewrite append_nil. destruct rest as [|c r]; [reflexivity|].
    rewrite startswith_hash in H. cbn [PyText.lstrip_char]. now rewrite H.
  - cbn [PyText.repeat_char]. rewrite append_cons. cbn [PyText.lstrip_char].
    exact IH.
Qed.

Lemma length_hashes (n : nat) : String.length (PyText.repeat_char "#" n) = n.
Proof. induction n as [|n IH]; simpl; [reflexivity|now rewrite IH]. Qed.

Lemma lstrip_char_not_hash (line : string) :
  Py.startswith "#" (PyText.lstrip_char "#" line) = false.
Proof.
  induction line as [|c line IH]; [reflexivity|].
  cbn [PyText.lstrip_char]. destruct (Ascii.eqb c "#") eqn:E; [exact IH|].
  now rewrite startswith_hash.
Qed.

(** What [markdown_to_mdx] appends for a line is settled. *)
Lemma mdx_line_settled (line : string) :
  List.Forall settled_line (build_api_docs_text.mdx_line line).
Proof.
  unfold build_api_docs_text.mdx_line.
  destruct (Py.startswith "#" line) eqn:Hs.
  - destruct (String.eqb_spec (PyText.strip (PyText.lstrip_char "#" line)) EmptyString)
      as [E|E]; constructor; [|constructor].
    intros _.
    destruct (hashes_split line) as [Hl L].
    remember (String.length line - String.length (PyText.lstrip_char "#" line)) as level.
    destruct level as [|level].
    + exfalso. cbn [PyText.repeat_char] in Hl. rewrite append_nil in Hl.
      pose proof (lstrip_char_not_hash line) as N. rewrite <- Hl in N. congruence.
    + exists level, (PyText.strip (PyText.lstrip_char "#" line)).
      split; [reflexivity|]. split; [exact E|apply strip_strip].
  - constructor; [|constructor]. intros H. congruence.
Qed.

Lemma strip_space_cons (title : string) :
  title <> EmptyString -> PyText.strip title = title ->
  PyText.strip (String " " title) = title.
Proof.
  intros Hne Hs. destruct (stripped_both title Hs) as [R L].
  unfold PyText.strip. rewrite rstrip_cons by (rewrite R; exact Hne).
  rewrite R. cbn [PyText.lstrip]. change (PyText.is_space " ") with true.
  cbv iota. exact L.
Qed.

(** A settled line is appended as it is. *)
Lemma mdx_line_fixed (line : string) :
  settled_line line -> build_api_docs_text.mdx_line line = [line].
Proof.
  intros H. unfold build_api_docs_text.mdx_line.
  destruct (Py.startswith "#" line) eqn:Hs; [|reflexivity].
  destruct (H Hs) as (level & title & -> & Hne & Hst).
  assert (Hrest : Py.startswith "#" (" " +:+ title) = false) by reflexivity.
  rewrite (lstrip_char_hashes (S level) (" " +:+ title) Hrest).
  rewrite (length_append (PyText.repeat_char "#" (S level))), length_hashes.
  rewrite Nat.add_sub.
  change (" " +:+ title) with (String " " title).
  rewrite (strip_space_cons title Hne Hst).
  destruct (String.eqb_spec title EmptyString); [contradiction|reflexivity].
Qed.

Lemma one_line_app (a b : string) : one_line a -> one_line b -> one_line (a +:+ b).
Proof. unfold one_line. intros Ha Hb. now rewrite rfind_app, Hb. Qed.

Lemma hashes_one_line (n : nat) : one_line (PyText.repeat_char "#" n).
Proof.
  unfold one_line. induction n as [|n IH]; [reflexivity|].
  cbn [PyText.repeat_char Py.rfind]. now rewrite IH.
Qed.

Lemma lstrip_char_one_line (ch : ascii) (s : string) :
  one_line s -> one_line (PyText.lstrip_char ch s).
Proof.
  unfold one_line. induction s as [|c s IH]; [trivial|].
  intros H. cbn [PyText.lstrip_char]. destruct (Ascii.eqb c ch); [|exact H].
  apply IH. cbn [Py.rfind] in H.
  destruct (Py.rfind (ascii_of_nat 10) s); [discriminate|reflexivity].
Qed.

Lemma mdx_line_one_line (line : string) :
  one_line line -> List.Forall one_line (build_api_docs_text.mdx_line line).
Proof.
  intros H. unfold build_api_docs_text.mdx_line.
  destruct (Py.startswith "#" line); [|now repeat constructor].
  destruct (String.eqb _ _); constructor; [|constructor].
  apply one_line_app; [apply hashes_one_line|].
  apply (one_line_app " "); [reflexivity|].
  now apply strip_one_line, lstrip_char_one_line.
Qed.

Lemma flat_map_fixed {A} (f : A -> list A) (l : list A) :
  List.Forall (fun x => f x = [x]) l -> List.flat_map f l = l.
Proof.
  induction 1 as [|x l Hx _ IH]; [reflexivity|].
  cbn [List.flat_map]. now rewrite Hx, IH.
Qed.

(** A text none of whose lines starts with a hash is copied as it is after
    the front matter; no text, or an empty one, gives [None]. *)
Theorem text_without_heading_is_copied (content module_name : string) :
  content <> EmptyString ->
  List.Forall (fun line => Py.startswith "#" line = false) (PyText.lines content) ->
  build_api_docs_text.markdown_to_mdx (Some content) module_name
  = Some (build_api_docs_text.front_matter module_name +:+ content)
  /\ build_api_docs_text.markdown_to_mdx None module_name = None
  /\ build_api_docs_text.markdown_to_mdx (Some EmptyString) module_name = None.
Proof.
  intros Hne Hl. split; [|now split].
  unfold build_api_docs_text.markdown_to_mdx.
  destruct content as [|c content]; [congruence|].
  rewrite flat_map_fixed, unlines_lines; [reflexivity|].
  eapply List.Forall_impl; [|exact Hl].
  intros line H. unfold build_api_docs_text.mdx_line. now rewrite H.
Qed.

Lemma text_without_heading_is_copied_witness :
  "Chat agent." <> EmptyString
  /\ List.Forall (fun line => Py.startswith "#" line = false)
       (PyText.lines "Chat agent.")
  /\ build_api_docs_text.markdown_to_mdx (Some "Chat agent.") "camel.agents"
     = Some (build_api_docs_text.front_matter "camel.agents" +:+ "Chat agent.").
Proof.
  assert (H1 : "Chat agent." <> EmptyString) by discriminate.
  assert (H2 : List.Forall (fun line => Py.startswith "#" line = false)
                 (PyText.lines "Chat agent."))
    by (repeat constructor).
  split; [exact H1|]. split; [exact H2|].
  exact (proj1 (text_without_heading_is_copied "Chat agent." "camel.agents" H1 H2)).
Defined.

(** Every heading of the body that [markdown_to_mdx] writes is made of
    hashes, one space and a title without a space around it, a heading
    without a title being left out; and the conversion of that body writes
    the same body again. *)
Theorem headings_are_normalised (content module_name : string) :
  content <> EmptyString ->
  let body := List.flat_map build_api_docs_text.mdx_line (PyText.lines content) in
  build_api_docs_text.markdown_to_mdx (Some content) module_name
  = Some (build_api_docs_text.front_matter module_name +:+ PyText.unlines body)
  /\ List.Forall settled_line body
  /\ (PyText.unlines body <> EmptyString ->
      build_api_docs_text.markdown_to_mdx (Some (PyText.unlines body)) module_name
      = Some (build_api_docs_text.front_matter module_name +:+ PyText.unlines body)).
Proof.
  intros Hne body.
  assert (Hs : List.Forall settled_line body).
  { apply List.Forall_flat_map, List.Forall_forall. intros line _.
    apply mdx_line_settled. }
  assert (Ho : List.Forall one_line body).
  { apply List.Forall_flat_map.
    eapply List.Forall_impl; [|apply split_one_line].
    intros line. apply mdx_line_one_line. }
  split; [|split; [exact Hs|]].
  - destruct content; [congruence|reflexivity].
  - intros Hb. unfold build_api_docs_text.markdown_to_mdx.
    destruct (PyText.unlines body) as [|c r] eqn:E; [congruence|].
    rewrite <- E. rewrite lines_unlines; [| |exact Ho].
    + rewrite flat_map_fixed; [reflexivity|].
      eapply List.Forall_impl; [|exact Hs]. apply mdx_line_fixed.
    + intros Hnil. rewrite Hnil in E. discriminate.
Qed.

Lemma headings_are_normalised_witness :
  "##Title " <> EmptyString
  /\ build_api_docs_text.markdown_to_mdx (Some "##Title ") "camel.agents"
     = Some (build_api_docs_text.front_matter "camel.agents" +:+ "## Title").
Proof.
  assert (H : "##Title " <> EmptyString) by discriminate.
  split; [exact H|].
  exact (proj1 (headings_are_normalised "##Title " "camel.agents" H)).
Defined.

(** ** Cleaning a text *)

Lemma clean_lines_tidy (start_found : bool) (ls : list string) :
  List.Forall one_line ls ->
  List.Forall (fun l => tidy_line l /\ one_line l)
    (build_api_docs_text.clean_lines start_found ls).
Proof.
  intros H. revert start_found.
  induction H as [|raw ls Hraw _ IH]; intros start_found; [constructor|].
  cbn [build_api_docs_text.clean_lines].
  destruct (negb start_found && String.eqb (PyText.strip raw) EmptyString);
    [apply IH|].
  destruct (build_api_docs_text.skipped (PyText.strip raw)) eqn:Esk; [apply IH|].
  destruct (if negb (String.eqb (PyText.strip raw) EmptyString) && negb start_found
            then true else start_found); [|apply IH].
  constructor; [|apply IH].
  split; [split; [apply strip_strip|exact Esk]|now apply strip_one_line].
Qed.

Lemma clean_lines_head (ls : list string) (l : string) (rest : list string) :
  build_api_docs_text.clean_lines false ls = l :: rest -> l <> EmptyString.
Proof.
  induction ls as [|raw ls IH]; [discriminate|].
  cbn [build_api_docs_text.clean_lines negb andb].
  destruct (String.eqb_spec (PyText.strip raw) EmptyString) as [E|E]; [exact IH|].
  destruct (build_api_docs_text.skipped (PyText.strip raw)); [exact IH|].
  cbn [negb andb]. intros [= <- _]. exact E.
Qed.

Lemma clean_lines_fixed (ls : list string) :
  List.Forall tidy_line ls -> build_api_docs_text.clean_lines true ls = ls.
Proof.
  induction 1 as [|l ls [Hs Hk] _ IH]; [reflexivity|].
  cbn [build_api_docs_text.clean_lines negb andb]. rewrite Hs, Hk.
  destruct (negb (String.eqb l EmptyString) && false); now rewrite IH.
Qed.

Lemma clean_lines_fixed_start (l : string) (ls : list string) :
  l <> EmptyString -> List.Forall tidy_line (l :: ls) ->
  build_api_docs_text.clean_lines false (l :: ls) = l :: ls.
Proof.
  intros Hne H. inversion H as [|? ? [Hs Hk] Hl]; subst.
  cbn [build_api_docs_text.clean_lines negb andb]. rewrite Hs, Hk.
  destruct (String.eqb_spec l EmptyString); [contradiction|].
  cbn [negb andb]. now rewrite (clean_lines_fixed ls Hl).
Qed.

Lemma pop_empty_forall (P : string -> Prop) (ls : list string) :
  List.Forall P ls -> List.Forall P (build_api_docs_text.pop_empty ls).
Proof.
  induction 1 as [|l ls Hl _ IH]; [constructor|].
  cbn [build_api_docs_text.pop_empty].
  destruct (build_api_docs_text.pop_empty ls) as [|x r].
  - destruct (String.eqb l EmptyString); repeat constructor; exact Hl.
  - now constructor.
Qed.

Lemma pop_empty_head (ls : list string) (l : string) (rest : list string) :
  build_api_docs_text.pop_empty ls = l :: rest -> exists rest', ls = l :: rest'.
Proof.
  destruct ls as [|x ls]; [discriminate|].
  cbn [build_api_docs_text.pop_empty].
  destruct (build_api_docs_text.pop_empty ls) as [|y r].
  - destruct (String.eqb x EmptyString); [discriminate|]. intros [= <- _]. eauto.
  - intros [= <- _]. eauto.
Qed.

Lemma pop_empty_last (ls : list string) :
  build_api_docs_text.pop_empty ls <> [] ->
  List.last (build_api_docs_text.pop_empty ls) EmptyString <> EmptyString.
Proof.
  induction ls as [|l ls IH]; [intros H; now contradiction H|].
  cbn [build_api_docs_text.pop_empty].
  destruct (build_api_docs_text.pop_empty ls) as [|x r] eqn:E.
  - destruct (String.eqb_spec l EmptyString); [congruence|]. intros _. exact n.
  - intros _. change (List.last (l :: x :: r) EmptyString)
      with (List.last (x :: r) EmptyString).
    apply IH. discriminate.
Qed.

Lemma pop_empty_fixed (ls : list string) :
  List.last ls EmptyString <> EmptyString -> build_api_docs_text.pop_empty ls = ls.
Proof.
  induction ls as [|l ls IH]; [reflexivity|].
  intros H. cbn [build_api_docs_text.pop_empty].
  destruct ls as [|x r].
  - cbn [build_api_docs_text.pop_empty]. simpl in H.
    destruct (String.eqb_spec l EmptyString); [contradiction|reflexivity].
  - rewrite IH by exact H. reflexivity.
Qed.

(** The text that [clean_markdown_content] returns, when it is not empty,
    has only lines without a space around them and without any of the
    words that make the function skip a line, in whatever case; its first
    and its last line are not empty; and cleaning it again returns it as
    it is. *)
Theorem cleaned_text_is_tidy (content : string) :
  content <> EmptyString ->
  exists out,
    build_api_docs_text.clean_markdown_content (Some content) = Some out
    /\ (out <> EmptyString ->
        List.Forall tidy_line (PyText.lines out)
        /\ List.hd EmptyString (PyText.lines out) <> EmptyString
        /\ List.last (PyText.lines out) EmptyString <> EmptyString
        /\ build_api_docs_text.clean_markdown_content (Some out) = Some out).
Proof.
  intros Hne.
  set (ols := build_api_docs_text.pop_empty
                (build_api_docs_text.clean_lines false (PyText.lines content))).
  exists (PyText.unlines ols). split.
  { destruct content; [congruence|reflexivity]. }
  intros Hout.
  assert (Hnil : ols <> []) by (intros E; rewrite E in Hout; now apply Hout).
  assert (Hall : List.Forall (fun l => tidy_line l /\ one_line l) ols).
  { apply pop_empty_forall, clean_lines_tidy, split_one_line. }
  assert (Htidy : List.Forall tidy_line ols).
  { eapply List.Forall_impl; [|exact Hall]. now intros l [H _]. }
  assert (Hone : List.Forall one_line ols).
  { eapply List.Forall_impl; [|exact Hall]. now intros l [_ H]. }
  assert (Hlast : List.last ols EmptyString <> EmptyString)
    by (apply pop_empty_last; exact Hnil).
  assert (Hhd : exists l rest, ols = l :: rest /\ l <> EmptyString).
  { destruct ols as [|l rest] eqn:E; [congruence|].
    exists l, rest. split; [reflexivity|].
    destruct (pop_empty_head _ _ _ E) as [rest' E'].
    exact (clean_lines_head _ _ _ E'). }
  rewrite (lines_unlines ols Hnil Hone).
  split; [exact Htidy|]. split.
  { destruct Hhd as (l & rest & -> & Hl). exact Hl. }
  split; [exact Hlast|].
  unfold build_api_docs_text.clean_markdown_content.
  destruct (PyText.unlines ols) as [|c r] eqn:E; [congruence|].
  rewrite <- E, (lines_unlines ols Hnil Hone).
  destruct Hhd as (l & rest & Hols & Hl).
  rewrite Hols in Htidy, Hlast |- *.
  rewrite (clean_lines_fixed_start l rest Hl Htidy).
  now rewrite (pop_empty_fixed _ Hlast).
Qed.

Lemma cleaned_text_is_tidy_witness :
  " Navigation" +:+ PyText.nl +:+ " Title " +:+ PyText.nl +:+ " " <> EmptyString
  /\ exists out,
       build_api_docs_text.clean_markdown_content
         (Some (" Navigation" +:+ PyText.nl +:+ " Title " +:+ PyText.nl +:+ " "))
       = Some out
       /\ (out <> EmptyString ->
           List.Forall tidy_line (PyText.lines out)
           /\ List.hd EmptyString (PyText.lines out) <> EmptyString
           /\ List.last (PyText.lines out) EmptyString <> EmptyString
           /\ build_api_docs_text.clean_markdown_content (Some out) = Some out).
Proof.
  assert (H : " Navigation" +:+ PyText.nl +:+ " Title " +:+ PyText.nl +:+ " "
              <> EmptyString) by discriminate.
  split; [exact H|].
  exact (cleaned_text_is_tidy _ H).
Defined.

(** ** Telling a page with content from one without *)

Lemma lstrip_all_space (s : string) :
  PyText.lstrip s = EmptyString <-> all_space s = true.
Proof.
  induction s as [|c s IH]; [easy|].
  cbn [PyText.lstrip all_space]. destruct (PyText.is_space c); cbn [andb].
  - exact IH.
  - split; discriminate.
Qed.

Lemma rstrip_all_space (s : string) :
  all_space s = true -> PyText.rstrip s = EmptyString.
Proof.
  induction s as [|c s IH]; [easy|].
  cbn [PyText.rstrip all_space]. intros [Hc Hs]%andb_prop.
  now rewrite (IH Hs), Hc.
Qed.

Lemma all_space_rstrip (s : string) :
  all_space (PyText.rstrip s) = true -> all_space s = true.
Proof.
  induction s as [|c s IH]; [easy|].
  cbn [PyText.rstrip all_space].
  destruct (PyText.rstrip s) as [|x r] eqn:E.
  - destruct (PyText.is_space c) eqn:Hc; cbn [all_space andb].
    + intros _. now apply IH.
    + rewrite Hc. discriminate.
  - cbn [all_space]. intros [Hc Hs]%andb_prop. rewrite Hc. cbn [andb].
    apply IH. exact Hs.
Qed.

Lemma strip_all_space (s : string) :
  PyText.strip s = EmptyString <-> all_space s = true.
Proof.
  unfold PyText.strip. rewrite lstrip_all_space. split.
  - apply all_space_rstrip.
  - intros H. now rewrite (rstrip_all_space s H).
Qed.

Lemma all_space_lines (s : string) :
  all_space s = true ->
  List.Forall (fun l => all_space l = true) (PyText.lines s).
Proof.
  unfold PyText.lines. induction s as [|c s IH]; [now repeat constructor|].
  cbn [all_space Py.split]. intros [Hc Hs]%andb_prop.
  specialize (IH Hs).
  destruct (Ascii.eqb c (ascii_of_nat 10)); [now constructor|].
  destruct (Py.split (ascii_of_nat 10) s) as [|h t].
  - repeat constructor. cbn [all_space]. now rewrite Hc.
  - inversion IH as [|? ? Hh Ht]; subst. constructor; [|exact Ht].
    cbn [all_space]. now rewrite Hc, Hh.
Qed.

Lemma blank_text_has_no_line (content : string) :
  PyText.strip content = EmptyString -> substantial_lines content = [].
Proof.
  intros H%strip_all_space%all_space_lines. unfold substantial_lines.
  induction H as [|l ls Hl _ IH]; [reflexivity|].
  cbn [List.filter]. apply strip_all_space in Hl. rewrite Hl. exact IH.
Qed.

Lemma is_content_substantial_counts (content : string) :
  build_api_docs_text.is_content_substantial content
  = (3 <=? List.length (substantial_lines content))%nat.
Proof.
  unfold build_api_docs_text.is_content_substantial.
  destruct (String.eqb_spec (PyText.strip content) EmptyString) as [E|E].
  - now rewrite (blank_text_has_no_line content E).
  - reflexivity.
Qed.

Lemma filter_length_le {A : Type} (f : A -> bool) (l : list A) :
  (List.length (List.filter f l) <= List.length l)%nat.
Proof.
  induction l as [|x l IH]; [reflexivity|].
  cbn [List.filter]. destruct (f x); simpl; lia.
Qed.

(** A line that is blank, or that starts after its leading space with
    ["#"] or ["<a id="], or that is a code fence, does not count: put it
    before a text and [is_content_substantial] answers as for the text
    alone. *)
Theorem uncounted_line_changes_nothing (line content : string) :
  one_line line ->
  PyText.strip line = EmptyString
  \/ build_api_docs_text.substantial (PyText.strip line) = false ->
  build_api_docs_text.is_content_substantial (line +:+ PyText.nl +:+ content)
  = build_api_docs_text.is_content_substantial content.
Proof.
  intros Hone H. rewrite !is_content_substantial_counts.
  unfold substantial_lines. rewrite (lines_cons line content Hone).
  cbn [List.filter].
  destruct (String.eqb_spec (PyText.strip line) EmptyString) as [E|E];
    cbn [negb]; [reflexivity|].
  destruct H as [H|H]; [contradiction|].
  cbn [List.map List.filter]. now rewrite H.
Qed.

Lemma uncounted_line_changes_nothing_witness :
  build_api_docs_text.is_content_substantial
    ("  ## Agents" +:+ PyText.nl +:+ "a" +:+ PyText.nl +:+ "b" +:+ PyText.nl +:+ "c")
  = build_api_docs_text.is_content_substantial
      ("a" +:+ PyText.nl +:+ "b" +:+ PyText.nl +:+ "c").
Proof.
  apply (uncounted_line_changes_nothing "  ## Agents").
  - reflexivity.
  - right. reflexivity.
Defined.

(** A text that [is_content_substantial] accepts has at least three lines
    that are not blank, and [markdown_to_mdx] returns a page for it: after
    the check, the conversion in [generate_mdx_docs] does not come back
    empty-handed. *)
Theorem substantial_text_is_converted (content module_name : string) :
  build_api_docs_text.is_content_substantial content = true ->
  (3 <= List.length
          (List.filter (fun line => negb (String.eqb (PyText.strip line) EmptyString))
             (PyText.lines content)))%nat
  /\ exists page,
       build_api_docs_text.markdown_to_mdx (Some content) module_name = Some page
       /\ Py.startswith (build_api_docs_text.front_matter module_name) page = true.
Proof.
  intros H. split.
  - rewrite is_content_substantial_counts in H. apply Nat.leb_le in H.
    unfold substantial_lines in H.
    pose proof (filter_length_le build_api_docs_text.substantial
      (List.map PyText.strip
         (List.filter (fun line => negb (String.eqb (PyText.strip line) EmptyString))
            (PyText.lines content)))) as Hle.
    rewrite List.length_map in Hle. lia.
  - destruct content as [|c r]; [discriminate|].
    eexists. split; [reflexivity|].
    unfold Py.startswith. apply prefix_correct.
    rewrite substring_prefix. reflexivity.
Qed.

Lemma substantial_text_is_converted_witness :
  (3 <= List.length
          (List.filter (fun line => negb (String.eqb (PyText.strip line) EmptyString))
             (PyText.lines ("a" +:+ PyText.nl +:+ "b" +:+ PyText.nl +:+ "c"))))%nat
  /\ exists page,
       build_api_docs_text.markdown_to_mdx
         (Some ("a" +:+ PyText.nl +:+ "b" +:+ PyText.nl +:+ "c")) "camel.agents"
       = Some page
       /\ Py.startswith (build_api_docs_text.front_matter "camel.agents") page = true.
Proof.
  apply (substantial_text_is_converted
           ("a" +:+ PyText.nl +:+ "b" +:+ PyText.nl +:+ "c") "camel.agents").
  reflexivity.
Defined.

(** ** The two renderers *)

(** The two scripts render the same navigation from the same tree, and so
    from the same files: the entry ["camel"] that only the order table of
    [organize_modules.py] has is passed over by its loop, and the other
    entries are those of [build_api_docs.py], in the same order. *)
Theorem scripts_render_the_same_navigation (t : module_dict) :
  organize_modules.convert_tree_to_navigation t
  = build_api_docs.convert_tree_to_navigation t
  /\ organize_modules.MODULE_ORDER = "camel" :: build_api_docs.MODULE_ORDER.
Proof. split; [apply convert_same|reflexivity]. Qed.
